(** * Authentication and authorization core of the SEMI portal

  A shallow embedding of [server/auth.ts] (registration, password reset,
  e-mail verification, two-factor enrolment, the [requireAuth] middleware,
  password comparison) and of [client/src/lib/permissions.ts] (the pure
  permission predicates), followed by the properties proved about them.

  JavaScript strings are modelled as [string] (one character per code
  unit, ASCII case mapping), timestamps as [Z] milliseconds, rows of the
  relational store as records kept in lists. *)

From Stdlib Require Import String Ascii List ZArith Bool Lia DecimalString.
From Stdlib Require Strings.Byte.
Import ListNotations.
Open Scope string_scope.

(* ===================================================================== *)
(** ** JavaScript values and string primitives used by the sources        *)
(* ===================================================================== *)

Module Js.

(** Truthiness of a possibly absent string: [undefined], [null] and the
    empty string are falsy. *)
Definition truthy (v : option string) : bool :=
  match v with
  | Some s => negb (s =? EmptyString)
  | None => false
  end.

(** [v === lit] for a possibly absent string [v]. *)
Definition strictEq (v : option string) (lit : string) : bool :=
  match v with
  | Some s => s =? lit
  | None => false
  end.

(** [a || b] on possibly absent strings. *)
Definition orElse (a b : option string) : option string :=
  if truthy a then a else b.

(** [v || lit]. *)
Definition orDefault (v : option string) (lit : string) : string :=
  match v with
  | Some s => if s =? EmptyString then lit else s
  | None => lit
  end.

(** Truthiness of a possibly absent number. *)
Definition truthyNum (v : option Z) : bool :=
  match v with
  | Some n => negb (n =? 0)%Z
  | None => false
  end.

Definition startsWith (s pre : string) : bool := String.prefix pre s.

(** [s.substring(0, n)]. *)
Definition substring0 (n : nat) (s : string) : string := String.substring 0 n s.

(** [s.split(sep)] for a one-character separator. *)
Fixpoint split (sep : ascii) (s : string) : list string :=
  match s with
  | EmptyString => [EmptyString]
  | String c r =>
      if Ascii.eqb c sep then EmptyString :: split sep r
      else match split sep r with
           | h :: t => String c h :: t
           | [] => [String c EmptyString]
           end
  end.

(** [s.includes(sub)] on strings. *)
Fixpoint includes (s sub : string) : bool :=
  String.prefix sub s ||
  match s with
  | EmptyString => false
  | String _ r => includes r sub
  end.

(** [arr.includes(x)] on arrays of strings. *)
Definition arrayIncludes (arr : list string) (x : string) : bool :=
  existsb (fun y => y =? x) arr.

(** [arr.indexOf(x)]: the first position of [x], or [-1]. *)
Fixpoint indexOfFrom (i : Z) (arr : list string) (x : string) : Z :=
  match arr with
  | [] => (-1)%Z
  | y :: r => if y =? x then i else indexOfFrom (i + 1) r x
  end.

Definition indexOf (arr : list string) (x : string) : Z := indexOfFrom 0 arr x.

Definition isLower (c : ascii) : bool :=
  let n := nat_of_ascii c in (97 <=? n)%nat && (n <=? 122)%nat.
Definition isUpper (c : ascii) : bool :=
  let n := nat_of_ascii c in (65 <=? n)%nat && (n <=? 90)%nat.
Definition isDigit (c : ascii) : bool :=
  let n := nat_of_ascii c in (48 <=? n)%nat && (n <=? 57)%nat.

Fixpoint filterChars (p : ascii -> bool) (s : string) : string :=
  match s with
  | EmptyString => EmptyString
  | String c r => if p c then String c (filterChars p r) else filterChars p r
  end.

Fixpoint existsChar (p : ascii -> bool) (s : string) : bool :=
  match s with
  | EmptyString => false
  | String c r => p c || existsChar p r
  end.

Fixpoint forallChar (p : ascii -> bool) (s : string) : bool :=
  match s with
  | EmptyString => true
  | String c r => p c && forallChar p r
  end.

(** A string of the model stands for the JavaScript string that has the
    same UTF-16 code units: a character is a code unit below 256. *)
Definition codeUnit (c : ascii) : N := N_of_ascii c.

(** [String.prototype.toUpperCase] on one code unit below 256, the result
    in code units, since it need not be one unit nor stay below 256: the
    letters a-z and those of U+00E0-U+00FE (the division sign U+00F7
    apart) become their capitals 32 below, the sharp s U+00DF becomes the
    two letters SS, the micro sign U+00B5 the capital mu U+039C, the y
    with diaeresis U+00FF its capital U+0178; any other unit is kept. *)
Definition upperUnits (c : ascii) : list N :=
  (let n := codeUnit c in
  if isLower c then [n - 32]
  else if n =? 223 then [83; 83]
  else if n =? 181 then [924]
  else if n =? 255 then [376]
  else if (224 <=? n) && (n <=? 254) && negb (n =? 247) then [n - 32]
  else [n])%N.

(** [s.toUpperCase()], in code units. *)
Definition toUpperCase (s : string) : list N :=
  flat_map upperUnits (list_ascii_of_string s).

(** [u.replace(/[^A-Z0-9]/g, '')] on code units: the units of A-Z and 0-9
    are kept, in their order; all of them are below 256. *)
Definition keepUpperAlnum (u : list N) : string :=
  string_of_list_ascii
    (map ascii_of_N
         (filter (fun n => ((65 <=? n) && (n <=? 90) || (48 <=? n) && (n <=? 57))%N) u)).

(** Template-literal rendering of a non-negative counter. *)
Definition numToString (n : nat) : string := NilZero.string_of_uint (Nat.to_uint n).

End Js.

(* ===================================================================== *)
(** ** client/src/lib/permissions.ts                                       *)
(* ===================================================================== *)

Module Permissions.

(** The [any]-typed user object the predicates receive: only [role] and
    [permissionLevel] are read, and either may be absent. *)
Record User := mkUser {
  role : option string;
  permissionLevel : option string
}.

Definition levels : list string := ["viewer"; "editor"; "manager"; "owner"].

Definition hasPermissionLevel (user : option User) (requiredLevel : string) : bool :=
  match user with
  | None => false
  | Some u =>
      if Js.strictEq (role u) "company_admin" || Js.strictEq (role u) "system_admin"
      then true
      else if Js.strictEq (role u) "team_member" then
        let userLevel := Js.orDefault (permissionLevel u) "viewer" in
        let userIdx := Js.indexOf levels userLevel in
        let reqIdx := Js.indexOf levels requiredLevel in
        (reqIdx <=? userIdx)%Z
      else false
  end.

(** [user?.role === lit] *)
Definition roleIs (user : option User) (lit : string) : bool :=
  match user with
  | Some u => Js.strictEq (role u) lit
  | None => false
  end.

Definition canInviteUsers (user : option User) : bool :=
  roleIs user "company_admin" || hasPermissionLevel user "manager".

Definition canEditPermissions (user : option User) : bool :=
  roleIs user "company_admin" || hasPermissionLevel user "manager".

Definition canCreateEdit (user : option User) : bool :=
  roleIs user "company_admin" || roleIs user "system_admin" ||
  roleIs user "contractor_account_owner" || roleIs user "contractor_manager" ||
  hasPermissionLevel user "editor".

Definition canViewOnly (user : option User) : bool :=
  hasPermissionLevel user "viewer".

(** [user?.role?.startsWith('contractor_')], [undefined] being falsy. *)
Definition roleStartsWithContractor (user : option User) : bool :=
  match user with
  | Some u =>
      match role u with
      | Some r => Js.startsWith r "contractor_"
      | None => false
      end
  | None => false
  end.

(** The default parameter [applicationPermissions: string[] = []]. *)
Definition defaultPermissions (arg : option (list string)) : list string :=
  match arg with
  | Some l => l
  | None => []
  end.

Definition canContractorEdit (user : option User)
           (applicationPermissions : option (list string)) : bool :=
  let applicationPermissions := defaultPermissions applicationPermissions in
  if negb (roleStartsWithContractor user) then false
  else if roleIs user "contractor_individual" ||
          roleIs user "contractor_account_owner" ||
          roleIs user "contractor_manager" then true
  else if roleIs user "contractor_team_member" &&
          match user with
          | Some u => Js.strictEq (permissionLevel u) "manager"
          | None => false
          end then true
  else if roleIs user "contractor_team_member" then
    Js.arrayIncludes applicationPermissions "edit"
  else false.

Definition canContractorView (user : option User)
           (applicationPermissions : option (list string)) : bool :=
  let applicationPermissions := defaultPermissions applicationPermissions in
  if negb (roleStartsWithContractor user) then false
  else if roleIs user "contractor_individual" ||
          roleIs user "contractor_account_owner" ||
          roleIs user "contractor_manager" then true
  else if roleIs user "contractor_team_member" &&
          match user with
          | Some u => Js.strictEq (permissionLevel u) "manager"
          | None => false
          end then true
  else if roleIs user "contractor_team_member" then
    Js.arrayIncludes applicationPermissions "view" ||
    Js.arrayIncludes applicationPermissions "edit"
  else false.

Definition canManageContractorTeam (user : option User) : bool :=
  if negb (roleStartsWithContractor user) then false
  else if roleIs user "contractor_individual" ||
          roleIs user "contractor_account_owner" ||
          roleIs user "contractor_manager" then true
  else if roleIs user "contractor_team_member" &&
          match user with
          | Some u => Js.strictEq (permissionLevel u) "manager"
          | None => false
          end then true
  else false.

Definition canEditApplicationPermissions (user : option User) : bool :=
  canManageContractorTeam user.

(** The permission-level enumeration of the data model, its spelling in
    the stored column, and its rank in the order
    viewer < editor < manager < owner. *)
Inductive PermissionLevel := Viewer | Editor | Manager | Owner.

Definition levelName (l : PermissionLevel) : string :=
  match l with
  | Viewer => "viewer"
  | Editor => "editor"
  | Manager => "manager"
  | Owner => "owner"
  end.

Definition ordinal (l : PermissionLevel) : Z :=
  match l with
  | Viewer => 0
  | Editor => 1
  | Manager => 2
  | Owner => 3
  end.

(** The stored level of a user, absent meaning viewer. *)
Definition levelOrViewer (l : option PermissionLevel) : PermissionLevel :=
  match l with
  | Some x => x
  | None => Viewer
  end.

Definition userOf (r : string) (l : option PermissionLevel) : User :=
  {| role := Some r; permissionLevel := option_map levelName l |}.

End Permissions.

(* ===================================================================== *)
(** ** The relational store behind [storage]                              *)
(* ===================================================================== *)

(** Outcome of a call that may throw. *)
Inductive Result (A : Type) : Type :=
| Ok (a : A)
| Throw (err : string).
Arguments Ok {A} a.
Arguments Throw {A} err.

Module Storage.

(** A row of the users table, with the columns the handlers of
    [server/auth.ts] read or write. *)
Record User := mkUser {
  id : string;
  email : string;
  password : string;
  firstName : string;
  lastName : string;
  businessMobile : option string;
  role : string;
  permissionLevel : string;
  companyId : option Z;
  isActive : option bool;
  isEmailVerified : bool;
  emailVerifiedAt : option Z;
  emailVerificationToken : option string;
  verificationTokenExpiry : option Z;
  resetToken : option string;
  resetExpiry : option Z;
  twoFactorSecret : option string;
  twoFactorEnabled : bool
}.

(** A row of the companies table. *)
Record Company := mkCompany {
  cid : Z;
  name : string;
  shortName : string;
  businessNumber : option string;
  streetAddress : string;
  city : string;
  province : string;
  country : string;
  postalCode : option string;
  isContractor : bool
}.

Record ContractorJoinRequest := mkJoinRequest {
  jrUserId : string;
  requestedCompanyId : Z;
  requestedPermissionLevel : string;
  jrMessage : string;
  jrStatus : string
}.

Record Store := mkStore {
  users : list User;
  companies : list Company;
  joinRequests : list ContractorJoinRequest;
  nextCompanyId : Z
}.

(** One [column: value] entry of the object literal handed to
    [storage.updateUser]. *)
Inductive Assign :=
| SetPassword (v : string)
| SetRole (v : string)
| SetCompanyId (v : option Z)
| SetIsActive (v : option bool)
| SetIsEmailVerified (v : bool)
| SetEmailVerifiedAt (v : option Z)
| SetEmailVerificationToken (v : option string)
| SetVerificationTokenExpiry (v : option Z)
| SetResetToken (v : option string)
| SetResetExpiry (v : option Z)
| SetTwoFactorSecret (v : option string)
| SetTwoFactorEnabled (v : bool).

Definition assign (u : User) (a : Assign) : User :=
  let '(mkUser i e p fn ln bm r pl c ac ev eva evt vte rt re tfs tfe) := u in
  match a with
  | SetPassword v => mkUser i e v fn ln bm r pl c ac ev eva evt vte rt re tfs tfe
  | SetRole v => mkUser i e p fn ln bm v pl c ac ev eva evt vte rt re tfs tfe
  | SetCompanyId v => mkUser i e p fn ln bm r pl v ac ev eva evt vte rt re tfs tfe
  | SetIsActive v => mkUser i e p fn ln bm r pl c v ev eva evt vte rt re tfs tfe
  | SetIsEmailVerified v => mkUser i e p fn ln bm r pl c ac v eva evt vte rt re tfs tfe
  | SetEmailVerifiedAt v => mkUser i e p fn ln bm r pl c ac ev v evt vte rt re tfs tfe
  | SetEmailVerificationToken v => mkUser i e p fn ln bm r pl c ac ev eva v vte rt re tfs tfe
  | SetVerificationTokenExpiry v => mkUser i e p fn ln bm r pl c ac ev eva evt v rt re tfs tfe
  | SetResetToken v => mkUser i e p fn ln bm r pl c ac ev eva evt vte v re tfs tfe
  | SetResetExpiry v => mkUser i e p fn ln bm r pl c ac ev eva evt vte rt v tfs tfe
  | SetTwoFactorSecret v => mkUser i e p fn ln bm r pl c ac ev eva evt vte rt re v tfe
  | SetTwoFactorEnabled v => mkUser i e p fn ln bm r pl c ac ev eva evt vte rt re tfs v
  end.

Definition patch (u : User) (fields : list Assign) : User := fold_left assign fields u.

(** Modelled from the spec: [server/storage.ts] is not among the sources.
    The spec describes the credential store as the relational table of
    user records, keyed by an opaque unique id, with a unique e-mail. *)
Definition getUser (st : Store) (i : string) : option User :=
  find (fun u => id u =? i) (users st).

(** Modelled from the spec: same lookup as [getUser] (the middleware
    calls it under the name [getUserById]). *)
Definition getUserById (st : Store) (i : string) : option User := getUser st i.

(** Modelled from the spec: lookup of the row holding an e-mail, compared
    as stored (case-sensitive). *)
Definition getUserByEmail (st : Store) (e : string) : option User :=
  find (fun u => email u =? e) (users st).

Fixpoint replaceOrAppend (row : User) (rows : list User) : list User :=
  match rows with
  | [] => [row]
  | u :: r => if id u =? id row then row :: r else u :: replaceOrAppend row r
  end.

Definition withUsers (st : Store) (us : list User) : Store :=
  {| users := us; companies := companies st;
     joinRequests := joinRequests st; nextCompanyId := nextCompanyId st |}.

(** Modelled from the spec: insert the row, or overwrite the row with the
    same id; the store enforces the unique e-mail and raises the error the
    registration handler looks for when another row holds it. *)
Definition upsertUser (st : Store) (row : User) : Result (Store * User) :=
  if existsb (fun u => (email u =? email row) && negb (id u =? id row)) (users st)
  then Throw "User with this email already exists"
  else Ok (withUsers st (replaceOrAppend row (users st)), row).

(** Modelled from the spec: the join-request branch is described as
    creating the inactive user record, so [createUser] stores the row
    under its id. *)
Definition createUser (st : Store) (row : User) : Store * User :=
  (withUsers st (replaceOrAppend row (users st)), row).

(** A row as an update of the row with id [i] leaves it. *)
Definition updated (i : string) (fields : list Assign) (u : User) : User :=
  if id u =? i then patch u fields else u.

(** Modelled from the spec: overwrite the given columns of the row with
    that id and return the row as stored afterwards ([None] when there is
    no such row). *)
Definition updateUser (st : Store) (i : string) (fields : list Assign)
  : Store * option User :=
  (withUsers st (map (updated i fields) (users st)),
   option_map (fun u => patch u fields) (getUser st i)).

(** Modelled from the spec: company lookup by exact name. *)
Definition getCompanyByName (st : Store) (n : string) : option Company :=
  find (fun c => name c =? n) (companies st).

(** Modelled from the spec: company lookup by its unique short name. *)
Definition getCompanyByShortName (st : Store) (n : string) : option Company :=
  find (fun c => shortName c =? n) (companies st).

(** Modelled from the spec: insert a company row under the next serial
    id and return it. *)
Definition createCompany (st : Store) (mk : Z -> Company) : Store * Company :=
  let c := mk (nextCompanyId st) in
  ({| users := users st; companies := companies st ++ [c];
      joinRequests := joinRequests st;
      nextCompanyId := (nextCompanyId st + 1)%Z |}, c).

(** Modelled from the spec: record a join request. *)
Definition createContractorJoinRequest (st : Store) (r : ContractorJoinRequest)
  : Store * ContractorJoinRequest :=
  ({| users := users st; companies := companies st;
      joinRequests := joinRequests st ++ [r];
      nextCompanyId := nextCompanyId st |}, r).

End Storage.

(* ===================================================================== *)
(** ** server/auth.ts: requests, responses and collaborators              *)
(* ===================================================================== *)

(** The [user] object of a response body: the listed public columns of a
  row; [companyId] and [twoFactorEnabled] are not part of every reply. *)
Record UserJson := mkUserJson {
ujId : string;
ujEmail : string;
ujFirstName : string;
ujLastName : string;
ujRole : string;
ujCompanyId : option (option Z);
ujTwoFactorEnabled : option bool
}.

(** JSON values appearing in response bodies. *)
Inductive Json :=
| JNull
| JBool (b : bool)
| JNum (n : Z)
| JStr (s : string)
| JUser (u : UserJson)
| JRow (row : option Storage.User).

Module Response.

Record t := mk {
  status : nat;
  body : list (string * Json)
}.

(** The value of a key of the response body, if present. *)
Definition field (r : t) (k : string) : option Json :=
  option_map snd (find (fun kv => fst kv =? k) (body r)).

(** The [message] of the response body. *)
Definition message (r : t) : option Json := field r "message".

End Response.

Module Session.

(** The pre-account verification state stashed on the session. *)
Record RegistrationVerification := mkRV {
  rvEmail : string;
  rvCode : string;
  rvExpires : Z
}.

(** The session payload ([req.session]). *)
Record t := mk {
  userId : option string;
  emailVerified : option string;
  registrationVerification : option RegistrationVerification
}.

Definition setUserId (s : t) (i : string) : t :=
  {| userId := Some i; emailVerified := emailVerified s;
     registrationVerification := registrationVerification s |}.

End Session.

Module RegisterBody.

(** [req.body] of POST /api/auth/register. Agreement flags are only ever
    tested for truthiness and are kept as booleans. *)
Record t := mk {
  email : string;
  password : string;
  firstName : string;
  lastName : string;
  businessMobile : option string;
  userType : option string;
  role : option string;
  companyName : option string;
  companyShortName : option string;
  businessNumber : option string;
  streetAddress : option string;
  city : option string;
  province : option string;
  country : option string;
  postalCode : option string;
  howHeardAbout : option string;
  agreeToPortalServices : bool;
  agreeToBusinessInfo : bool;
  agreeToContact : bool;
  hasCodeOfConductAgreement : bool;
  hasPrivacyPolicyAgreement : bool;
  hasTermsOfServiceAgreement : bool;
  hasDataSharingAgreement : bool;
  acceptTerms : bool;
  acceptBusinessInfo : bool;
  acceptContact : bool;
  codeOfConductAgreed : bool;
  contractorCompanyExists : option string;
  selectedCompanyId : option Z
}.

End RegisterBody.

(** What [generateTwoFactorSecret] returns. *)
Record TwoFactorSetup := mkTwoFactorSetup {
secret : string;
qrCodeUrl : string;
manualEntryKey : string
}.

(** The collaborators of the handlers that lie outside the sources: the
  clock, the random sources, the hashing libraries, the mailer and the
  one-time-password module. *)
Record Env := mkEnv {
now : Z;
nanoid : string;
nanoid32 : string;
randomCode : string;
hashPassword : string -> string;
bcryptCompare : string -> string -> Result bool;
scrypt : string -> string -> nat -> Result (list Byte.byte);
sendEmailVerificationEmail : string -> string -> string -> bool;
sendPasswordResetEmail : string -> string -> bool;
verifyTwoFactorToken : string -> string -> bool;
generateTwoFactorSecret : string -> TwoFactorSetup;
generateQRCodeDataURL : string -> Result string
}.

(* ===================================================================== *)
(** ** server/auth.ts: password comparison                                *)
(* ===================================================================== *)

Module Auth.

Definition bind {A B : Type} (r : Result A) (k : A -> Result B) : Result B :=
  match r with
  | Ok a => k a
  | Throw e => Throw e
  end.

Notation "x <- r ;; k" := (bind r (fun x => k))
  (at level 61, r at next level, right associativity).

Definition hexVal (c : ascii) : option N :=
  let n := N_of_ascii c in
  if Js.isDigit c then Some (n - 48)%N
  else if ((97 <=? n) && (n <=? 102))%N then Some (n - 87)%N
  else if ((65 <=? n) && (n <=? 70))%N then Some (n - 55)%N
  else None.

(** [Buffer.from(s, "hex")]: pairs of hex digits are decoded until the
    first pair that is not one; a trailing single character is dropped. *)
Fixpoint bufferFromHex (s : string) : list Byte.byte :=
  match s with
  | String a (String b r) =>
      match hexVal a, hexVal b with
      | Some h, Some l => byte_of_ascii (ascii_of_N (16 * h + l)) :: bufferFromHex r
      | _, _ => []
      end
  | _ => []
  end.

Fixpoint bytesEq (a b : list Byte.byte) : bool :=
  match a, b with
  | [], [] => true
  | x :: a', y :: b' => Byte.eqb x y && bytesEq a' b'
  | _, _ => false
  end.

(** [crypto.timingSafeEqual]: throws when the lengths differ. *)
Definition timingSafeEqual (a b : list Byte.byte) : Result bool :=
  if (length a =? length b)%nat then Ok (bytesEq a b)
  else Throw "Input buffers must have the same byte length".

(** The body of the [try] block of [comparePasswords]. *)
Definition comparePasswordsTry (env : Env) (supplied stored : string) : Result bool :=
  if Js.startsWith stored "$2b$" then
    result <- bcryptCompare env supplied stored ;;
    Ok result
  else
    let parts := Js.split "." stored in
    let hashed := nth_error parts 0 in
    let salt := nth_error parts 1 in
    match hashed, salt with
    | Some hashed, Some salt =>
        if negb (Js.truthy (Some salt)) then Ok false
        else
          let hashedBuf := bufferFromHex hashed in
          suppliedBuf <- scrypt env supplied salt 64 ;;
          result <- timingSafeEqual hashedBuf suppliedBuf ;;
          Ok result
    | _, _ => Ok false
    end.

(** [comparePasswords]: the outcome of the returned promise; whatever the
    [try] block throws is caught and turned into [false]. *)
Definition comparePasswords (env : Env) (supplied stored : string) : Result bool :=
  match comparePasswordsTry env supplied stored with
  | Ok result => Ok result
  | Throw _ => Ok false
  end.

(* =================================================================== *)
(** ** Password policy                                                  *)
(* =================================================================== *)

Definition isLineTerminator (c : ascii) : bool :=
  let n := nat_of_ascii c in (n =? 10)%nat || (n =? 13)%nat.

(** The symbol class of the password policy; the double quote is
    character 34. *)
Definition symbolChars : string :=
  "!@#$%^&*(),.?" ++ String "034"%char ":{}|<>".

Definition isSymbol (c : ascii) : bool :=
  Js.existsChar (Ascii.eqb c) symbolChars.

(** [passwordRegex.test(password)]: four lookaheads (a lowercase letter,
    an uppercase letter, a digit, a symbol) and 8 to 64 characters none
    of which is a line terminator. *)
Definition passwordRegexTest (password : string) : bool :=
  negb (Js.existsChar isLineTerminator password) &&
  (8 <=? String.length password)%nat && (String.length password <=? 64)%nat &&
  Js.existsChar Js.isLower password &&
  Js.existsChar Js.isUpper password &&
  Js.existsChar Js.isDigit password &&
  Js.existsChar isSymbol password.

Definition PASSWORD_MESSAGE : string :=
  "Password must be 8-64 characters with lowercase, uppercase, digit, and symbol".

(** [res.status(s).json({ message: m })]. *)
Definition json (s : nat) (m : string) : Response.t :=
  {| Response.status := s; Response.body := [("message", JStr m)] |}.

Definition optStr (v : option string) : Json :=
  match v with
  | Some s => JStr s
  | None => JNull
  end.

Definition optNum (v : option Z) : Json :=
  match v with
  | Some n => JNum n
  | None => JNull
  end.

(** The text of a request field already tested to be truthy. *)
Definition text (v : option string) : string :=
  match v with
  | Some s => s
  | None => EmptyString
  end.

Definition Outcome : Type := Storage.Store * Session.t * Response.t.

(* =================================================================== *)
(** ** POST /api/auth/register                                          *)
(* =================================================================== *)

(** The [catch] clause of the handler. *)
Definition registrationError (st : Storage.Store) (sess : Session.t) : Outcome :=
  (st, sess, json 500 "Failed to create account").

(** Reading a property of [user]: a [TypeError] when [updateUser] gave
    back nothing, which ends in the [catch] clause. *)
Definition withUser (user : option Storage.User) (st : Storage.Store)
           (sess : Session.t) (k : Storage.User -> Outcome) : Outcome :=
  match user with
  | Some u => k u
  | None => registrationError st sess
  end.

Definition assignedRoleOf (isCompanyOwner isTeamMember : bool)
           (userType userRole : option string) : string :=
  if isCompanyOwner then "company_admin"
  else if isTeamMember then "team_member"
  else if Js.strictEq userType "contractor_account_owner" then "contractor_account_owner"
  else if Js.strictEq userType "contractor_individual" then "contractor_individual"
  else if Js.strictEq userRole "contractor_individual" || Js.strictEq userType "contractor"
       then "contractor_individual"
  else if Js.strictEq userRole "contractor_account_owner" then "contractor_account_owner"
  else "team_member".

(** The public columns listed in the [user] object of a reply. *)
Definition userJson (u : Storage.User) (withCompany withTwoFactor : bool) : Json :=
  JUser {| ujId := Storage.id u; ujEmail := Storage.email u;
           ujFirstName := Storage.firstName u; ujLastName := Storage.lastName u;
           ujRole := Storage.role u;
           ujCompanyId := if withCompany then Some (Storage.companyId u) else None;
           ujTwoFactorEnabled :=
             if withTwoFactor then Some (Storage.twoFactorEnabled u || false) else None |}.

(** The team-member branch ([if (isTeamMember) { ... }]). *)
Definition registerTeamMember (env : Env) (st : Storage.Store) (sess : Session.t)
           (body : RegisterBody.t) (user : option Storage.User) : Outcome :=
  let companyName := RegisterBody.companyName body in
  if negb (Js.truthy companyName) then
    (st, sess, json 400 "Company name is required for team member registration")
  else
    match Storage.getCompanyByName st (text companyName) with
    | None =>
        (st, sess, json 400 "Company not found. Please verify the exact company name or contact your company administrator.")
    | Some existingCompany =>
        withUser user st sess (fun u =>
          let '(st, user) :=
            Storage.updateUser st (Storage.id u)
              [Storage.SetCompanyId (Some (Storage.cid existingCompany));
               Storage.SetRole "team_member";
               Storage.SetIsEmailVerified true;
               Storage.SetEmailVerifiedAt (Some (now env))] in
          (* a failure of sendTeamMemberPendingEmail is logged and ignored *)
          withUser user st sess (fun user =>
            (st, sess,
             {| Response.status := 201;
                Response.body :=
                  [("message", JStr "Registration submitted successfully! Your request is pending approval from your company administrator. You will receive an email confirmation once approved.");
                   ("user", userJson user true false);
                   ("requiresEmailVerification", JBool false);
                   ("isPending", JBool true)] |})))
    end.

(** The join-request part of the contractor branch. *)
Definition registerJoinRequest (env : Env) (st : Storage.Store) (sess : Session.t)
           (body : RegisterBody.t) (userRole : string) (selectedCompanyId : Z) : Outcome :=
  let '(st, contractorUser) :=
    Storage.createUser st
      {| Storage.id := nanoid env;
         Storage.email := RegisterBody.email body;
         Storage.password := hashPassword env (RegisterBody.password body);
         Storage.firstName := RegisterBody.firstName body;
         Storage.lastName := RegisterBody.lastName body;
         Storage.businessMobile := RegisterBody.businessMobile body;
         Storage.role := userRole;
         Storage.permissionLevel := "editor";
         Storage.companyId := None;
         Storage.isActive := Some false;
         Storage.isEmailVerified := false;
         Storage.emailVerifiedAt := None;
         Storage.emailVerificationToken := Some (randomCode env);
         Storage.verificationTokenExpiry := Some (now env + 10 * 60 * 1000)%Z;
         Storage.resetToken := None;
         Storage.resetExpiry := None;
         Storage.twoFactorSecret := None;
         Storage.twoFactorEnabled := false |} in
  let '(st, _) :=
    Storage.createContractorJoinRequest st
      {| Storage.jrUserId := nanoid env;
         Storage.requestedCompanyId := selectedCompanyId;
         Storage.requestedPermissionLevel := "editor";
         Storage.jrMessage :=
           RegisterBody.firstName body ++ " " ++ RegisterBody.lastName body
           ++ " is requesting to join your contractor team.";
         Storage.jrStatus := "pending" |} in
  (st, sess,
   {| Response.status := 201;
      Response.body :=
        [("message", JStr "Join request submitted successfully! Your request is pending approval from the contractor company administrator. You will receive an email confirmation once approved.");
         ("user", userJson contractorUser false false);
         ("requiresEmailVerification", JBool false);
         ("isPending", JBool true);
         ("isJoinRequest", JBool true)] |}).

(** [companyName.substring(0, 6).toUpperCase().replace(/[^A-Z0-9]/g, '')]. *)
Definition baseShortNameOf (companyName : string) : string :=
  Js.keepUpperAlnum (Js.toUpperCase (Js.substring0 6 companyName)).

(** The candidate generated once [counter] has been incremented. *)
Definition nextShortName (baseShortName : string) (counter : nat) : string :=
  if (counter <=? 9)%nat
  then Js.substring0 5 baseShortName ++ Js.numToString counter
  else Js.substring0 4 baseShortName ++ Js.numToString counter.

(** The loop [while (counter <= 100) { ... }] of the contractor branch,
    run for at most [fuel] tests of its condition; it yields the final
    [counter] and [contractorShortName]. *)
Fixpoint shortNameLoop (st : Storage.Store) (baseShortName : string) (fuel : nat)
         (counter : nat) (contractorShortName : string) : nat * string :=
  match fuel with
  | O => (counter, contractorShortName)
  | S fuel' =>
      if (counter <=? 100)%nat then
        match Storage.getCompanyByShortName st contractorShortName with
        | None => (counter, contractorShortName)
        | Some _ =>
            let counter := (counter + 1)%nat in
            shortNameLoop st baseShortName fuel' counter
                          (nextShortName baseShortName counter)
        end
      else (counter, contractorShortName)
  end.

(** The loop started at [counter = 1] on the base name; 101 tests of the
    condition are all it can make ([shortNameLoop_fuel]). *)
Definition generateContractorShortName (st : Storage.Store) (baseShortName : string)
  : nat * string :=
  shortNameLoop st baseShortName 101 1 baseShortName.

(** [v || null] on a request field. *)
Definition orNull (v : option string) : option string :=
  if Js.truthy v then v else None.

(** The end of the contractor branch, from the generation of the short
    name on: the company is created, the user becomes its account owner
    and is logged in. *)
Definition registerContractorCompany (env : Env) (st : Storage.Store) (sess : Session.t)
           (body : RegisterBody.t) (user : option Storage.User) : Outcome :=
  let companyName := RegisterBody.companyName body in
  let baseShortName := baseShortNameOf (text companyName) in
  let '(counter, contractorShortName) := generateContractorShortName st baseShortName in
  if (100 <? counter)%nat then
    (st, sess, json 400 "Unable to generate unique company identifier. Please contact support.")
  else
    let '(st, contractorCompany) :=
      Storage.createCompany st (fun newId =>
        {| Storage.cid := newId;
           Storage.name := text companyName;
           Storage.shortName := contractorShortName;
           Storage.businessNumber := orNull (RegisterBody.businessNumber body);
           Storage.streetAddress := text (RegisterBody.streetAddress body);
           Storage.city := text (RegisterBody.city body);
           Storage.province := text (RegisterBody.province body);
           Storage.country := text (RegisterBody.country body);
           Storage.postalCode := RegisterBody.postalCode body;
           Storage.isContractor := true |}) in
    withUser user st sess (fun u =>
      let '(st, user) :=
        Storage.updateUser st (Storage.id u)
          [Storage.SetCompanyId (Some (Storage.cid contractorCompany));
           Storage.SetRole "contractor_account_owner"] in
      withUser user st sess (fun user =>
        let sess := Session.setUserId sess (Storage.id user) in
        (* the confirmation e-mail is sent in the background *)
        (st, sess,
         {| Response.status := 201;
            Response.body :=
              [("message", JStr "Registration successful! Welcome to your contractor dashboard.");
               ("user", userJson user true true);
               ("requiresEmailVerification", JBool false);
               ("redirectTo", JStr "/contractor-dashboard")] |}))).

(** The contractor branch
    ([if (userRole === "contractor_individual" || ...) { ... }]). *)
Definition registerContractor (env : Env) (st : Storage.Store) (sess : Session.t)
           (body : RegisterBody.t) (userRole : option string)
           (user : option Storage.User) : Outcome :=
  let companyName := RegisterBody.companyName body in
  let streetAddress := RegisterBody.streetAddress body in
  let city := RegisterBody.city body in
  let province := RegisterBody.province body in
  let country := RegisterBody.country body in
  if Js.strictEq userRole "contractor_individual" &&
     Js.strictEq (RegisterBody.contractorCompanyExists body) "yes" &&
     Js.truthyNum (RegisterBody.selectedCompanyId body)
  then
    registerJoinRequest env st sess body (text userRole)
      (match RegisterBody.selectedCompanyId body with Some n => n | None => 0%Z end)
  else if negb (Js.truthy companyName) || negb (Js.truthy streetAddress) ||
          negb (Js.truthy city) || negb (Js.truthy province) ||
          negb (Js.truthy country)
  then
    (st, sess, json 400 "All business information fields are required for contractor registration")
  else
    let codeOfConductAccepted :=
      RegisterBody.hasCodeOfConductAgreement body || RegisterBody.codeOfConductAgreed body in
    let termsAccepted :=
      RegisterBody.hasTermsOfServiceAgreement body || RegisterBody.acceptTerms body ||
      RegisterBody.agreeToPortalServices body in
    let businessInfoAccepted :=
      RegisterBody.hasPrivacyPolicyAgreement body || RegisterBody.acceptBusinessInfo body ||
      RegisterBody.agreeToBusinessInfo body in
    let contactAccepted :=
      RegisterBody.hasDataSharingAgreement body || RegisterBody.acceptContact body ||
      RegisterBody.agreeToContact body in
    if negb codeOfConductAccepted || negb termsAccepted ||
       negb businessInfoAccepted || negb contactAccepted
    then
      (st, sess, json 400 "You must agree to all terms and conditions to register as a contractor")
    else registerContractorCompany env st sess body user.

(** The [do { ... } while (counter < 100)] loop of the company-owner
    branch, run for at most [fuel] bodies; it yields the final [counter]
    and [finalShortName]. *)
Fixpoint ownerShortNameLoop (st : Storage.Store) (companyShortName : string)
         (fuel : nat) (counter : nat) (finalShortName : string) : nat * string :=
  match fuel with
  | O => (counter, finalShortName)
  | S fuel' =>
      let finalShortName :=
        Js.substring0 5 companyShortName ++ Js.numToString counter in
      match Storage.getCompanyByShortName st finalShortName with
      | None => (counter, finalShortName)
      | Some _ =>
          let counter := (counter + 1)%nat in
          if (counter <? 100)%nat
          then ownerShortNameLoop st companyShortName fuel' counter finalShortName
          else (counter, finalShortName)
      end
  end.

(** The company-owner block together with what follows it: the automatic
    login of a verified owner and the verification e-mail of everybody
    else. *)
Definition registerOwnerOrDefault (env : Env) (st : Storage.Store) (sess : Session.t)
           (body : RegisterBody.t) (isCompanyOwner : bool)
           (user : option Storage.User) : Outcome :=
  let companyShortName := RegisterBody.companyShortName body in
  let finish (st : Storage.Store) (user : option Storage.User) : Outcome :=
    if isCompanyOwner &&
       match user with Some u => Storage.isEmailVerified u | None => true end
    then
      withUser user st sess (fun user =>
        let sess := Session.setUserId sess (Storage.id user) in
        (st, sess,
         {| Response.status := 201;
            Response.body :=
              [("message", JStr "Registration successful! Welcome to your dashboard.");
               ("user", userJson user true true);
               ("requiresEmailVerification", JBool false)] |}))
    else
      let emailSent :=
        sendEmailVerificationEmail env (RegisterBody.email body)
          (RegisterBody.firstName body) (randomCode env) in
      if negb emailSent then
        (st, sess, json 500 "Failed to send verification email. Please try again.")
      else
        withUser user st sess (fun user =>
          (st, sess,
           {| Response.status := 201;
              Response.body :=
                [("message", JStr "Registration successful! Please check your email for the verification code.");
                 ("requiresEmailVerification", JBool true);
                 ("email", JStr (RegisterBody.email body));
                 ("companyId", optNum (Storage.companyId user))] |})) in
  if isCompanyOwner then
    withUser user st sess (fun u =>
      if negb (Storage.isEmailVerified u) then
        (st, sess, json 400 "Email verification is required for company owner registration")
      else if negb (Js.truthy (RegisterBody.companyName body)) ||
              negb (Js.truthy companyShortName) ||
              negb (Js.truthy (RegisterBody.businessNumber body)) ||
              negb (Js.truthy (RegisterBody.streetAddress body)) ||
              negb (Js.truthy (RegisterBody.city body)) ||
              negb (Js.truthy (RegisterBody.province body)) ||
              negb (Js.truthy (RegisterBody.country body)) ||
              negb (Js.truthy (RegisterBody.postalCode body)) ||
              negb (Js.truthy (RegisterBody.howHeardAbout body))
      then
        (st, sess, json 400 "All business information fields are required for company owners")
      else if negb (RegisterBody.agreeToPortalServices body) ||
              negb (RegisterBody.agreeToBusinessInfo body) ||
              negb (RegisterBody.agreeToContact body)
      then
        (st, sess, json 400 "You must agree to all terms and conditions to register as a company owner")
      else
        let '(counter, finalShortName) :=
          match Storage.getCompanyByShortName st (text companyShortName) with
          | Some _ => ownerShortNameLoop st (text companyShortName) 98 2 (text companyShortName)
          | None => (0%nat, text companyShortName)
          end in
        if (100 <=? counter)%nat then
          (st, sess, json 400 "Unable to generate unique company identifier. Please contact support.")
        else
          let '(st, company) :=
            Storage.createCompany st (fun newId =>
              {| Storage.cid := newId;
                 Storage.name := text (RegisterBody.companyName body);
                 Storage.shortName := finalShortName;
                 Storage.businessNumber := RegisterBody.businessNumber body;
                 Storage.streetAddress := text (RegisterBody.streetAddress body);
                 Storage.city := text (RegisterBody.city body);
                 Storage.province := text (RegisterBody.province body);
                 Storage.country := text (RegisterBody.country body);
                 Storage.postalCode := RegisterBody.postalCode body;
                 Storage.isContractor := false |}) in
          let '(st, user) :=
            Storage.updateUser st (Storage.id u)
              [Storage.SetCompanyId (Some (Storage.cid company));
               Storage.SetRole "company_admin";
               Storage.SetIsEmailVerified true;
               Storage.SetEmailVerifiedAt (Some (now env))] in
          finish st user)
  else finish st user.

(** [isCompanyOwner], [isTeamMember] and [userRole] as the handler derives
    them from the request. *)
Definition isCompanyOwnerOf (body : RegisterBody.t) : bool :=
  Js.truthy (RegisterBody.companyName body) &&
  Js.truthy (RegisterBody.companyShortName body) &&
  Js.truthy (RegisterBody.businessNumber body).

Definition isTeamMemberOf (body : RegisterBody.t) : bool :=
  Js.strictEq (RegisterBody.userType body) "team_member".

Definition userRoleOf (body : RegisterBody.t) : option string :=
  Js.orElse (RegisterBody.role body) (RegisterBody.userType body).

(** The object [userData] handed to [storage.upsertUser]; the columns it
    does not mention take their defaults (no company, active, no reset
    token, two-factor authentication off). *)
Definition userDataOf (env : Env) (body : RegisterBody.t) : Storage.User :=
  let hashedPassword := hashPassword env (RegisterBody.password body) in
  let emailVerificationToken := randomCode env in
  let verificationTokenExpiry := (now env + 10 * 60 * 1000)%Z in
  let userId := nanoid env in
  let assignedRole :=
    assignedRoleOf (isCompanyOwnerOf body) (isTeamMemberOf body)
                   (RegisterBody.userType body) (userRoleOf body) in
  {| Storage.id := userId;
     Storage.email := RegisterBody.email body;
     Storage.password := hashedPassword;
     Storage.firstName := RegisterBody.firstName body;
     Storage.lastName := RegisterBody.lastName body;
     Storage.businessMobile := orNull (RegisterBody.businessMobile body);
     Storage.role := assignedRole;
     Storage.permissionLevel :=
       if assignedRole =? "company_admin" then "owner" else "editor";
     Storage.companyId := None;
     Storage.isActive := Some true;
     Storage.isEmailVerified := false;
     Storage.emailVerifiedAt := None;
     Storage.emailVerificationToken := Some emailVerificationToken;
     Storage.verificationTokenExpiry := Some verificationTokenExpiry;
     Storage.resetToken := None;
     Storage.resetExpiry := None;
     Storage.twoFactorSecret := None;
     Storage.twoFactorEnabled := false |}.

(** [if (emailVerified === email) { user = await storage.updateUser(...) }]:
    the verification made in the popup, remembered by the session. *)
Definition applySessionVerification (env : Env) (st : Storage.Store) (sess : Session.t)
           (email : string) (user : Storage.User) : Storage.Store * option Storage.User :=
  if Js.strictEq (Session.emailVerified sess) email
  then Storage.updateUser st (Storage.id user)
         [Storage.SetIsEmailVerified true;
          Storage.SetEmailVerifiedAt (Some (now env))]
  else (st, Some user).

(** The branches of the handler, in the order it tries them. *)
Definition registerBranches (env : Env) (st : Storage.Store) (sess : Session.t)
           (body : RegisterBody.t) (user : option Storage.User) : Outcome :=
  let userRole := userRoleOf body in
  if isTeamMemberOf body then registerTeamMember env st sess body user
  else if Js.strictEq userRole "contractor_individual" ||
          Js.strictEq userRole "contractor_account_owner"
  then registerContractor env st sess body userRole user
  else registerOwnerOrDefault env st sess body (isCompanyOwnerOf body) user.

(** The handler of POST /api/auth/register. *)
Definition register (env : Env) (st : Storage.Store) (sess : Session.t)
           (body : RegisterBody.t) : Outcome :=
  let email := RegisterBody.email body in
  let password := RegisterBody.password body in
  if negb (passwordRegexTest password) then (st, sess, json 400 PASSWORD_MESSAGE)
  else
    match Storage.getUserByEmail st email with
    | Some _ => (st, sess, json 400 "User with this email already exists")
    | None =>
        match Storage.upsertUser st (userDataOf env body) with
        | Throw err =>
            if Js.includes err "User with this email already exists"
            then (st, sess, json 400 "User with this email already exists")
            else registrationError st sess
        | Ok (st, user) =>
            let '(st, user) := applySessionVerification env st sess email user in
            registerBranches env st sess body user
        end
    end.

(* =================================================================== *)
(** ** Password reset                                                   *)
(* =================================================================== *)

(** The handler of POST /api/auth/request-reset. *)
Definition requestReset (env : Env) (st : Storage.Store) (sess : Session.t)
           (email : option string) : Outcome :=
  if negb (Js.truthy email) then (st, sess, json 400 "Email is required")
  else
    match Storage.getUserByEmail st (text email) with
    | None => (st, sess, json 200 "If an account exists, reset instructions have been sent")
    | Some user =>
        let resetToken := nanoid32 env in
        let resetExpiry := (now env + 60 * 60 * 1000)%Z in
        let '(st, _) :=
          Storage.updateUser st (Storage.id user)
            [Storage.SetResetToken (Some resetToken);
             Storage.SetResetExpiry (Some resetExpiry)] in
        (* the outcome of sendPasswordResetEmail is only logged *)
        (st, sess, json 200 "If an account exists, reset instructions have been sent")
    end.

(** The handler of POST /api/auth/reset-password; its body carries
    [email] and [newPassword] and nothing else is read. *)
Definition resetPassword (env : Env) (st : Storage.Store) (sess : Session.t)
           (email newPassword : string) : Outcome :=
  if negb (passwordRegexTest newPassword) then (st, sess, json 400 PASSWORD_MESSAGE)
  else
    match Storage.getUserByEmail st email with
    | None => (st, sess, json 404 "User not found")
    | Some user =>
        let hashedPassword := hashPassword env newPassword in
        let '(st, _) :=
          Storage.updateUser st (Storage.id user) [Storage.SetPassword hashedPassword] in
        (st, sess, json 200 "Password updated successfully")
    end.

(* =================================================================== *)
(** ** POST /api/auth/verify-code                                       *)
(* =================================================================== *)

Definition optStrEq (a b : option string) : bool :=
  match a, b with
  | Some x, Some y => x =? y
  | None, None => true
  | _, _ => false
  end.

Definition verifyCode (env : Env) (st : Storage.Store) (sess : Session.t)
           (email code : option string) : Outcome :=
  if negb (Js.truthy email) || negb (Js.truthy code) then
    (st, sess, json 400 "Email and verification code are required")
  else
    match Storage.getUserByEmail st (text email) with
    | None => (st, sess, json 400 "User not found")
    | Some user =>
        if Storage.isEmailVerified user then
          (st, sess, json 400 "Email is already verified")
        else if negb (optStrEq (Storage.emailVerificationToken user) code) then
          (st, sess, json 400 "Invalid verification code")
        else if match Storage.verificationTokenExpiry user with
                | Some expiry => (expiry <? now env)%Z
                | None => false
                end
        then
          (st, sess, json 400 "Verification code has expired. Please request a new one.")
        else
          let '(st, _) :=
            Storage.updateUser st (Storage.id user)
              [Storage.SetIsEmailVerified true;
               Storage.SetEmailVerifiedAt (Some (now env));
               Storage.SetEmailVerificationToken None;
               Storage.SetVerificationTokenExpiry None] in
          let sess := Session.setUserId sess (Storage.id user) in
          let verifiedUser := Storage.getUser st (Storage.id user) in
          let isContractor :=
            match verifiedUser with
            | Some v => (Storage.role v =? "contractor_individual") ||
                        (Storage.role v =? "contractor_account_owner")
            | None => false
            end in
          (st, sess,
           {| Response.status := 200;
              Response.body :=
                [("message", JStr "Email verified successfully! Welcome to SEMI Program Portal.");
                 ("user", JRow verifiedUser);
                 ("verified", JBool true);
                 ("redirectTo",
                  JStr (if isContractor then "/contractor-dashboard" else "/"))] |})
    end.

(* =================================================================== *)
(** ** The authentication middleware and the two-factor endpoints       *)
(* =================================================================== *)

(** What the middleware does with a request: answer it, or attach the
    resolved user ([req.user]) and call [next()]. *)
Inductive AuthResult :=
| Respond (r : Response.t)
| Next (user : Storage.User).

Definition DEACTIVATED : string :=
  "Your account has been deactivated. Please contact support.".

Definition requireAuth (st : Storage.Store) (sess : Session.t) : AuthResult :=
  let userId := Session.userId sess in
  if negb (Js.truthy userId) then Respond (json 401 "Authentication required")
  else
    match Storage.getUserById st (text userId) with
    | None => Respond (json 401 "User not found")
    | Some user =>
        match Storage.isActive user with
        | Some false =>
            Respond (json 403 DEACTIVATED)
        | _ => Next user
        end
    end.

(** A route registered as [app.post(path, requireAuth, handler)]. *)
Definition authenticated (st : Storage.Store) (sess : Session.t)
           (handler : Storage.User -> Outcome) : Outcome :=
  match requireAuth st sess with
  | Respond r => (st, sess, r)
  | Next user => handler user
  end.

(** The handler of POST /api/auth/2fa/setup. *)
Definition twoFactorSetup (env : Env) (st : Storage.Store) (sess : Session.t) : Outcome :=
  authenticated st sess (fun user =>
    if Storage.twoFactorEnabled user then
      (st, sess, json 400 "Two-factor authentication is already enabled")
    else
      let twoFactorSetup := generateTwoFactorSecret env (Storage.email user) in
      match generateQRCodeDataURL env (qrCodeUrl twoFactorSetup) with
      | Throw _ => (st, sess, json 500 "Failed to generate 2FA setup")
      | Ok qrCodeDataUrl =>
          (st, sess,
           {| Response.status := 200;
              Response.body :=
                [("secret", JStr (secret twoFactorSetup));
                 ("qrCodeUrl", JStr qrCodeDataUrl);
                 ("manualEntryKey", JStr (manualEntryKey twoFactorSetup))] |})
      end).

(** The handler of POST /api/auth/2fa/verify, with [secret] and [token]
    taken from the request body. *)
Definition twoFactorVerify (env : Env) (st : Storage.Store) (sess : Session.t)
           (secret token : option string) : Outcome :=
  authenticated st sess (fun user =>
    if negb (Js.truthy secret) || negb (Js.truthy token) then
      (st, sess, json 400 "Secret and token are required")
    else
      let isValidToken := verifyTwoFactorToken env (text token) (text secret) in
      if negb isValidToken then (st, sess, json 400 "Invalid verification code")
      else
        let '(st, _) :=
          Storage.updateUser st (Storage.id user)
            [Storage.SetTwoFactorSecret secret;
             Storage.SetTwoFactorEnabled true] in
        (st, sess, json 200 "Two-factor authentication enabled successfully")).

(** The handler of POST /api/auth/2fa/disable. *)
Definition twoFactorDisable (env : Env) (st : Storage.Store) (sess : Session.t)
           (token : option string) : Outcome :=
  authenticated st sess (fun user =>
    if negb (Storage.twoFactorEnabled user) ||
       negb (Js.truthy (Storage.twoFactorSecret user))
    then (st, sess, json 400 "Two-factor authentication is not enabled")
    else if negb (Js.truthy token) then
      (st, sess, json 400 "Verification code is required")
    else
      let isValidToken :=
        verifyTwoFactorToken env (text token) (text (Storage.twoFactorSecret user)) in
      if negb isValidToken then (st, sess, json 400 "Invalid verification code")
      else
        let '(st, _) :=
          Storage.updateUser st (Storage.id user)
            [Storage.SetTwoFactorSecret None;
             Storage.SetTwoFactorEnabled false] in
        (st, sess, json 200 "Two-factor authentication disabled successfully")).

(** An administrator deactivating an account: the [isActive] column of
    the row is set to [false]. *)
Definition deactivateUser (st : Storage.Store) (userId : string) : Storage.Store :=
  fst (Storage.updateUser st userId [Storage.SetIsActive (Some false)]).

(** Projections of an outcome. *)
Definition storeOf (o : Outcome) : Storage.Store := fst (fst o).
Definition sessionOf (o : Outcome) : Session.t := snd (fst o).
Definition responseOf (o : Outcome) : Response.t := snd o.

End Auth.

(* ===================================================================== *)
(** ** A sample deployment, used to run the handlers on concrete input    *)
(* ===================================================================== *)

Module Sample.

(** Toy collaborators: a tagged copy stands for the bcrypt hash, the
    derived key is all zeros, every e-mail is delivered and a one-time
    token is valid when it equals the secret. *)
Definition env (time : Z) : Env :=
  {| now := time;
     nanoid := "user-2";
     nanoid32 := "reset-token-0123456789abcdefghij";
     randomCode := "482913";
     hashPassword := fun p => "$2b$10$" ++ p;
     bcryptCompare := fun supplied stored => Ok (stored =? "$2b$10$" ++ supplied);
     scrypt := fun _ _ keylen => Ok (repeat Byte.x00 keylen);
     sendEmailVerificationEmail := fun _ _ _ => true;
     sendPasswordResetEmail := fun _ _ => true;
     verifyTwoFactorToken := fun token secret => token =? secret;
     generateTwoFactorSecret := fun e =>
       {| secret := "JBSWY3DPEHPK3PXP"; qrCodeUrl := "otpauth://totp/" ++ e;
          manualEntryKey := "JBSWY3DPEHPK3PXP" |};
     generateQRCodeDataURL := fun u => Ok ("data:image/png;" ++ u) |}.

Definition alice : Storage.User :=
  {| Storage.id := "user-1";
     Storage.email := "alice@example.com";
     Storage.password := "$2b$10$Old-Passw0rd";
     Storage.firstName := "Alice";
     Storage.lastName := "Ng";
     Storage.businessMobile := None;
     Storage.role := "company_admin";
     Storage.permissionLevel := "owner";
     Storage.companyId := Some 1%Z;
     Storage.isActive := Some true;
     Storage.isEmailVerified := true;
     Storage.emailVerifiedAt := Some 0%Z;
     Storage.emailVerificationToken := None;
     Storage.verificationTokenExpiry := None;
     Storage.resetToken := None;
     Storage.resetExpiry := None;
     Storage.twoFactorSecret := None;
     Storage.twoFactorEnabled := false |}.

Definition company (i : Z) (n short : string) : Storage.Company :=
  {| Storage.cid := i; Storage.name := n; Storage.shortName := short;
     Storage.businessNumber := None; Storage.streetAddress := "1 Main St";
     Storage.city := "Calgary"; Storage.province := "AB";
     Storage.country := "Canada"; Storage.postalCode := None;
     Storage.isContractor := false |}.

Definition store : Storage.Store :=
  {| Storage.users := [alice];
     Storage.companies := [company 1 "Acme Mills" "ACME"];
     Storage.joinRequests := [];
     Storage.nextCompanyId := 2 |}.

Definition anonymous : Session.t :=
  {| Session.userId := None; Session.emailVerified := None;
     Session.registrationVerification := None |}.

Definition aliceSession : Session.t := Session.setUserId anonymous "user-1".

(** Alice once she has enrolled in two-factor authentication. *)
Definition enrolledStore : Storage.Store :=
  fst (Storage.updateUser store "user-1"
         [Storage.SetTwoFactorSecret (Some "OLDSECRET");
          Storage.SetTwoFactorEnabled true]).

(** A registration request with every optional field left out. *)
Definition request (e pw : string) (ut : option string) (cn : option string)
  : RegisterBody.t :=
  {| RegisterBody.email := e; RegisterBody.password := pw;
     RegisterBody.firstName := "Bob"; RegisterBody.lastName := "Roy";
     RegisterBody.businessMobile := None; RegisterBody.userType := ut;
     RegisterBody.role := None; RegisterBody.companyName := cn;
     RegisterBody.companyShortName := None; RegisterBody.businessNumber := None;
     RegisterBody.streetAddress := None; RegisterBody.city := None;
     RegisterBody.province := None; RegisterBody.country := None;
     RegisterBody.postalCode := None; RegisterBody.howHeardAbout := None;
     RegisterBody.agreeToPortalServices := false;
     RegisterBody.agreeToBusinessInfo := false;
     RegisterBody.agreeToContact := false;
     RegisterBody.hasCodeOfConductAgreement := false;
     RegisterBody.hasPrivacyPolicyAgreement := false;
     RegisterBody.hasTermsOfServiceAgreement := false;
     RegisterBody.hasDataSharingAgreement := false;
     RegisterBody.acceptTerms := false;
     RegisterBody.acceptBusinessInfo := false;
     RegisterBody.acceptContact := false;
     RegisterBody.codeOfConductAgreed := false;
     RegisterBody.contractorCompanyExists := None;
     RegisterBody.selectedCompanyId := None |}.

(** The same request with the business address filled in and, when
    [agreed], the four contractor agreements accepted. *)
Definition contractorRequest (e pw : string) (cn : option string)
           (street : option string) (agreed : bool) : RegisterBody.t :=
  {| RegisterBody.email := e; RegisterBody.password := pw;
     RegisterBody.firstName := "Bob"; RegisterBody.lastName := "Roy";
     RegisterBody.businessMobile := None;
     RegisterBody.userType := Some "contractor_account_owner";
     RegisterBody.role := None; RegisterBody.companyName := cn;
     RegisterBody.companyShortName := None; RegisterBody.businessNumber := None;
     RegisterBody.streetAddress := street; RegisterBody.city := Some "Calgary";
     RegisterBody.province := Some "AB"; RegisterBody.country := Some "Canada";
     RegisterBody.postalCode := None; RegisterBody.howHeardAbout := None;
     RegisterBody.agreeToPortalServices := false;
     RegisterBody.agreeToBusinessInfo := false;
     RegisterBody.agreeToContact := false;
     RegisterBody.hasCodeOfConductAgreement := agreed;
     RegisterBody.hasPrivacyPolicyAgreement := agreed;
     RegisterBody.hasTermsOfServiceAgreement := agreed;
     RegisterBody.hasDataSharingAgreement := agreed;
     RegisterBody.acceptTerms := false;
     RegisterBody.acceptBusinessInfo := false;
     RegisterBody.acceptContact := false;
     RegisterBody.codeOfConductAgreed := false;
     RegisterBody.contractorCompanyExists := None;
     RegisterBody.selectedCompanyId := None |}.

End Sample.

(* ===================================================================== *)
(** ** Vocabulary of the specification                                    *)
(* ===================================================================== *)

Module Legacy.

(** The legacy stored format is a hex digest and a salt joined by a dot.
    [digestPart] is what precedes the first dot, [afterDot] what follows
    it (nothing when there is no dot), [saltPart] the salt read there. *)
Fixpoint digestPart (stored : string) : string :=
  match stored with
  | EmptyString => EmptyString
  | String c r => if Ascii.eqb c "." then EmptyString else String c (digestPart r)
  end.

Fixpoint afterDot (stored : string) : option string :=
  match stored with
  | EmptyString => None
  | String c r => if Ascii.eqb c "." then Some r else afterDot r
  end.

Definition saltPart (stored : string) : option string :=
  option_map digestPart (afterDot stored).

Definition hasDelimiter (stored : string) : bool :=
  Js.existsChar (fun c => Ascii.eqb c ".") stored.

(** A stored value that cannot be read as [digest.salt]: no delimiter,
    an empty salt, or a digest that is not the hex form of the 64 bytes
    the legacy scheme derives. *)
Definition malformed (stored : string) : Prop :=
  hasDelimiter stored = false \/
  saltPart stored = Some EmptyString \/
  length (Auth.bufferFromHex (digestPart stored)) <> 64%nat.

End Legacy.

Module Requests.

(** A registration signalled as team_member. *)
Definition teamMember (body : RegisterBody.t) : bool := Auth.isTeamMemberOf body.

(** A contractor registration that is not a request to join an existing
    contractor company. *)
Definition contractorOwnCompany (body : RegisterBody.t) : bool :=
  let userRole := Auth.userRoleOf body in
  negb (Auth.isTeamMemberOf body) &&
  (Js.strictEq userRole "contractor_individual" ||
   Js.strictEq userRole "contractor_account_owner") &&
  negb (Js.strictEq userRole "contractor_individual" &&
        Js.strictEq (RegisterBody.contractorCompanyExists body) "yes" &&
        Js.truthyNum (RegisterBody.selectedCompanyId body)).

(** The business-address fields a contractor must supply. *)
Definition hasBusinessAddress (body : RegisterBody.t) : bool :=
  Js.truthy (RegisterBody.companyName body) &&
  Js.truthy (RegisterBody.streetAddress body) &&
  Js.truthy (RegisterBody.city body) &&
  Js.truthy (RegisterBody.province body) &&
  Js.truthy (RegisterBody.country body).

(** The four acknowledgments of a contractor, under either spelling. *)
Definition hasContractorAgreements (body : RegisterBody.t) : bool :=
  (RegisterBody.hasCodeOfConductAgreement body || RegisterBody.codeOfConductAgreed body) &&
  (RegisterBody.hasTermsOfServiceAgreement body || RegisterBody.acceptTerms body ||
   RegisterBody.agreeToPortalServices body) &&
  (RegisterBody.hasPrivacyPolicyAgreement body || RegisterBody.acceptBusinessInfo body ||
   RegisterBody.agreeToBusinessInfo body) &&
  (RegisterBody.hasDataSharingAgreement body || RegisterBody.acceptContact body ||
   RegisterBody.agreeToContact body).

(** The branch-specific rejections that come after the user row has been
    written: a team member naming a company that does not exist, a
    contractor without the business address, a contractor without the
    agreements. *)
Definition unknownCompany (st : Storage.Store) (body : RegisterBody.t) : bool :=
  teamMember body && Js.truthy (RegisterBody.companyName body) &&
  match Storage.getCompanyByName st (Auth.text (RegisterBody.companyName body)) with
  | Some _ => false
  | None => true
  end.

Definition missingAddress (body : RegisterBody.t) : bool :=
  contractorOwnCompany body && negb (hasBusinessAddress body).

Definition missingAgreements (body : RegisterBody.t) : bool :=
  contractorOwnCompany body && hasBusinessAddress body &&
  negb (hasContractorAgreements body).

End Requests.

Module ShortName.

(** The base as the specification words it: the first six alphanumeric
    characters of the company name, in upper case. *)
Definition firstSixAlphanumericUpper (companyName : string) : string :=
  Js.substring0 6 (Js.keepUpperAlnum (Js.toUpperCase companyName)).

(** The first six characters of the name are all letters a-z or A-Z or
    digits. *)
Definition startsWithSixAlphanumeric (companyName : string) : bool :=
  Js.forallChar (fun c => Js.isLower c || Js.isUpper c || Js.isDigit c)
                (String.substring 0 6 companyName).

(** What one character of the company name gives the base: a digit or a
    capital A-Z gives itself, a letter a-z its capital, the sharp s
    (U+00DF) the two letters SS, and any other character nothing. *)
Definition contribution (c : ascii) : string :=
  if Js.isDigit c || Js.isUpper c then String c EmptyString
  else if Js.isLower c then String (ascii_of_nat (nat_of_ascii c - 32)) EmptyString
  else if (nat_of_ascii c =? 223)%nat then "SS"
  else EmptyString.

Fixpoint contributions (s : string) : string :=
  match s with
  | EmptyString => EmptyString
  | String c r => contribution c ++ contributions r
  end.

(** The base, character by character: what the first six characters of
    the company name give, in their order. *)
Definition base (companyName : string) : string :=
  contributions (String.substring 0 6 companyName).

(** The [k]-th name looked up for a base: the base itself, then the base
    cut to five characters followed by the counter 2, ..., 9 in decimal,
    then the base cut to four characters followed by the counter 10,
    11, ... *)
Definition candidate (baseShortName : string) (k : nat) : string :=
  if (k <=? 1)%nat then baseShortName
  else if (k <=? 9)%nat
       then String.substring 0 5 baseShortName ++ NilZero.string_of_uint (Nat.to_uint k)
       else String.substring 0 4 baseShortName ++ NilZero.string_of_uint (Nat.to_uint k).

Definition taken (st : Storage.Store) (shortName : string) : bool :=
  match Storage.getCompanyByShortName st shortName with
  | Some _ => true
  | None => false
  end.

(** A store in which the first [n] candidates of a base are all in use. *)
Definition crowded (baseShortName : string) (n : nat) : Storage.Store :=
  {| Storage.users := [];
     Storage.companies :=
       map (fun k => Sample.company (Z.of_nat k) "Other" (candidate baseShortName k))
           (seq 1 n);
     Storage.joinRequests := [];
     Storage.nextCompanyId := Z.of_nat (n + 1) |}.

(** A company name that starts with a sharp s (U+00DF). *)
Definition sharpName : string := String "223"%char "eta Co".

(** A request that reaches the short-name generation of the contractor
    branch. *)
Definition createsContractorCompany (body : RegisterBody.t) : bool :=
  Requests.contractorOwnCompany body &&
  Requests.hasBusinessAddress body &&
  Requests.hasContractorAgreements body.

End ShortName.

(* ===================================================================== *)
(** ** client/src/lib/permissions.ts: the role table                      *)
(* ===================================================================== *)

Module RolePermissions.

Definition MANAGE_COMPANY : string := "manage_company".
Definition VIEW_COMPANY : string := "view_company".
Definition INVITE_TEAM_MEMBERS : string := "invite_team_members".
Definition MANAGE_TEAM_MEMBERS : string := "manage_team_members".
Definition VIEW_TEAM_MEMBERS : string := "view_team_members".
Definition CREATE_FACILITIES : string := "create_facilities".
Definition EDIT_FACILITIES : string := "edit_facilities".
Definition DELETE_FACILITIES : string := "delete_facilities".
Definition VIEW_FACILITIES : string := "view_facilities".
Definition CREATE_APPLICATIONS : string := "create_applications".
Definition EDIT_APPLICATIONS : string := "edit_applications".
Definition SUBMIT_APPLICATIONS : string := "submit_applications".
Definition DELETE_APPLICATIONS : string := "delete_applications".
Definition VIEW_APPLICATIONS : string := "view_applications".
Definition REVIEW_APPLICATIONS : string := "review_applications".
Definition UPLOAD_DOCUMENTS : string := "upload_documents".
Definition DELETE_DOCUMENTS : string := "delete_documents".
Definition VIEW_DOCUMENTS : string := "view_documents".
Definition DOWNLOAD_DOCUMENTS : string := "download_documents".
Definition MANAGE_CONTRACTORS : string := "manage_contractors".
Definition VIEW_CONTRACTORS : string := "view_contractors".
Definition SYSTEM_ADMIN : string := "system_admin".

(** [Object.values(PERMISSIONS)], in the order of the declaration. *)
Definition PERMISSION_VALUES : list string :=
  [MANAGE_COMPANY; VIEW_COMPANY;
   INVITE_TEAM_MEMBERS; MANAGE_TEAM_MEMBERS; VIEW_TEAM_MEMBERS;
   CREATE_FACILITIES; EDIT_FACILITIES; DELETE_FACILITIES; VIEW_FACILITIES;
   CREATE_APPLICATIONS; EDIT_APPLICATIONS; SUBMIT_APPLICATIONS;
   DELETE_APPLICATIONS; VIEW_APPLICATIONS; REVIEW_APPLICATIONS;
   UPLOAD_DOCUMENTS; DELETE_DOCUMENTS; VIEW_DOCUMENTS; DOWNLOAD_DOCUMENTS;
   MANAGE_CONTRACTORS; VIEW_CONTRACTORS;
   SYSTEM_ADMIN].

Definition CONTRACTOR_LEAD : list string :=
  [VIEW_COMPANY; INVITE_TEAM_MEMBERS; MANAGE_TEAM_MEMBERS; VIEW_TEAM_MEMBERS;
   VIEW_FACILITIES; VIEW_APPLICATIONS; EDIT_APPLICATIONS;
   UPLOAD_DOCUMENTS; VIEW_DOCUMENTS; DOWNLOAD_DOCUMENTS;
   MANAGE_CONTRACTORS; VIEW_CONTRACTORS].

(** The own properties of the object [ROLE_PERMISSIONS]; the entries of
    contractor_account_owner and contractor_manager list the same
    permissions in the same order. *)
Definition ROLE_PERMISSIONS : list (string * list string) :=
  [("company_admin",
    [MANAGE_COMPANY; VIEW_COMPANY;
     INVITE_TEAM_MEMBERS; MANAGE_TEAM_MEMBERS; VIEW_TEAM_MEMBERS;
     CREATE_FACILITIES; EDIT_FACILITIES; DELETE_FACILITIES; VIEW_FACILITIES;
     CREATE_APPLICATIONS; EDIT_APPLICATIONS; SUBMIT_APPLICATIONS;
     DELETE_APPLICATIONS; VIEW_APPLICATIONS;
     UPLOAD_DOCUMENTS; DELETE_DOCUMENTS; VIEW_DOCUMENTS; DOWNLOAD_DOCUMENTS;
     MANAGE_CONTRACTORS; VIEW_CONTRACTORS]);
   ("team_member",
    [VIEW_COMPANY; VIEW_TEAM_MEMBERS; VIEW_FACILITIES; VIEW_APPLICATIONS;
     VIEW_DOCUMENTS; DOWNLOAD_DOCUMENTS; VIEW_CONTRACTORS]);
   ("contractor_individual",
    [VIEW_COMPANY; VIEW_FACILITIES; VIEW_APPLICATIONS;
     UPLOAD_DOCUMENTS; VIEW_DOCUMENTS; DOWNLOAD_DOCUMENTS]);
   ("contractor_account_owner", CONTRACTOR_LEAD);
   ("contractor_manager", CONTRACTOR_LEAD);
   ("contractor_team_member",
    [VIEW_COMPANY; VIEW_TEAM_MEMBERS; VIEW_FACILITIES; VIEW_APPLICATIONS;
     VIEW_DOCUMENTS; DOWNLOAD_DOCUMENTS; VIEW_CONTRACTORS]);
   ("system_admin", SYSTEM_ADMIN :: PERMISSION_VALUES)].

(** The property names every object literal inherits from
    [Object.prototype]; reading one of them from [ROLE_PERMISSIONS] yields
    a function (or the prototype itself), which is truthy and has no
    [includes] method. *)
Definition INHERITED : list string :=
  ["constructor"; "hasOwnProperty"; "isPrototypeOf"; "propertyIsEnumerable";
   "toLocaleString"; "toString"; "valueOf"; "__proto__";
   "__defineGetter__"; "__defineSetter__"; "__lookupGetter__"; "__lookupSetter__"].

(** What [ROLE_PERMISSIONS[userRole]] evaluates to. *)
Inductive Entry :=
| Own (permissions : list string)
| Inherited
| Undefined.

Definition entryOf (userRole : string) : Entry :=
  match find (fun kv => fst kv =? userRole) ROLE_PERMISSIONS with
  | Some kv => Own (snd kv)
  | None => if Js.arrayIncludes INHERITED userRole then Inherited else Undefined
  end.

(** [hasPermission]: [(ROLE_PERMISSIONS[userRole] || []).includes(permission)];
    calling the missing [includes] of an inherited property is a
    [TypeError]. *)
Definition hasPermission (userRole permission : string) : Result bool :=
  match entryOf userRole with
  | Own rolePermissions => Ok (Js.arrayIncludes rolePermissions permission)
  | Undefined => Ok (Js.arrayIncludes [] permission)
  | Inherited => Throw "rolePermissions.includes is not a function"
  end.

(** [arr.some(f)] and [arr.every(f)] for a callback that may throw. *)
Fixpoint some (f : string -> Result bool) (arr : list string) : Result bool :=
  match arr with
  | [] => Ok false
  | x :: rest =>
      match f x with
      | Throw e => Throw e
      | Ok true => Ok true
      | Ok false => some f rest
      end
  end.

Fixpoint every (f : string -> Result bool) (arr : list string) : Result bool :=
  match arr with
  | [] => Ok true
  | x :: rest =>
      match f x with
      | Throw e => Throw e
      | Ok false => Ok false
      | Ok true => every f rest
      end
  end.

Definition hasAnyPermission (userRole : string) (permissions : list string) : Result bool :=
  some (fun permission => hasPermission userRole permission) permissions.

Definition hasAllPermissions (userRole : string) (permissions : list string) : Result bool :=
  every (fun permission => hasPermission userRole permission) permissions.

(** The seven roles of the data model. *)
Definition ROLES : list string :=
  ["company_admin"; "team_member"; "contractor_account_owner";
   "contractor_individual"; "contractor_manager"; "contractor_team_member";
   "system_admin"].

End RolePermissions.

(* ===================================================================== *)
(** ** server/auth.ts: the remaining verification endpoints               *)
(* ===================================================================== *)

Module Endpoints.

(** Modelled from the spec: [server/storage.ts] is not among the sources.
    The spec makes verification conditional on a matching token that has
    not expired, and the handler answers a failed lookup with Invalid or
    expired verification token: the lookup returns the first row that
    holds the token and whose expiry, where it has one, has not passed at
    [now], which is the test POST /verify-code makes. *)
Definition getUserByVerificationToken (now : Z) (st : Storage.Store) (token : string)
  : option Storage.User :=
  find (fun u =>
          Auth.optStrEq (Storage.emailVerificationToken u) (Some token) &&
          negb match Storage.verificationTokenExpiry u with
               | Some expiry => (expiry <? now)%Z
               | None => false
               end)
       (Storage.users st).

(** [req.session.emailVerified = email]. *)
Definition setEmailVerified (s : Session.t) (email : string) : Session.t :=
  {| Session.userId := Session.userId s;
     Session.emailVerified := Some email;
     Session.registrationVerification := Session.registrationVerification s |}.

(** [req.session.registrationVerification = { email, code, expires }]. *)
Definition setRegistrationVerification (s : Session.t)
           (rv : Session.RegistrationVerification) : Session.t :=
  {| Session.userId := Session.userId s;
     Session.emailVerified := Session.emailVerified s;
     Session.registrationVerification := Some rv |}.

(** The handler of GET /api/auth/user. The column [profileImageUrl] is not
    part of the row model; [profileImageUrl] gives its JSON value. *)
Definition getCurrentUser (profileImageUrl : Storage.User -> Json)
           (st : Storage.Store) (sess : Session.t) : Auth.Outcome :=
  let userId := Session.userId sess in
  if negb (Js.truthy userId) then (st, sess, Auth.json 401 "Not authenticated")
  else
    match Storage.getUser st (Auth.text userId) with
    | None => (st, sess, Auth.json 401 "User not found")
    | Some user =>
        (st, sess,
         {| Response.status := 200;
            Response.body :=
              [("id", JStr (Storage.id user));
               ("email", JStr (Storage.email user));
               ("firstName", JStr (Storage.firstName user));
               ("lastName", JStr (Storage.lastName user));
               ("role", JStr (Storage.role user));
               ("permissionLevel", JStr (Storage.permissionLevel user));
               ("companyId", Auth.optNum (Storage.companyId user));
               ("profileImageUrl", profileImageUrl user);
               ("twoFactorEnabled", JBool (Storage.twoFactorEnabled user))] |})
    end.

(** The handler of GET /api/auth/verify-email, with [token] taken from the
    query string. *)
Definition verifyEmail (env : Env) (st : Storage.Store) (sess : Session.t)
           (token : option string) : Auth.Outcome :=
  if negb (Js.truthy token) then
    (st, sess, Auth.json 400 "Verification token is required")
  else
    match getUserByVerificationToken (now env) st (Auth.text token) with
    | None => (st, sess, Auth.json 400 "Invalid or expired verification token")
    | Some user =>
        if Storage.isEmailVerified user then
          (st, sess, Auth.json 200 "Email already verified")
        else
          let '(st, _) :=
            Storage.updateUser st (Storage.id user)
              [Storage.SetIsEmailVerified true;
               Storage.SetEmailVerifiedAt (Some (now env));
               Storage.SetEmailVerificationToken None] in
          (st, sess,
           {| Response.status := 200;
              Response.body :=
                [("message", JStr "Email successfully verified! You can now log in to your account.");
                 ("verified", JBool true)] |})
    end.

(** The handler of POST /api/auth/send-registration-verification. *)
Definition sendRegistrationVerification (env : Env) (st : Storage.Store)
           (sess : Session.t) (email : option string) : Auth.Outcome :=
  if negb (Js.truthy email) then (st, sess, Auth.json 400 "Email is required")
  else
    match Storage.getUserByEmail st (Auth.text email) with
    | Some _ => (st, sess, Auth.json 400 "User with this email already exists")
    | None =>
        let verificationCode := randomCode env in
        let sess :=
          setRegistrationVerification sess
            {| Session.rvEmail := Auth.text email;
               Session.rvCode := verificationCode;
               Session.rvExpires := (now env + 10 * 60 * 1000)%Z |} in
        let emailSent :=
          sendEmailVerificationEmail env (Auth.text email) "User" verificationCode in
        if emailSent
        then (st, sess, Auth.json 200 "Verification code sent successfully")
        else (st, sess, Auth.json 500 "Failed to send verification email")
    end.

(** The handler of POST /api/auth/verify-registration-code. *)
Definition verifyRegistrationCode (env : Env) (st : Storage.Store)
           (sess : Session.t) (email code : option string) : Auth.Outcome :=
  if negb (Js.truthy email) || negb (Js.truthy code) then
    (st, sess, Auth.json 400 "Email and verification code are required")
  else
    match Session.registrationVerification sess with
    | None => (st, sess, Auth.json 400 "No verification session found")
    | Some registrationData =>
        if negb (Session.rvEmail registrationData =? Auth.text email) then
          (st, sess, Auth.json 400 "Email does not match verification session")
        else if (Session.rvExpires registrationData <? now env)%Z then
          (st, sess, Auth.json 400 "Verification code has expired")
        else if negb (Session.rvCode registrationData =? Auth.text code) then
          (st, sess, Auth.json 400 "Invalid verification code")
        else
          let sess := setEmailVerified sess (Auth.text email) in
          let st :=
            match Storage.getUserByEmail st (Auth.text email) with
            | Some existingUser =>
                fst (Storage.updateUser st (Storage.id existingUser)
                       [Storage.SetIsEmailVerified true;
                        Storage.SetEmailVerifiedAt (Some (now env))])
            | None => st
            end in
          (st, sess, Auth.json 200 "Email verified successfully")
    end.

(** The handler of POST /api/auth/resend-verification. *)
Definition resendVerification (env : Env) (st : Storage.Store) (sess : Session.t)
           (email : option string) : Auth.Outcome :=
  if negb (Js.truthy email) then (st, sess, Auth.json 400 "Email is required")
  else
    match Storage.getUserByEmail st (Auth.text email) with
    | None => (st, sess, Auth.json 404 "User not found")
    | Some user =>
        if Storage.isEmailVerified user then
          (st, sess, Auth.json 400 "Email is already verified")
        else
          let emailVerificationToken := randomCode env in
          let verificationTokenExpiry := (now env + 10 * 60 * 1000)%Z in
          let '(st, _) :=
            Storage.updateUser st (Storage.id user)
              [Storage.SetEmailVerificationToken (Some emailVerificationToken);
               Storage.SetVerificationTokenExpiry (Some verificationTokenExpiry)] in
          let emailSent :=
            sendEmailVerificationEmail env (Auth.text email)
              (Js.orDefault (Some (Storage.firstName user)) "User")
              emailVerificationToken in
          if negb emailSent then
            (st, sess, Auth.json 500 "Failed to send verification email")
          else
            (st, sess,
             {| Response.status := 200;
                Response.body :=
                  [("message", JStr "Verification email sent! Please check your email.");
                   ("emailSent", JBool true)] |})
    end.

End Endpoints.

(* ===================================================================== *)
(** ** The branches of a registration, and sample runs                    *)
(* ===================================================================== *)

Module Branches.

Definition contractorRole (body : RegisterBody.t) : bool :=
  Js.strictEq (Auth.userRoleOf body) "contractor_individual" ||
  Js.strictEq (Auth.userRoleOf body) "contractor_account_owner".

(** A request that no branch claims: the account is created and a
    verification code is e-mailed. *)
Definition plain (body : RegisterBody.t) : bool :=
  negb (Auth.isTeamMemberOf body) && negb (contractorRole body) &&
  negb (Auth.isCompanyOwnerOf body).

(** An individual contractor asking to join an existing company. *)
Definition joinRequest (body : RegisterBody.t) : bool :=
  negb (Auth.isTeamMemberOf body) &&
  Js.strictEq (Auth.userRoleOf body) "contractor_individual" &&
  Js.strictEq (RegisterBody.contractorCompanyExists body) "yes" &&
  Js.truthyNum (RegisterBody.selectedCompanyId body).

(** A company-owner registration: company name, short name and business
    number present, and neither of the earlier branches taken. *)
Definition companyOwner (body : RegisterBody.t) : bool :=
  negb (Auth.isTeamMemberOf body) && negb (contractorRole body) &&
  Auth.isCompanyOwnerOf body.

(** The further fields and the three agreements an owner must supply. *)
Definition ownerFields (body : RegisterBody.t) : bool :=
  Js.truthy (RegisterBody.streetAddress body) &&
  Js.truthy (RegisterBody.city body) &&
  Js.truthy (RegisterBody.province body) &&
  Js.truthy (RegisterBody.country body) &&
  Js.truthy (RegisterBody.postalCode body) &&
  Js.truthy (RegisterBody.howHeardAbout body).

Definition ownerAgreements (body : RegisterBody.t) : bool :=
  RegisterBody.agreeToPortalServices body &&
  RegisterBody.agreeToBusinessInfo body &&
  RegisterBody.agreeToContact body.

(** The name tried by the owner branch when the counter is [k]. *)
Definition ownerCandidate (companyShortName : string) (k : nat) : string :=
  Js.substring0 5 companyShortName ++ Js.numToString k.

End Branches.

Module Scenario.

Definition bobRequest : RegisterBody.t :=
  Sample.request "bob@example.com" "Passw0rd!" None None.

(** The store after Bob's plain registration at time 0. *)
Definition registered : Storage.Store :=
  Auth.storeOf (Auth.register (Sample.env 0) Sample.store Sample.anonymous bobRequest).

Definition bob : Storage.User := Auth.userDataOf (Sample.env 0) bobRequest.

(** A company-owner request with every field and agreement supplied. *)
Definition ownerRequest (e shortName : string) : RegisterBody.t :=
  {| RegisterBody.email := e; RegisterBody.password := "Passw0rd!";
     RegisterBody.firstName := "Carol"; RegisterBody.lastName := "Diaz";
     RegisterBody.businessMobile := None; RegisterBody.userType := None;
     RegisterBody.role := None; RegisterBody.companyName := Some "Carol Foods";
     RegisterBody.companyShortName := Some shortName;
     RegisterBody.businessNumber := Some "123456789";
     RegisterBody.streetAddress := Some "5 Oak Ave"; RegisterBody.city := Some "Edmonton";
     RegisterBody.province := Some "AB"; RegisterBody.country := Some "Canada";
     RegisterBody.postalCode := Some "T5J 0N3";
     RegisterBody.howHeardAbout := Some "web";
     RegisterBody.agreeToPortalServices := true;
     RegisterBody.agreeToBusinessInfo := true;
     RegisterBody.agreeToContact := true;
     RegisterBody.hasCodeOfConductAgreement := false;
     RegisterBody.hasPrivacyPolicyAgreement := false;
     RegisterBody.hasTermsOfServiceAgreement := false;
     RegisterBody.hasDataSharingAgreement := false;
     RegisterBody.acceptTerms := false;
     RegisterBody.acceptBusinessInfo := false;
     RegisterBody.acceptContact := false;
     RegisterBody.codeOfConductAgreed := false;
     RegisterBody.contractorCompanyExists := None;
     RegisterBody.selectedCompanyId := None |}.

(** An individual contractor asking to join company 1. *)
Definition joinRequest : RegisterBody.t :=
  {| RegisterBody.email := "dan@example.com"; RegisterBody.password := "Passw0rd!";
     RegisterBody.firstName := "Dan"; RegisterBody.lastName := "Eke";
     RegisterBody.businessMobile := None;
     RegisterBody.userType := Some "contractor_individual";
     RegisterBody.role := None; RegisterBody.companyName := None;
     RegisterBody.companyShortName := None; RegisterBody.businessNumber := None;
     RegisterBody.streetAddress := None; RegisterBody.city := None;
     RegisterBody.province := None; RegisterBody.country := None;
     RegisterBody.postalCode := None; RegisterBody.howHeardAbout := None;
     RegisterBody.agreeToPortalServices := false;
     RegisterBody.agreeToBusinessInfo := false;
     RegisterBody.agreeToContact := false;
     RegisterBody.hasCodeOfConductAgreement := false;
     RegisterBody.hasPrivacyPolicyAgreement := false;
     RegisterBody.hasTermsOfServiceAgreement := false;
     RegisterBody.hasDataSharingAgreement := false;
     RegisterBody.acceptTerms := false;
     RegisterBody.acceptBusinessInfo := false;
     RegisterBody.acceptContact := false;
     RegisterBody.codeOfConductAgreed := false;
     RegisterBody.contractorCompanyExists := Some "yes";
     RegisterBody.selectedCompanyId := Some 1%Z |}.

(** A session in which the e-mail was verified in the popup. *)
Definition verifiedSession (e : string) : Session.t :=
  Endpoints.setEmailVerified Sample.anonymous e.

(** A store in which a short name and its candidates 2 .. [n] are in use. *)
Definition crowdedOwner (shortName : string) (n : nat) : Storage.Store :=
  {| Storage.users := [];
     Storage.companies :=
       Sample.company 1 "Other" shortName ::
       map (fun k => Sample.company (Z.of_nat k) "Other" (Branches.ownerCandidate shortName k))
           (seq 2 (n - 1));
     Storage.joinRequests := [];
     Storage.nextCompanyId := Z.of_nat (n + 1) |}.

End Scenario.

(* ===================================================================== *)
(** ** What a registration may change                                     *)
(* ===================================================================== *)

Module Frame.

(** Every row but the one with id [i] is the same in [st'] as in [st]. *)
Definition sameOthers (i : string) (st st' : Storage.Store) : Prop :=
  forall j, j <> i -> Storage.getUser st' j = Storage.getUser st j.

(** The companies of [st'] are those of [st], or those and one more. *)
Definition companiesGrow (st st' : Storage.Store) : Prop :=
  Storage.companies st' = Storage.companies st \/
  exists company, Storage.companies st' = (Storage.companies st ++ [company])%list.

(** The session [sess'] is [sess], or [sess] logged in as [i]. *)
Definition sessionKept (i : string) (sess sess' : Session.t) : Prop :=
  sess' = sess \/ sess' = Session.setUserId sess i.

Definition framed (i : string) (st : Storage.Store) (sess : Session.t)
           (o : Auth.Outcome) : Prop :=
  sameOthers i st (Auth.storeOf o) /\
  companiesGrow st (Auth.storeOf o) /\
  sessionKept i sess (Auth.sessionOf o).

End Frame.

(* ===================================================================== *)
(** * Properties                                                          *)
(* ===================================================================== *)

(** ** The permission predicates *)

Module PermissionFacts.
Import Permissions.

Lemma indexOf_levelName (l : PermissionLevel) :
  Js.indexOf levels (levelName l) = ordinal l.
Proof. destruct l; reflexivity. Qed.

Lemma orDefault_levelName (l : option PermissionLevel) :
  Js.orDefault (option_map levelName l) "viewer" = levelName (levelOrViewer l).
Proof. destruct l as [[] |]; reflexivity. Qed.

(** C3, as amended. [hasPermissionLevel] answers true for a company_admin
    or system_admin whatever the stored and the required level; for the
    role team_member it answers true exactly when the rank of the stored
    level (viewer when absent) in viewer < editor < manager < owner is at
    least the rank of the required level; for contractor_team_member it
    answers false. *)
Theorem hasPermissionLevel_by_role (u : User) (requiredLevel : string) :
  (role u = Some "company_admin" \/ role u = Some "system_admin" ->
   hasPermissionLevel (Some u) requiredLevel = true) /\
  (forall (l : option PermissionLevel) (req : PermissionLevel),
      role u = Some "team_member" ->
      permissionLevel u = option_map levelName l ->
      hasPermissionLevel (Some u) (levelName req)
      = (ordinal req <=? ordinal (levelOrViewer l))%Z) /\
  (role u = Some "contractor_team_member" ->
   hasPermissionLevel (Some u) requiredLevel = false).
Proof.
  destruct u as [r pl]; cbn [role permissionLevel].
  split; [| split].
  - intros [-> | ->]; reflexivity.
  - intros l req -> ->. unfold hasPermissionLevel; cbn [role permissionLevel].
    cbn [Js.strictEq String.eqb Ascii.eqb Bool.eqb orb].
    rewrite orDefault_levelName, !indexOf_levelName. reflexivity.
  - intros ->. reflexivity.
Qed.

Lemma hasPermissionLevel_by_role_witness :
  hasPermissionLevel (Some (userOf "company_admin" None)) "owner" = true /\
  hasPermissionLevel (Some (userOf "team_member" (Some Editor))) "manager" = false /\
  hasPermissionLevel (Some (userOf "team_member" None)) "viewer" = true /\
  hasPermissionLevel (Some (userOf "contractor_team_member" (Some Owner))) "viewer" = false.
Proof.
  split; [| split; [| split]].
  - apply (hasPermissionLevel_by_role (userOf "company_admin" None) "owner").
    left; reflexivity.
  - apply (proj1 (proj2 (hasPermissionLevel_by_role
                           (userOf "team_member" (Some Editor)) "manager"))
                 (Some Editor) Manager); reflexivity.
  - apply (proj1 (proj2 (hasPermissionLevel_by_role
                           (userOf "team_member" None) "viewer"))
                 None Viewer); reflexivity.
  - apply (hasPermissionLevel_by_role
             (userOf "contractor_team_member" (Some Owner)) "viewer").
    reflexivity.
Defined.

(** C3 as stated fails: a contractor_team_member whose level is owner
    is refused the level viewer, although owner ranks above viewer. *)
Lemma hasPermissionLevel_contractor_team_member_refused :
  role (userOf "contractor_team_member" (Some Owner)) = Some "contractor_team_member" /\
  (ordinal Viewer <=? ordinal (levelOrViewer (Some Owner)))%Z = true /\
  hasPermissionLevel (Some (userOf "contractor_team_member" (Some Owner)))
                     (levelName Viewer) = false.
Proof. repeat split. Qed.

(** C5. A contractor_team_member with level viewer may not edit an
    application whose assignment list is [view], may edit one whose list
    is [view, edit]; a contractor_manager may edit whatever the list. *)
Theorem canContractorEdit_assignments :
  (forall u : User,
      role u = Some "contractor_team_member" ->
      permissionLevel u = Some "viewer" ->
      canContractorEdit (Some u) (Some ["view"]) = false /\
      canContractorEdit (Some u) (Some ["view"; "edit"]) = true) /\
  (forall (u : User) (applicationPermissions : option (list string)),
      role u = Some "contractor_manager" ->
      canContractorEdit (Some u) applicationPermissions = true).
Proof.
  split.
  - intros [r pl]; cbn [role permissionLevel]; intros -> ->. split; reflexivity.
  - intros [r pl] perms; cbn [role permissionLevel]; intros ->. reflexivity.
Qed.

Lemma canContractorEdit_assignments_witness :
  canContractorEdit (Some (userOf "contractor_team_member" (Some Viewer)))
                    (Some ["view"]) = false /\
  canContractorEdit (Some (userOf "contractor_team_member" (Some Viewer)))
                    (Some ["view"; "edit"]) = true /\
  canContractorEdit (Some (userOf "contractor_manager" None)) None = true.
Proof.
  destruct canContractorEdit_assignments as [Hmember Hmanager].
  destruct (Hmember (userOf "contractor_team_member" (Some Viewer))
                    eq_refl eq_refl) as [Hview Hedit].
  split; [exact Hview | split; [exact Hedit |]].
  apply Hmanager. reflexivity.
Defined.

End PermissionFacts.

(** ** The store *)

Module StorageFacts.
Import Storage.

Lemma assign_id (u : User) (a : Assign) : id (assign u a) = id u.
Proof. destruct u, a; reflexivity. Qed.

Lemma assign_email (u : User) (a : Assign) : email (assign u a) = email u.
Proof. destruct u, a; reflexivity. Qed.

Lemma patch_id (fields : list Assign) : forall u, id (patch u fields) = id u.
Proof.
  unfold patch. induction fields as [| a fields IH]; intros u; cbn [fold_left].
  - reflexivity.
  - rewrite IH. apply assign_id.
Qed.

Lemma patch_email (fields : list Assign) : forall u, email (patch u fields) = email u.
Proof.
  unfold patch. induction fields as [| a fields IH]; intros u; cbn [fold_left].
  - reflexivity.
  - rewrite IH. apply assign_email.
Qed.

Lemma updated_id i fields u : id (updated i fields u) = id u.
Proof. unfold updated. destruct (id u =? i); [apply patch_id | reflexivity]. Qed.

Lemma updated_email i fields u : email (updated i fields u) = email u.
Proof. unfold updated. destruct (id u =? i); [apply patch_email | reflexivity]. Qed.

Lemma find_map_preserved (key : User -> string) (f : User -> User) (k : string) :
  (forall u, key (f u) = key u) ->
  forall rows,
    find (fun u => key u =? k) (map f rows)
    = option_map f (find (fun u => key u =? k) rows).
Proof.
  intros Hkey. induction rows as [| u rows IH]; cbn [map find].
  - reflexivity.
  - rewrite Hkey. destruct (key u =? k); [reflexivity | exact IH].
Qed.

Lemma getUser_updateUser st i fields j :
  getUser (fst (updateUser st i fields)) j = option_map (updated i fields) (getUser st j).
Proof.
  unfold getUser, updateUser; cbn [fst users withUsers].
  apply (find_map_preserved id (updated i fields) j). intros u; apply updated_id.
Qed.

Lemma getUserByEmail_updateUser st i fields e :
  getUserByEmail (fst (updateUser st i fields)) e
  = option_map (updated i fields) (getUserByEmail st e).
Proof.
  unfold getUserByEmail, updateUser; cbn [fst users withUsers].
  apply (find_map_preserved email (updated i fields) e). intros u; apply updated_email.
Qed.

Lemma updateUser_returns st i fields :
  snd (updateUser st i fields) = option_map (fun u => patch u fields) (getUser st i).
Proof. reflexivity. Qed.

Lemma updateUser_companies st i fields :
  companies (fst (updateUser st i fields)) = companies st.
Proof. reflexivity. Qed.

Lemma getUser_found_id st i u : getUser st i = Some u -> id u = i.
Proof.
  unfold getUser. intros H. apply find_some in H. destruct H as [_ H].
  apply String.eqb_eq in H. exact H.
Qed.

Lemma getUserByEmail_found_email st e u : getUserByEmail st e = Some u -> email u = e.
Proof.
  unfold getUserByEmail. intros H. apply find_some in H. destruct H as [_ H].
  apply String.eqb_eq in H. exact H.
Qed.

Lemma getUser_replaceOrAppend row rows :
  find (fun u => id u =? id row) (replaceOrAppend row rows) = Some row.
Proof.
  induction rows as [| u rows IH]; cbn [replaceOrAppend find].
  - rewrite String.eqb_refl. reflexivity.
  - destruct (id u =? id row) eqn:E; cbn [find].
    + rewrite String.eqb_refl. reflexivity.
    + rewrite E. exact IH.
Qed.

Lemma getUserByEmail_replaceOrAppend row rows :
  find (fun u => email u =? email row) rows = None ->
  find (fun u => email u =? email row) (replaceOrAppend row rows) = Some row.
Proof.
  induction rows as [| u rows IH]; cbn [replaceOrAppend find].
  - rewrite String.eqb_refl. reflexivity.
  - destruct (email u =? email row) eqn:E; [discriminate |]. intros Hnone.
    destruct (id u =? id row); cbn [find].
    + rewrite String.eqb_refl. reflexivity.
    + rewrite E. apply IH, Hnone.
Qed.

(** With no row holding the e-mail, [upsertUser] stores the row. *)
Lemma upsertUser_fresh st row :
  getUserByEmail st (email row) = None ->
  upsertUser st row = Ok (withUsers st (replaceOrAppend row (users st)), row).
Proof.
  unfold getUserByEmail, upsertUser. intros Hnone.
  replace (existsb _ (users st)) with false; [reflexivity |].
  symmetry. apply not_true_is_false. intros Hex.
  apply existsb_exists in Hex. destruct Hex as [u [Hin Hu]].
  apply andb_prop in Hu. destruct Hu as [Hu _].
  apply (find_none _ _ Hnone) in Hin. cbv beta in Hin. congruence.
Qed.

End StorageFacts.

(** ** The middleware, the verification code and the password reset *)

Module AuthFacts.
Import Auth.

Lemma truthy_Some (s : string) : s <> EmptyString -> Js.truthy (Some s) = true.
Proof.
  intros Hs. cbn [Js.truthy]. destruct (s =? EmptyString) eqn:E; [| reflexivity].
  apply String.eqb_eq in E. contradiction.
Qed.

Lemma getUserById_deactivated st i user :
  Storage.getUserById st i = Some user ->
  exists user', Storage.getUserById (deactivateUser st i) i = Some user' /\
                Storage.isActive user' = Some false.
Proof.
  unfold Storage.getUserById, deactivateUser. intros Hget.
  rewrite StorageFacts.getUser_updateUser, Hget. cbn [option_map].
  eexists; split; [reflexivity |].
  unfold Storage.updated. rewrite (StorageFacts.getUser_found_id _ _ _ Hget).
  rewrite String.eqb_refl. destruct user; reflexivity.
Qed.

Lemma requireAuth_next st sess i user :
  Session.userId sess = Some i -> i <> EmptyString ->
  Storage.getUserById st i = Some user ->
  Storage.isActive user <> Some false ->
  requireAuth st sess = Next user.
Proof.
  intros Hsess Hi Hget Hactive. unfold requireAuth.
  rewrite Hsess, (truthy_Some _ Hi). cbn [negb text]. rewrite Hget.
  destruct (Storage.isActive user) as [[|] |];
    [reflexivity | contradiction | reflexivity].
Qed.

(** C8. [requireAuth] answers 401 when the session carries no user id or
    the lookup finds nobody, 403 when the resolved user has
    isActive = false, and otherwise attaches the resolved user and
    continues; as the row is read again on each request, the request
    that follows a deactivation is answered 403 although the session
    still names the user. *)
Theorem requireAuth_contract (st : Storage.Store) (sess : Session.t) :
  (Js.truthy (Session.userId sess) = false ->
   requireAuth st sess = Respond (json 401 "Authentication required")) /\
  (forall i : string,
      Session.userId sess = Some i -> i <> EmptyString ->
      (Storage.getUserById st i = None ->
       requireAuth st sess = Respond (json 401 "User not found")) /\
      (forall user : Storage.User,
          Storage.getUserById st i = Some user ->
          (Storage.isActive user = Some false ->
           requireAuth st sess = Respond (json 403 DEACTIVATED)) /\
          (Storage.isActive user <> Some false ->
           requireAuth st sess = Next user) /\
          requireAuth (deactivateUser st i) sess = Respond (json 403 DEACTIVATED))).
Proof.
  split.
  - intros Hfalsy. unfold requireAuth. rewrite Hfalsy. reflexivity.
  - intros i Hsess Hi. pose proof (truthy_Some _ Hi) as Htruthy.
    unfold requireAuth. rewrite Hsess, Htruthy. cbn [negb text]. split.
    + intros ->. reflexivity.
    + intros user Hget. rewrite Hget. split; [| split].
      * intros ->. reflexivity.
      * intros Hactive. destruct (Storage.isActive user) as [[|] |];
          [reflexivity | contradiction | reflexivity].
      * destruct (getUserById_deactivated _ _ _ Hget) as [user' [Hget' Hoff]].
        rewrite Hget', Hoff. reflexivity.
Qed.

Lemma requireAuth_contract_witness :
  requireAuth Sample.store Sample.anonymous
  = Respond (json 401 "Authentication required") /\
  requireAuth Sample.store Sample.aliceSession = Next Sample.alice /\
  requireAuth (deactivateUser Sample.store "user-1") Sample.aliceSession
  = Respond (json 403 DEACTIVATED).
Proof.
  split; [| split].
  - apply (requireAuth_contract Sample.store Sample.anonymous). reflexivity.
  - apply (proj2 (requireAuth_contract Sample.store Sample.aliceSession) "user-1");
      [reflexivity | discriminate | reflexivity | discriminate].
  - apply (proj2 (requireAuth_contract Sample.store Sample.aliceSession) "user-1"
                 eq_refl ltac:(discriminate)) with (user := Sample.alice).
    reflexivity.
Defined.

(** The code written at registration expires ten minutes later. *)
Lemma userDataOf_code_expiry env body :
  Storage.emailVerificationToken (userDataOf env body) = Some (randomCode env) /\
  Storage.verificationTokenExpiry (userDataOf env body)
  = Some (now env + 10 * 60 * 1000)%Z.
Proof. split; reflexivity. Qed.

(** C9. For a request that names an existing account, [verifyCode]
    answers "already verified" when the account is verified, whether or
    not the submitted code is the stored one; and for an unverified
    account it refuses the stored code itself once the expiry recorded
    with it has passed. *)
Theorem verifyCode_rejections (env : Env) (st : Storage.Store) (sess : Session.t)
        (email code : string) (user : Storage.User) :
  email <> EmptyString -> code <> EmptyString ->
  Storage.getUserByEmail st email = Some user ->
  (Storage.isEmailVerified user = true ->
   verifyCode env st sess (Some email) (Some code)
   = (st, sess, json 400 "Email is already verified")) /\
  (forall expiry : Z,
      Storage.isEmailVerified user = false ->
      Storage.emailVerificationToken user = Some code ->
      Storage.verificationTokenExpiry user = Some expiry ->
      (expiry < now env)%Z ->
      verifyCode env st sess (Some email) (Some code)
      = (st, sess, json 400 "Verification code has expired. Please request a new one.")).
Proof.
  intros Hemail Hcode Hget. unfold verifyCode.
  rewrite (truthy_Some _ Hemail), (truthy_Some _ Hcode). cbn [negb orb text].
  rewrite Hget. split.
  - intros ->. reflexivity.
  - intros expiry -> -> -> Hlate. cbn [optStrEq]. rewrite String.eqb_refl.
    cbn [negb]. apply Z.ltb_lt in Hlate. rewrite Hlate. reflexivity.
Qed.

Lemma verifyCode_rejections_witness :
  let registered :=
    storeOf (register (Sample.env 0) Sample.store Sample.anonymous
                      (Sample.request "bob@example.com" "Passw0rd!" None None)) in
  option_map Storage.verificationTokenExpiry
             (Storage.getUserByEmail registered "bob@example.com")
  = Some (Some (10 * 60 * 1000)%Z) /\
  verifyCode (Sample.env 600001) registered Sample.anonymous
             (Some "bob@example.com") (Some "482913")
  = (registered, Sample.anonymous,
     json 400 "Verification code has expired. Please request a new one.") /\
  verifyCode (Sample.env 1) Sample.store Sample.anonymous
             (Some "alice@example.com") (Some "000000")
  = (Sample.store, Sample.anonymous, json 400 "Email is already verified").
Proof.
  cbv zeta. split; [reflexivity | split].
  - edestruct (fun user =>
                 @verifyCode_rejections (Sample.env 600001)
                   (storeOf (register (Sample.env 0) Sample.store Sample.anonymous
                               (Sample.request "bob@example.com" "Passw0rd!" None None)))
                   Sample.anonymous "bob@example.com" "482913" user
                   ltac:(discriminate) ltac:(discriminate)) as [_ Hexpired].
    + reflexivity.
    + apply (Hexpired (10 * 60 * 1000)%Z); reflexivity.
  - apply (proj1 (@verifyCode_rejections (Sample.env 1) Sample.store Sample.anonymous
                    "alice@example.com" "000000" Sample.alice
                    ltac:(discriminate) ltac:(discriminate) eq_refl)).
    reflexivity.
Defined.

Lemma getUserByEmail_after_update st email user fields :
  Storage.getUserByEmail st email = Some user ->
  Storage.getUserByEmail (fst (Storage.updateUser st (Storage.id user) fields)) email
  = Some (Storage.patch user fields).
Proof.
  intros Hget. rewrite StorageFacts.getUserByEmail_updateUser, Hget.
  cbn [option_map]. unfold Storage.updated. rewrite String.eqb_refl. reflexivity.
Qed.

(** What POST /request-reset leaves in the row of an existing account. *)
Lemma requestReset_issues_token env st sess email user :
  email <> EmptyString ->
  Storage.getUserByEmail st email = Some user ->
  Storage.getUserByEmail (storeOf (requestReset env st sess (Some email))) email
  = Some (Storage.patch user [Storage.SetResetToken (Some (nanoid32 env));
                              Storage.SetResetExpiry (Some (now env + 60 * 60 * 1000)%Z)]).
Proof.
  intros Hemail Hget. unfold requestReset.
  rewrite (truthy_Some _ Hemail). cbn [negb text]. rewrite Hget.
  rewrite (surjective_pairing (Storage.updateUser _ _ _)). cbn [storeOf fst].
  apply getUserByEmail_after_update, Hget.
Qed.

(** C1, as amended. After POST /request-reset has stored a reset token for
    an account, a POST /reset-password with a password that meets the
    policy succeeds for that account on the e-mail alone: it replaces the
    stored hash and leaves the reset token and its expiry in the row as
    they were issued. *)
Theorem resetPassword_leaves_token (envIssue envReset : Env) (st : Storage.Store)
        (sess : Session.t) (email newPassword : string) (user : Storage.User) :
  email <> EmptyString ->
  passwordRegexTest newPassword = true ->
  Storage.getUserByEmail st email = Some user ->
  let issued := storeOf (requestReset envIssue st sess (Some email)) in
  let done := resetPassword envReset issued sess email newPassword in
  responseOf done = json 200 "Password updated successfully" /\
  exists row : Storage.User,
    Storage.getUserByEmail (storeOf done) email = Some row /\
    Storage.password row = hashPassword envReset newPassword /\
    Storage.resetToken row = Some (nanoid32 envIssue) /\
    Storage.resetExpiry row = Some (now envIssue + 60 * 60 * 1000)%Z.
Proof.
  intros Hemail Hpolicy Hget issued done.
  pose proof (@requestReset_issues_token envIssue st sess email user Hemail Hget) as Hissued.
  fold issued in Hissued. subst done. unfold resetPassword.
  rewrite Hpolicy. cbn [negb]. rewrite Hissued.
  rewrite (surjective_pairing (Storage.updateUser _ _ _)).
  cbn [responseOf storeOf fst snd]. split; [reflexivity |].
  eexists. split.
  - apply getUserByEmail_after_update, Hissued.
  - destruct user; repeat split; reflexivity.
Qed.

Lemma resetPassword_leaves_token_witness :
  exists row : Storage.User,
    Storage.getUserByEmail
      (storeOf (resetPassword (Sample.env 5000)
                  (storeOf (requestReset (Sample.env 0) Sample.store Sample.anonymous
                                         (Some "alice@example.com")))
                  Sample.anonymous "alice@example.com" "N3w!Passw0rd"))
      "alice@example.com" = Some row /\
    Storage.password row = "$2b$10$N3w!Passw0rd" /\
    Storage.resetToken row = Some "reset-token-0123456789abcdefghij" /\
    Storage.resetExpiry row = Some 3600000%Z.
Proof.
  exact (proj2 (@resetPassword_leaves_token (Sample.env 0) (Sample.env 5000) Sample.store
                  Sample.anonymous "alice@example.com" "N3w!Passw0rd" Sample.alice
                  ltac:(discriminate) eq_refl eq_refl)).
Defined.

(** C1 as stated fails: the token issued by POST /request-reset is still
    stored after a successful POST /reset-password, and a second
    POST /reset-password made after it changes the password again. *)
Lemma resetPassword_token_not_consumed :
  let issued :=
    storeOf (requestReset (Sample.env 0) Sample.store Sample.anonymous
                          (Some "alice@example.com")) in
  let first :=
    resetPassword (Sample.env 1000) issued Sample.anonymous
                  "alice@example.com" "N3w!Passw0rd" in
  let second :=
    resetPassword (Sample.env 2000) (storeOf first) Sample.anonymous
                  "alice@example.com" "An0ther!Passw0rd" in
  option_map Storage.resetToken (Storage.getUserByEmail issued "alice@example.com")
  = Some (Some "reset-token-0123456789abcdefghij") /\
  Response.status (responseOf first) = 200%nat /\
  option_map Storage.resetToken (Storage.getUserByEmail (storeOf first) "alice@example.com")
  = Some (Some "reset-token-0123456789abcdefghij") /\
  Response.status (responseOf second) = 200%nat /\
  option_map Storage.password (Storage.getUserByEmail (storeOf second) "alice@example.com")
  = Some "$2b$10$An0ther!Passw0rd".
Proof. cbv zeta. repeat split; vm_compute; reflexivity. Qed.

(** The part of C4 the handler keeps. With an authenticated, active user,
    POST /2fa/verify stores the submitted secret and raises the flag when
    the token is valid for that secret, and answers 400 without touching
    the store when it is not. *)
Lemma twoFactorVerify_checks_token env st sess i user secret token :
  Session.userId sess = Some i -> i <> EmptyString ->
  Storage.getUserById st i = Some user ->
  Storage.isActive user <> Some false ->
  secret <> EmptyString -> token <> EmptyString ->
  let done := twoFactorVerify env st sess (Some secret) (Some token) in
  (verifyTwoFactorToken env token secret = false ->
   done = (st, sess, json 400 "Invalid verification code")) /\
  (verifyTwoFactorToken env token secret = true ->
   responseOf done = json 200 "Two-factor authentication enabled successfully" /\
   exists row, Storage.getUserById (storeOf done) i = Some row /\
               Storage.twoFactorSecret row = Some secret /\
               Storage.twoFactorEnabled row = true).
Proof.
  intros Hsess Hi Hget Hactive Hsecret Htoken done. subst done.
  unfold twoFactorVerify, authenticated.
  rewrite (requireAuth_next st sess i user Hsess Hi Hget Hactive).
  rewrite (truthy_Some _ Hsecret), (truthy_Some _ Htoken). cbn [negb orb text]. split.
  - intros ->. reflexivity.
  - intros ->. cbn [negb]. rewrite (surjective_pairing (Storage.updateUser _ _ _)).
    cbn [responseOf storeOf fst snd]. split; [reflexivity |].
    unfold Storage.getUserById in *. rewrite StorageFacts.getUser_updateUser, Hget.
    cbn [option_map]. eexists; split; [reflexivity |].
    unfold Storage.updated. rewrite (StorageFacts.getUser_found_id _ _ _ Hget), String.eqb_refl.
    destruct user; split; reflexivity.
Qed.

(** C4 at the failing input. Alice has two-factor authentication enabled
    with the secret OLDSECRET. POST /2fa/setup refuses her, but
    POST /2fa/verify with a new secret and a token valid for it answers
    200 and replaces the stored secret. *)
Theorem twoFactorVerify_accepts_enrolled_user :
  option_map Storage.twoFactorEnabled (Storage.getUser Sample.enrolledStore "user-1")
  = Some true /\
  responseOf (twoFactorSetup (Sample.env 0) Sample.enrolledStore Sample.aliceSession)
  = json 400 "Two-factor authentication is already enabled" /\
  responseOf (twoFactorVerify (Sample.env 0) Sample.enrolledStore Sample.aliceSession
                              (Some "NEWSECRET") (Some "NEWSECRET"))
  = json 200 "Two-factor authentication enabled successfully" /\
  option_map Storage.twoFactorSecret
    (Storage.getUser
       (storeOf (twoFactorVerify (Sample.env 0) Sample.enrolledStore Sample.aliceSession
                                 (Some "NEWSECRET") (Some "NEWSECRET")))
       "user-1")
  = Some (Some "NEWSECRET").
Proof. repeat split; vm_compute; reflexivity. Qed.

(** ** Password comparison *)

Lemma split_nonempty sep s : Js.split sep s <> [].
Proof.
  destruct s as [| c r]; cbn [Js.split]; [discriminate |].
  destruct (Ascii.eqb c sep); [discriminate |].
  destruct (Js.split sep r); discriminate.
Qed.

Lemma split_digest stored :
  nth_error (Js.split "." stored) 0 = Some (Legacy.digestPart stored).
Proof.
  induction stored as [| c r IH]; cbn [Js.split Legacy.digestPart]; [reflexivity |].
  destruct (Ascii.eqb c "."); [reflexivity |].
  destruct (Js.split "." r) as [| h t] eqn:E.
  - exfalso. exact (split_nonempty _ _ E).
  - cbn [nth_error] in *. congruence.
Qed.

Lemma split_salt stored :
  nth_error (Js.split "." stored) 1 = Legacy.saltPart stored.
Proof.
  unfold Legacy.saltPart.
  induction stored as [| c r IH]; cbn [Js.split Legacy.afterDot]; [reflexivity |].
  destruct (Ascii.eqb c ".").
  - cbn [nth_error option_map]. apply split_digest.
  - destruct (Js.split "." r) as [| h t] eqn:E.
    + exfalso. exact (split_nonempty _ _ E).
    + exact IH.
Qed.

Lemma no_delimiter_no_salt stored :
  Legacy.hasDelimiter stored = false -> Legacy.saltPart stored = None.
Proof.
  unfold Legacy.hasDelimiter, Legacy.saltPart.
  induction stored as [| c r IH]; cbn [Js.existsChar Legacy.afterDot]; [reflexivity |].
  destruct (Ascii.eqb c "."); [discriminate |]. exact IH.
Qed.

(** The promise returned by [comparePasswords] is never rejected. *)
Lemma comparePasswords_never_throws env supplied stored :
  exists result : bool, comparePasswords env supplied stored = Ok result.
Proof.
  unfold comparePasswords.
  destruct (comparePasswordsTry env supplied stored) as [b | e]; eauto.
Qed.

(** C2. Let the key derivation return the number of bytes it is asked for.
    For every supplied password and every stored value that does not start
    with the bcrypt prefix and cannot be read as [digest.salt] (no dot, an
    empty salt, or a digest that is not 64 hex-encoded bytes),
    [comparePasswords] resolves to false: nothing is thrown to the
    caller. *)
Theorem comparePasswords_fails_closed (env : Env) (supplied stored : string) :
  (forall password salt keylen out,
      scrypt env password salt keylen = Ok out -> length out = keylen) ->
  Js.startsWith stored "$2b$" = false ->
  Legacy.malformed stored ->
  comparePasswords env supplied stored = Ok false.
Proof.
  intros Hkeylen Hprefix Hbad. unfold comparePasswords, comparePasswordsTry.
  rewrite Hprefix, split_digest, split_salt.
  destruct (Legacy.saltPart stored) as [salt |] eqn:Hsalt; [| reflexivity].
  cbn [Js.truthy]. destruct (salt =? EmptyString) eqn:Hempty; [reflexivity |].
  cbn [negb]. destruct (scrypt env supplied salt 64) as [out |] eqn:Hkey;
    cbn [bind]; [| reflexivity].
  unfold timingSafeEqual.
  destruct (length (bufferFromHex (Legacy.digestPart stored)) =? length out)%nat eqn:Hlen;
    cbn [bind]; [| reflexivity].
  exfalso. apply Nat.eqb_eq in Hlen. rewrite (Hkeylen _ _ _ _ Hkey) in Hlen.
  destruct Hbad as [Hnodot | [Hnosalt | Hdigest]].
  - rewrite (no_delimiter_no_salt _ Hnodot) in Hsalt. discriminate.
  - rewrite Hsalt in Hnosalt. injection Hnosalt as ->. discriminate.
  - contradiction.
Qed.

Lemma comparePasswords_fails_closed_witness :
  comparePasswords (Sample.env 0) "Passw0rd!" "not-a-stored-hash" = Ok false /\
  comparePasswords (Sample.env 0) "Passw0rd!" "00ff." = Ok false /\
  comparePasswords (Sample.env 0) "Passw0rd!" "00ff.salt" = Ok false.
Proof.
  assert (Hkeylen : forall password salt keylen out,
             scrypt (Sample.env 0) password salt keylen = Ok out -> length out = keylen).
  { intros password salt keylen out Hout. cbn in Hout. injection Hout as <-.
    apply repeat_length. }
  split; [| split].
  - apply (@comparePasswords_fails_closed (Sample.env 0) "Passw0rd!" "not-a-stored-hash"
             Hkeylen eq_refl).
    left. reflexivity.
  - apply (@comparePasswords_fails_closed (Sample.env 0) "Passw0rd!" "00ff."
             Hkeylen eq_refl).
    right; left. reflexivity.
  - apply (@comparePasswords_fails_closed (Sample.env 0) "Passw0rd!" "00ff.salt"
             Hkeylen eq_refl).
    right; right. cbn. discriminate.
Defined.

(** ** Registration *)

Lemma getUser_withUsers_replaceOrAppend st row :
  Storage.getUser (Storage.withUsers st (Storage.replaceOrAppend row (Storage.users st)))
                  (Storage.id row) = Some row.
Proof. apply StorageFacts.getUser_replaceOrAppend. Qed.

(** Once the password policy and the duplicate check are passed, the
    handler has written the new row (possibly marked verified from the
    session) before it looks at the branch: [st2] is the store and [row]
    the value of [user] the branches start from. *)
Lemma register_prepared env st sess body :
  passwordRegexTest (RegisterBody.password body) = true ->
  Storage.getUserByEmail st (RegisterBody.email body) = None ->
  exists st2 row,
    register env st sess body = registerBranches env st2 sess body (Some row) /\
    Storage.companies st2 = Storage.companies st /\
    Storage.getUser st2 (nanoid env) = Some row /\
    Storage.getUserByEmail st2 (RegisterBody.email body) = Some row /\
    Storage.id row = nanoid env /\
    Storage.email row = RegisterBody.email body /\
    Storage.password row = hashPassword env (RegisterBody.password body).
Proof.
  intros Hpolicy Hfresh. unfold register. rewrite Hpolicy, Hfresh. cbn [negb].
  rewrite StorageFacts.upsertUser_fresh by exact Hfresh.
  set (row := userDataOf env body).
  set (st1 := Storage.withUsers st (Storage.replaceOrAppend row (Storage.users st))).
  assert (Hid : Storage.getUser st1 (nanoid env) = Some row)
    by apply (getUser_withUsers_replaceOrAppend st row).
  assert (Hmail : Storage.getUserByEmail st1 (RegisterBody.email body) = Some row)
    by (apply (StorageFacts.getUserByEmail_replaceOrAppend row); exact Hfresh).
  unfold applySessionVerification.
  destruct (Js.strictEq (Session.emailVerified sess) (RegisterBody.email body)).
  - rewrite (surjective_pairing (Storage.updateUser _ _ _)).
    rewrite StorageFacts.updateUser_returns.
    change (Storage.id row) with (nanoid env). rewrite Hid. cbn [option_map].
    eexists; eexists. split; [reflexivity |]. split; [reflexivity |].
    split; [| split; [| split; [| split]]].
    + rewrite StorageFacts.getUser_updateUser, Hid. cbn [option_map].
      unfold Storage.updated. change (Storage.id row) with (nanoid env).
      rewrite String.eqb_refl. reflexivity.
    + apply (getUserByEmail_after_update st1 _ row), Hmail.
    + reflexivity.
    + reflexivity.
    + reflexivity.
  - exists st1, row. repeat split; assumption.
Qed.

Lemma getCompanyByName_same st st2 n :
  Storage.companies st2 = Storage.companies st ->
  Storage.getCompanyByName st2 n = Storage.getCompanyByName st n.
Proof. unfold Storage.getCompanyByName. intros ->. reflexivity. Qed.

Lemma getCompanyByShortName_same st st2 n :
  Storage.companies st2 = Storage.companies st ->
  Storage.getCompanyByShortName st2 n = Storage.getCompanyByShortName st n.
Proof. unfold Storage.getCompanyByShortName. intros ->. reflexivity. Qed.

(** C6. A registration signalled as team_member that passes the password
    policy and the duplicate check and names an existing company is
    answered 201 with isPending = true; the session is left as it was (no
    user id is set) and the stored user has the company's id, the role
    team_member and isEmailVerified = true. When no company has that exact
    name the answer is 400. *)
Theorem register_team_member (env : Env) (st : Storage.Store) (sess : Session.t)
        (body : RegisterBody.t) (companyName : string) :
  passwordRegexTest (RegisterBody.password body) = true ->
  Storage.getUserByEmail st (RegisterBody.email body) = None ->
  RegisterBody.userType body = Some "team_member" ->
  RegisterBody.companyName body = Some companyName ->
  companyName <> EmptyString ->
  let done := register env st sess body in
  (forall company : Storage.Company,
      Storage.getCompanyByName st companyName = Some company ->
      Response.status (responseOf done) = 201%nat /\
      Response.field (responseOf done) "isPending" = Some (JBool true) /\
      sessionOf done = sess /\
      exists row : Storage.User,
        Storage.getUser (storeOf done) (nanoid env) = Some row /\
        Response.field (responseOf done) "user" = Some (userJson row true false) /\
        Storage.email row = RegisterBody.email body /\
        Storage.companyId row = Some (Storage.cid company) /\
        Storage.role row = "team_member" /\
        Storage.isEmailVerified row = true) /\
  (Storage.getCompanyByName st companyName = None ->
   Response.status (responseOf done) = 400%nat /\ sessionOf done = sess).
Proof.
  intros Hpolicy Hfresh Htype Hname Hnonempty done. subst done.
  destruct (register_prepared env st sess body Hpolicy Hfresh)
    as [st2 [row [-> [Hcompanies [Hid [_ [Hrowid [Hrowmail _]]]]]]]].
  unfold registerBranches, isTeamMemberOf. rewrite Htype.
  cbn [Js.strictEq]. rewrite String.eqb_refl.
  unfold registerTeamMember. rewrite Hname, (truthy_Some _ Hnonempty).
  cbn [negb text]. rewrite (getCompanyByName_same st st2 _ Hcompanies). split.
  - intros company ->. cbn [withUser].
    rewrite (surjective_pairing (Storage.updateUser _ _ _)).
    rewrite StorageFacts.updateUser_returns, Hrowid, Hid. cbn [option_map withUser].
    cbn [responseOf sessionOf storeOf fst snd Response.status].
    split; [reflexivity |]. split; [reflexivity |]. split; [reflexivity |].
    eexists. split.
    + rewrite StorageFacts.getUser_updateUser, Hid. cbn [option_map].
      unfold Storage.updated. rewrite Hrowid, String.eqb_refl. reflexivity.
    + split; [reflexivity |]. destruct row; cbn in Hrowmail |- *.
      repeat split; try reflexivity. exact Hrowmail.
  - intros ->. split; reflexivity.
Qed.

Lemma register_team_member_witness :
  let done :=
    register (Sample.env 0) Sample.store Sample.anonymous
             (Sample.request "bob@example.com" "Passw0rd!"
                             (Some "team_member") (Some "Acme Mills")) in
  Response.status (responseOf done) = 201%nat /\
  Response.field (responseOf done) "isPending" = Some (JBool true) /\
  sessionOf done = Sample.anonymous /\
  exists row : Storage.User,
    Storage.getUser (storeOf done) "user-2" = Some row /\
    Response.field (responseOf done) "user" = Some (userJson row true false) /\
    Storage.email row = "bob@example.com" /\
    Storage.companyId row = Some 1%Z /\
    Storage.role row = "team_member" /\
    Storage.isEmailVerified row = true.
Proof.
  exact (proj1 (register_team_member (Sample.env 0) Sample.store Sample.anonymous
                  (Sample.request "bob@example.com" "Passw0rd!"
                                  (Some "team_member") (Some "Acme Mills"))
                  "Acme Mills" eq_refl eq_refl eq_refl eq_refl ltac:(discriminate))
               (Sample.company 1 "Acme Mills" "ACME") eq_refl).
Defined.

Lemma any_missing_5 (a b c d e : bool) :
  negb a || negb b || negb c || negb d || negb e = negb (a && b && c && d && e).
Proof. destruct a, b, c, d, e; reflexivity. Qed.

Lemma any_missing_4 (a b c d : bool) :
  negb a || negb b || negb c || negb d = negb (a && b && c && d).
Proof. destruct a, b, c, d; reflexivity. Qed.

(** The contractor branch for a request that is not a join request: the
    two validations, then the creation of the company. *)
Lemma registerBranches_contractor env st sess body user :
  Requests.contractorOwnCompany body = true ->
  registerBranches env st sess body user
  = if negb (Requests.hasBusinessAddress body) then
      (st, sess, json 400 "All business information fields are required for contractor registration")
    else if negb (Requests.hasContractorAgreements body) then
      (st, sess, json 400 "You must agree to all terms and conditions to register as a contractor")
    else registerContractorCompany env st sess body user.
Proof.
  unfold Requests.contractorOwnCompany. intros Hown.
  apply andb_prop in Hown. destruct Hown as [Hown Hjoin].
  apply andb_prop in Hown. destruct Hown as [Hteam Hrole].
  apply negb_true_iff in Hteam. apply negb_true_iff in Hjoin.
  unfold registerBranches. rewrite Hteam, Hrole.
  unfold registerContractor. rewrite Hjoin.
  rewrite any_missing_5, any_missing_4. reflexivity.
Qed.

(** C10. When a registration has passed the password policy and the
    duplicate check and is then refused by its branch (a team member
    naming a company that does not exist, a contractor without the
    business address, a contractor without the agreements), the answer is
    400 and the store, which held no row for the e-mail before, holds the
    row written for it earlier in the request. *)
Theorem register_rejection_keeps_user (env : Env) (st : Storage.Store)
        (sess : Session.t) (body : RegisterBody.t) :
  passwordRegexTest (RegisterBody.password body) = true ->
  Storage.getUserByEmail st (RegisterBody.email body) = None ->
  Requests.unknownCompany st body = true \/
  Requests.missingAddress body = true \/
  Requests.missingAgreements body = true ->
  let done := register env st sess body in
  Response.status (responseOf done) = 400%nat /\
  exists row : Storage.User,
    Storage.getUserByEmail (storeOf done) (RegisterBody.email body) = Some row /\
    Storage.id row = nanoid env /\
    Storage.password row = hashPassword env (RegisterBody.password body).
Proof.
  intros Hpolicy Hfresh Hrefused done. subst done.
  destruct (register_prepared env st sess body Hpolicy Hfresh)
    as [st2 [row [-> [Hcompanies [_ [Hmail [Hrowid [_ Hrowpw]]]]]]]].
  assert (Hkept : forall message,
             Response.status (responseOf (st2, sess, json 400 message)) = 400%nat /\
             exists row0 : Storage.User,
               Storage.getUserByEmail (storeOf (st2, sess, json 400 message))
                                      (RegisterBody.email body) = Some row0 /\
               Storage.id row0 = nanoid env /\
               Storage.password row0 = hashPassword env (RegisterBody.password body)).
  { intros message. split; [reflexivity |]. exists row. auto. }
  destruct Hrefused as [Hcompany | [Haddress | Hagreements]].
  - unfold Requests.unknownCompany, Requests.teamMember in Hcompany.
    apply andb_prop in Hcompany. destruct Hcompany as [Hteam Hnone].
    apply andb_prop in Hteam. destruct Hteam as [Hteam Hname].
    unfold registerBranches. rewrite Hteam. unfold registerTeamMember.
    rewrite Hname. cbn [negb]. rewrite (getCompanyByName_same st st2 _ Hcompanies).
    destruct (Storage.getCompanyByName st (text (RegisterBody.companyName body)));
      [discriminate | apply Hkept].
  - unfold Requests.missingAddress in Haddress.
    apply andb_prop in Haddress. destruct Haddress as [Hown Hmissing].
    rewrite (registerBranches_contractor env st2 sess body (Some row) Hown), Hmissing.
    apply Hkept.
  - unfold Requests.missingAgreements in Hagreements.
    apply andb_prop in Hagreements. destruct Hagreements as [Hown Hmissing].
    apply andb_prop in Hown. destruct Hown as [Hown Haddress].
    rewrite (registerBranches_contractor env st2 sess body (Some row) Hown).
    rewrite Haddress, Hmissing. apply Hkept.
Qed.

Lemma register_rejection_keeps_user_witness :
  (Storage.getUserByEmail Sample.store "bob@example.com" = None) /\
  (let done :=
     register (Sample.env 0) Sample.store Sample.anonymous
              (Sample.request "bob@example.com" "Passw0rd!"
                              (Some "team_member") (Some "No Such Company")) in
   Response.status (responseOf done) = 400%nat /\
   exists row : Storage.User,
     Storage.getUserByEmail (storeOf done) "bob@example.com" = Some row /\
     Storage.id row = "user-2" /\ Storage.password row = "$2b$10$Passw0rd!") /\
  (let done :=
     register (Sample.env 0) Sample.store Sample.anonymous
              (Sample.contractorRequest "bob@example.com" "Passw0rd!"
                                        (Some "Bob Retrofits") None true) in
   Response.status (responseOf done) = 400%nat /\
   exists row : Storage.User,
     Storage.getUserByEmail (storeOf done) "bob@example.com" = Some row /\
     Storage.id row = "user-2" /\ Storage.password row = "$2b$10$Passw0rd!") /\
  (let done :=
     register (Sample.env 0) Sample.store Sample.anonymous
              (Sample.contractorRequest "bob@example.com" "Passw0rd!"
                                        (Some "Bob Retrofits") (Some "9 Elm St") false) in
   Response.status (responseOf done) = 400%nat /\
   exists row : Storage.User,
     Storage.getUserByEmail (storeOf done) "bob@example.com" = Some row /\
     Storage.id row = "user-2" /\ Storage.password row = "$2b$10$Passw0rd!").
Proof.
  split; [reflexivity |]. split; [| split].
  - apply (register_rejection_keeps_user (Sample.env 0) Sample.store Sample.anonymous
             (Sample.request "bob@example.com" "Passw0rd!"
                             (Some "team_member") (Some "No Such Company"))
             eq_refl eq_refl).
    left. reflexivity.
  - apply (register_rejection_keeps_user (Sample.env 0) Sample.store Sample.anonymous
             (Sample.contractorRequest "bob@example.com" "Passw0rd!"
                                       (Some "Bob Retrofits") None true)
             eq_refl eq_refl).
    right; left. reflexivity.
  - apply (register_rejection_keeps_user (Sample.env 0) Sample.store Sample.anonymous
             (Sample.contractorRequest "bob@example.com" "Passw0rd!"
                                       (Some "Bob Retrofits") (Some "9 Elm St") false)
             eq_refl eq_refl).
    right; right. reflexivity.
Defined.

(** ** The short name of a contractor company *)

Lemma substring_0_0 (s : string) : String.substring 0 0 s = EmptyString.
Proof. destruct s; reflexivity. Qed.

Lemma string_of_list_ascii_app (a b : list ascii) :
  string_of_list_ascii (a ++ b)%list
  = string_of_list_ascii a ++ string_of_list_ascii b.
Proof. induction a as [| c a IH]; cbn; [reflexivity | rewrite IH; reflexivity]. Qed.

Lemma keepUpperAlnum_app (u v : list N) :
  Js.keepUpperAlnum (u ++ v)%list = Js.keepUpperAlnum u ++ Js.keepUpperAlnum v.
Proof.
  unfold Js.keepUpperAlnum. rewrite filter_app, map_app.
  apply string_of_list_ascii_app.
Qed.

(** Upper-casing one character and removing what is not A-Z or 0-9 leaves
    what the character gives the base. *)
Lemma keepUpperAlnum_upperUnits (c : ascii) :
  Js.keepUpperAlnum (Js.upperUnits c) = ShortName.contribution c.
Proof. destruct c as [[] [] [] [] [] [] [] []]; vm_compute; reflexivity. Qed.

Lemma keepUpperAlnum_toUpperCase (s : string) :
  Js.keepUpperAlnum (Js.toUpperCase s) = ShortName.contributions s.
Proof.
  unfold Js.toUpperCase. induction s as [| c r IH]; [reflexivity |].
  cbn [list_ascii_of_string flat_map ShortName.contributions].
  rewrite keepUpperAlnum_app, keepUpperAlnum_upperUnits, IH. reflexivity.
Qed.

(** The base the handler computes is, character by character, what the
    first six characters of the name give. *)
Lemma baseShortNameOf_base (companyName : string) :
  baseShortNameOf companyName = ShortName.base companyName.
Proof. apply keepUpperAlnum_toUpperCase. Qed.

Lemma contribution_alphanumeric (c : ascii) :
  Js.isLower c || Js.isUpper c || Js.isDigit c = true ->
  exists d, ShortName.contribution c = String d EmptyString.
Proof.
  unfold ShortName.contribution. intros H.
  destruct (Js.isDigit c); [rewrite orb_true_l; eauto |].
  destruct (Js.isUpper c); [cbn [orb]; eauto |].
  destruct (Js.isLower c); [cbn [orb]; eauto | discriminate].
Qed.

Lemma contributions_of_prefix :
  forall (n : nat) (s : string),
    Js.forallChar (fun c => Js.isLower c || Js.isUpper c || Js.isDigit c)
                  (String.substring 0 n s) = true ->
    ShortName.contributions (String.substring 0 n s)
    = String.substring 0 n (ShortName.contributions s).
Proof.
  induction n as [| n IH]; intros s Hall.
  - rewrite !substring_0_0. reflexivity.
  - destruct s as [| c r]; [reflexivity |].
    cbn [String.substring Js.forallChar ShortName.contributions] in Hall |- *.
    apply andb_prop in Hall. destruct Hall as [Hc Hrest].
    destruct (contribution_alphanumeric c Hc) as [d ->].
    cbn [append String.substring]. rewrite (IH r Hrest). reflexivity.
Qed.

(** Where the first six characters of the name are letters or digits, the
    base the handler computes is the one the specification words. *)
Lemma baseShortNameOf_agrees companyName :
  ShortName.startsWithSixAlphanumeric companyName = true ->
  baseShortNameOf companyName = ShortName.firstSixAlphanumericUpper companyName.
Proof.
  unfold ShortName.startsWithSixAlphanumeric, ShortName.firstSixAlphanumericUpper.
  intros Hall. rewrite baseShortNameOf_base, keepUpperAlnum_toUpperCase.
  unfold ShortName.base, Js.substring0. apply contributions_of_prefix, Hall.
Qed.

Lemma taken_true st n :
  ShortName.taken st n = true ->
  exists company, Storage.getCompanyByShortName st n = Some company.
Proof.
  unfold ShortName.taken. destruct (Storage.getCompanyByShortName st n); [eauto | discriminate].
Qed.

Lemma taken_false st n :
  ShortName.taken st n = false -> Storage.getCompanyByShortName st n = None.
Proof.
  unfold ShortName.taken. destruct (Storage.getCompanyByShortName st n); [discriminate | reflexivity].
Qed.

Lemma candidate_next base counter :
  (1 <= counter)%nat ->
  nextShortName base (counter + 1) = ShortName.candidate base (counter + 1).
Proof.
  intros Hc. unfold ShortName.candidate, nextShortName, Js.substring0, Js.numToString.
  destruct (counter + 1 <=? 1)%nat eqn:E; [| reflexivity].
  apply Nat.leb_le in E. lia.
Qed.

(** The loop stops at the first candidate that is free. *)
Lemma shortNameLoop_finds st base k :
  (k <= 100)%nat ->
  ShortName.taken st (ShortName.candidate base k) = false ->
  forall fuel counter,
    (1 <= counter <= k)%nat -> (102 <= fuel + counter)%nat ->
    (forall j, (counter <= j < k)%nat ->
               ShortName.taken st (ShortName.candidate base j) = true) ->
    shortNameLoop st base fuel counter (ShortName.candidate base counter)
    = (k, ShortName.candidate base k).
Proof.
  intros Hk Hfree. induction fuel as [| fuel IH]; intros counter Hc Hfuel Htaken.
  - lia.
  - cbn [shortNameLoop].
    replace (counter <=? 100)%nat with true by (symmetry; apply Nat.leb_le; lia).
    destruct (Nat.eq_dec counter k) as [-> | Hne].
    + rewrite (taken_false _ _ Hfree). reflexivity.
    + destruct (taken_true st (ShortName.candidate base counter)) as [c ->];
        [apply Htaken; lia |].
      rewrite candidate_next by lia. apply IH; [lia | lia |].
      intros j Hj. apply Htaken. lia.
Qed.

(** With the hundred candidates in use the loop ends with the counter at
    101. *)
Lemma shortNameLoop_exhausts st base :
  (forall j, (1 <= j <= 100)%nat ->
             ShortName.taken st (ShortName.candidate base j) = true) ->
  forall fuel counter,
    (1 <= counter <= 101)%nat -> (102 <= fuel + counter)%nat ->
    fst (shortNameLoop st base fuel counter (ShortName.candidate base counter)) = 101%nat.
Proof.
  intros Htaken. induction fuel as [| fuel IH]; intros counter Hc Hfuel.
  - lia.
  - cbn [shortNameLoop]. destruct (counter <=? 100)%nat eqn:E.
    + apply Nat.leb_le in E.
      destruct (taken_true st (ShortName.candidate base counter)) as [c ->];
        [apply Htaken; lia |].
      rewrite candidate_next by lia. apply IH; lia.
    + apply Nat.leb_gt in E. cbn [fst]. lia.
Qed.

(** 101 tests of the loop condition are all the loop can make: whatever
    further fuel it is given, it returns the same pair. *)
Lemma shortNameLoop_fuel st base :
  forall fuel counter cur extra,
    (102 <= fuel + counter)%nat ->
    shortNameLoop st base (fuel + extra) counter cur
    = shortNameLoop st base fuel counter cur.
Proof.
  induction fuel as [| fuel IH]; intros counter cur extra Hfuel.
  - cbn [Nat.add shortNameLoop]. destruct extra as [| extra]; [reflexivity |].
    cbn [shortNameLoop].
    replace (counter <=? 100)%nat with false by (symmetry; apply Nat.leb_gt; lia).
    reflexivity.
  - cbn [Nat.add shortNameLoop]. destruct (counter <=? 100)%nat; [| reflexivity].
    destruct (Storage.getCompanyByShortName st cur); [| reflexivity].
    apply IH. lia.
Qed.

Lemma shortNameLoop_same st st2 base :
  Storage.companies st2 = Storage.companies st ->
  forall fuel counter cur,
    shortNameLoop st2 base fuel counter cur = shortNameLoop st base fuel counter cur.
Proof.
  intros Hsame. induction fuel as [| fuel IH]; intros counter cur; [reflexivity |].
  cbn [shortNameLoop]. rewrite (getCompanyByShortName_same st st2 cur Hsame).
  destruct (counter <=? 100)%nat; [| reflexivity].
  destruct (Storage.getCompanyByShortName st cur); [apply IH | reflexivity].
Qed.

Lemma find_app_fresh (f : Storage.Company -> bool) rows c :
  find f rows = None -> f c = true -> find f (rows ++ [c])%list = Some c.
Proof.
  induction rows as [| r rows IH]; cbn [app find]; intros Hnone Hc.
  - rewrite Hc. reflexivity.
  - destruct (f r); [discriminate | apply IH; assumption].
Qed.

(** C7, as amended. For a contractor registration that creates its own
    company, the base of the short name is what the first six characters
    of the company name give, character by character: a digit or a
    capital A-Z itself, a letter a-z its capital, a sharp s the two
    letters SS, any other character nothing; the base can so be shorter
    than six characters, or longer. The names looked up are the base,
    then the base cut to five characters followed by the counter 2, ...,
    9, then the base cut to four characters followed by the counter 10,
    ..., 100. The first of the hundred candidates that no company uses
    becomes the short name of the company created and the answer is 201;
    when all hundred are in use the answer is the explicit 400 and no
    company is created. The loop makes at most 101 tests of its
    condition. *)
Theorem register_contractor_short_name (env : Env) (st : Storage.Store)
        (sess : Session.t) (body : RegisterBody.t) (companyName : string) :
  passwordRegexTest (RegisterBody.password body) = true ->
  Storage.getUserByEmail st (RegisterBody.email body) = None ->
  ShortName.createsContractorCompany body = true ->
  RegisterBody.companyName body = Some companyName ->
  let base := ShortName.base companyName in
  let done := register env st sess body in
  (forall k : nat,
      (1 <= k <= 100)%nat ->
      (forall j, (1 <= j < k)%nat ->
                 ShortName.taken st (ShortName.candidate base j) = true) ->
      ShortName.taken st (ShortName.candidate base k) = false ->
      Response.status (responseOf done) = 201%nat /\
      exists company : Storage.Company,
        Storage.companies (storeOf done) = (Storage.companies st ++ [company])%list /\
        Storage.shortName company = ShortName.candidate base k /\
        Storage.name company = companyName /\
        Storage.isContractor company = true) /\
  ((forall j, (1 <= j <= 100)%nat ->
              ShortName.taken st (ShortName.candidate base j) = true) ->
   responseOf done
   = json 400 "Unable to generate unique company identifier. Please contact support." /\
   Storage.companies (storeOf done) = Storage.companies st) /\
  (forall extra : nat,
      shortNameLoop st base (101 + extra) 1 base = generateContractorShortName st base).
Proof.
  intros Hpolicy Hfresh Hcreates Hname base done. subst done.
  destruct (register_prepared env st sess body Hpolicy Hfresh)
    as [st2 [row [-> [Hcompanies [Hid [_ [Hrowid _]]]]]]].
  unfold ShortName.createsContractorCompany in Hcreates.
  apply andb_prop in Hcreates. destruct Hcreates as [Hown Hagreed].
  apply andb_prop in Hown. destruct Hown as [Hown Haddress].
  rewrite (registerBranches_contractor env st2 sess body (Some row) Hown).
  rewrite Haddress, Hagreed. cbn [negb].
  unfold registerContractorCompany. rewrite Hname. cbn [text].
  rewrite baseShortNameOf_base. fold base.
  unfold generateContractorShortName.
  rewrite (shortNameLoop_same st st2 base Hcompanies).
  split; [| split].
  - intros k Hk Hbefore Hfree.
    replace (shortNameLoop st base 101 1 base) with (k, ShortName.candidate base k)
      by (symmetry; apply (shortNameLoop_finds st base k); [lia | exact Hfree | lia | lia | exact Hbefore]).
    cbv beta iota.
    replace (100 <? k)%nat with false by (symmetry; apply Nat.ltb_ge; lia).
    unfold Storage.createCompany, withUser. cbv beta iota zeta.
    rewrite (surjective_pairing (Storage.updateUser _ _ _)).
    rewrite StorageFacts.updateUser_returns.
    match goal with
    | |- context [Storage.getUser ?s (Storage.id row)] =>
        change (Storage.getUser s (Storage.id row))
          with (Storage.getUser st2 (Storage.id row))
    end.
    rewrite Hrowid, Hid. cbn [option_map]. cbv beta iota.
    split; [reflexivity |]. eexists. split.
    + cbn [storeOf fst]. rewrite StorageFacts.updateUser_companies.
      cbn [Storage.companies]. rewrite Hcompanies. reflexivity.
    + repeat split.
  - intros Htaken.
    pose proof (shortNameLoop_exhausts st base Htaken 101 1 ltac:(lia) ltac:(lia)) as Hlast.
    change (ShortName.candidate base 1) with base in Hlast.
    destruct (shortNameLoop st base 101 1 base) as [counter name].
    cbn [fst] in Hlast. subst counter. cbv beta iota.
    split; [reflexivity | exact Hcompanies].
  - intros extra. unfold generateContractorShortName.
    apply shortNameLoop_fuel. lia.
Qed.

Lemma forallb_range (f : nat -> bool) (a n : nat) :
  forallb f (seq a n) = true ->
  forall j, (a <= j < a + n)%nat -> f j = true.
Proof.
  intros Hall j Hj. rewrite forallb_forall in Hall. apply Hall, in_seq. exact Hj.
Qed.

Lemma register_contractor_short_name_witness :
  Response.status
    (responseOf (register (Sample.env 0) Sample.store Sample.anonymous
                   (Sample.contractorRequest "bob@example.com" "Passw0rd!"
                      (Some "Bob Retrofits") (Some "9 Elm St") true))) = 201%nat /\
  responseOf (register (Sample.env 0) (ShortName.crowded "BOBRE" 100) Sample.anonymous
                (Sample.contractorRequest "bob@example.com" "Passw0rd!"
                   (Some "Bob Retrofits") (Some "9 Elm St") true))
  = json 400 "Unable to generate unique company identifier. Please contact support." /\
  exists company : Storage.Company,
    In company
       (Storage.companies
          (storeOf (register (Sample.env 0) Sample.store Sample.anonymous
                      (Sample.contractorRequest "bob@example.com" "Passw0rd!"
                         (Some ShortName.sharpName) (Some "9 Elm St") true)))) /\
    Storage.shortName company = "SSETAC".
Proof.
  split; [| split].
  - destruct (register_contractor_short_name (Sample.env 0) Sample.store Sample.anonymous
                (Sample.contractorRequest "bob@example.com" "Passw0rd!"
                   (Some "Bob Retrofits") (Some "9 Elm St") true)
                "Bob Retrofits" eq_refl eq_refl eq_refl eq_refl) as [Hfound _].
    apply (Hfound 1%nat); [lia | intros j Hj; lia | reflexivity].
  - destruct (register_contractor_short_name (Sample.env 0)
                (ShortName.crowded "BOBRE" 100) Sample.anonymous
                (Sample.contractorRequest "bob@example.com" "Passw0rd!"
                   (Some "Bob Retrofits") (Some "9 Elm St") true)
                "Bob Retrofits" eq_refl eq_refl eq_refl eq_refl) as [_ [Hfull _]].
    apply Hfull. intros j Hj.
    apply (forallb_range
             (fun j => ShortName.taken (ShortName.crowded "BOBRE" 100)
                         (ShortName.candidate "BOBRE" j)) 1 100);
      [vm_compute; reflexivity | lia].
  - destruct (register_contractor_short_name (Sample.env 0) Sample.store Sample.anonymous
                (Sample.contractorRequest "bob@example.com" "Passw0rd!"
                   (Some ShortName.sharpName) (Some "9 Elm St") true)
                ShortName.sharpName eq_refl eq_refl eq_refl eq_refl) as [Hfound _].
    destruct (Hfound 1%nat ltac:(lia) ltac:(intros j Hj; lia) eq_refl)
      as [_ [company [Hcompanies [Hshort _]]]].
    exists company. split; [| exact Hshort].
    rewrite Hcompanies. apply in_or_app. right. left. reflexivity.
Defined.

(** C7 as stated fails on the base: for the company name [A B Corp] the
    first six alphanumeric characters in upper case are ABCORP, while the
    handler keeps the letters of the first six characters, ABCO, and
    creates the company under that short name. *)
Lemma baseShortName_not_first_six_alphanumeric :
  ShortName.firstSixAlphanumericUpper "A B Corp" = "ABCORP" /\
  baseShortNameOf "A B Corp" = "ABCO" /\
  option_map Storage.shortName
    (Storage.getCompanyByName
       (storeOf (register (Sample.env 0) Sample.store Sample.anonymous
                   (Sample.contractorRequest "bob@example.com" "Passw0rd!"
                      (Some "A B Corp") (Some "9 Elm St") true)))
       "A B Corp")
  = Some "ABCO".
Proof. repeat split; vm_compute; reflexivity. Qed.

End AuthFacts.

(** ** Further properties of the permission predicates *)

Module PermissionExtras.
Import Permissions.

Lemma strictEq_true v lit : Js.strictEq v lit = true -> v = Some lit.
Proof.
  destruct v as [s |]; cbn [Js.strictEq]; [| discriminate].
  intros H. apply String.eqb_eq in H. congruence.
Qed.

Lemma strictEq_false r lit : r <> lit -> Js.strictEq (Some r) lit = false.
Proof. intros H. cbn [Js.strictEq]. apply String.eqb_neq. exact H. Qed.

(** The role of a user that [hasPermissionLevel] accepts. *)
Lemma hasPermissionLevel_role user requiredLevel :
  hasPermissionLevel user requiredLevel = true ->
  exists u, user = Some u /\
            (role u = Some "company_admin" \/ role u = Some "system_admin" \/
             role u = Some "team_member").
Proof.
  destruct user as [u |]; [| discriminate]. unfold hasPermissionLevel.
  destruct (Js.strictEq (role u) "company_admin") eqn:Ea.
  - intros _. exists u. split; [reflexivity |]. left. apply strictEq_true, Ea.
  - destruct (Js.strictEq (role u) "system_admin") eqn:Es.
    + intros _. exists u. split; [reflexivity |]. right; left. apply strictEq_true, Es.
    + cbn [orb]. destruct (Js.strictEq (role u) "team_member") eqn:Et; [| discriminate].
      intros _. exists u. split; [reflexivity |]. right; right. apply strictEq_true, Et.
Qed.

Lemma indexOfFrom_bounds arr x :
  forall i, (0 <= i)%Z ->
            Js.indexOfFrom i arr x = (-1)%Z \/ (i <= Js.indexOfFrom i arr x)%Z.
Proof.
  induction arr as [| y arr IH]; intros i Hi; cbn [Js.indexOfFrom].
  - left. reflexivity.
  - destruct (y =? x); [right; lia |].
    destruct (IH (i + 1)%Z ltac:(lia)) as [H | H]; [left; exact H | right; lia].
Qed.

Lemma indexOfFrom_absent arr x :
  Js.arrayIncludes arr x = false -> forall i, Js.indexOfFrom i arr x = (-1)%Z.
Proof.
  unfold Js.arrayIncludes.
  induction arr as [| y arr IH]; cbn [existsb Js.indexOfFrom]; intros Habsent i.
  - reflexivity.
  - apply orb_false_elim in Habsent. destruct Habsent as [Hy Hrest].
    rewrite Hy. apply IH, Hrest.
Qed.

Lemma hasPermissionLevel_down user (req req' : PermissionLevel) :
  (ordinal req' <= ordinal req)%Z ->
  hasPermissionLevel user (levelName req) = true ->
  hasPermissionLevel user (levelName req') = true.
Proof.
  intros Hle. destruct user as [u |]; [| discriminate]. unfold hasPermissionLevel.
  destruct (Js.strictEq (role u) "company_admin" || Js.strictEq (role u) "system_admin");
    [reflexivity |].
  destruct (Js.strictEq (role u) "team_member"); [| discriminate].
  rewrite !PermissionFacts.indexOf_levelName. intros H.
  apply Z.leb_le in H. apply Z.leb_le. lia.
Qed.

(** X1. The predicates fail closed: for a null user, a user without a
    role, and a user whose role is none of company_admin, system_admin,
    team_member and does not start with contractor_, every predicate
    answers false. *)
Theorem predicates_fail_closed (user : option User)
        (requiredLevel : string) (applicationPermissions : option (list string)) :
  (forall u r, user = Some u -> role u = Some r ->
               r <> "company_admin" /\ r <> "system_admin" /\ r <> "team_member" /\
               Js.startsWith r "contractor_" = false) ->
  hasPermissionLevel user requiredLevel = false /\
  canInviteUsers user = false /\
  canEditPermissions user = false /\
  canCreateEdit user = false /\
  canViewOnly user = false /\
  canContractorEdit user applicationPermissions = false /\
  canContractorView user applicationPermissions = false /\
  canManageContractorTeam user = false /\
  canEditApplicationPermissions user = false.
Proof.
  intros Hrole. destruct user as [[[r |] pl] |]; [| repeat split | repeat split].
  destruct (Hrole _ r eq_refl eq_refl) as [Ha [Hs [Ht Hc]]].
  assert (Hao : r <> "contractor_account_owner")
    by (intros ->; discriminate Hc).
  assert (Hcm : r <> "contractor_manager") by (intros ->; discriminate Hc).
  unfold canInviteUsers, canEditPermissions, canCreateEdit, canViewOnly,
    canEditApplicationPermissions, canContractorEdit, canContractorView,
    canManageContractorTeam, hasPermissionLevel, roleIs, roleStartsWithContractor.
  cbn [role permissionLevel].
  rewrite (strictEq_false _ _ Ha), (strictEq_false _ _ Hs), (strictEq_false _ _ Ht),
    (strictEq_false _ _ Hao), (strictEq_false _ _ Hcm), Hc.
  repeat split.
Qed.

Lemma predicates_fail_closed_witness :
  canCreateEdit (Some {| role := Some "auditor"; permissionLevel := Some "owner" |}) = false /\
  canContractorView (Some {| role := None; permissionLevel := Some "manager" |})
                    (Some ["view"; "edit"]) = false /\
  canInviteUsers None = false.
Proof.
  split; [| split].
  - apply (predicates_fail_closed
             (Some {| role := Some "auditor"; permissionLevel := Some "owner" |})
             "viewer" None).
    intros u r Hu Hr. injection Hu as <-. injection Hr as <-.
    repeat split; discriminate.
  - apply (predicates_fail_closed
             (Some {| role := None; permissionLevel := Some "manager" |})
             "viewer" (Some ["view"; "edit"])).
    intros u r Hu Hr. injection Hu as <-. discriminate Hr.
  - apply (predicates_fail_closed None "viewer" None).
    intros u r Hu. discriminate Hu.
Defined.

(** X2. [hasPermissionLevel] is downward closed in the required level:
    whoever passes a level of viewer < editor < manager < owner passes
    every lower one, whatever the role and the stored level. *)
Theorem hasPermissionLevel_downward (user : option User) (req req' : PermissionLevel) :
  (ordinal req' <= ordinal req)%Z ->
  hasPermissionLevel user (levelName req) = true ->
  hasPermissionLevel user (levelName req') = true.
Proof. apply hasPermissionLevel_down. Qed.

Lemma hasPermissionLevel_downward_witness :
  hasPermissionLevel (Some (userOf "team_member" (Some Manager))) "editor" = true.
Proof.
  apply (hasPermissionLevel_downward (Some (userOf "team_member" (Some Manager)))
                                     Manager Editor); [cbn; lia | reflexivity].
Defined.

(** X3. Strings outside the four levels. A required level that is not
    one of viewer, editor, manager, owner is passed by every team_member,
    whatever the stored level; and a team_member whose stored level is a
    non-empty string outside the four passes none of the four levels. *)
Theorem hasPermissionLevel_outside_levels (u : User) :
  role u = Some "team_member" ->
  (forall requiredLevel,
      Js.arrayIncludes levels requiredLevel = false ->
      hasPermissionLevel (Some u) requiredLevel = true) /\
  (forall stored (req : PermissionLevel),
      permissionLevel u = Some stored -> stored <> EmptyString ->
      Js.arrayIncludes levels stored = false ->
      hasPermissionLevel (Some u) (levelName req) = false).
Proof.
  intros Hrole. unfold hasPermissionLevel. rewrite Hrole.
  cbn [Js.strictEq String.eqb Ascii.eqb Bool.eqb orb andb]. split.
  - intros requiredLevel Habsent. unfold Js.indexOf.
    rewrite (indexOfFrom_absent _ _ Habsent). apply Z.leb_le.
    destruct (indexOfFrom_bounds levels (Js.orDefault (permissionLevel u) "viewer")
                                 0%Z ltac:(lia)) as [H | H]; lia.
  - intros stored req -> Hstored Habsent. cbn [Js.orDefault].
    apply String.eqb_neq in Hstored. rewrite Hstored.
    rewrite PermissionFacts.indexOf_levelName. unfold Js.indexOf.
    rewrite (indexOfFrom_absent _ _ Habsent). apply Z.leb_gt. destruct req; cbn; lia.
Qed.

Lemma hasPermissionLevel_outside_levels_witness :
  hasPermissionLevel (Some (userOf "team_member" None)) "admin" = true /\
  hasPermissionLevel (Some {| role := Some "team_member"; permissionLevel := Some "Owner" |})
                     "viewer" = false.
Proof.
  split.
  - apply (proj1 (hasPermissionLevel_outside_levels (userOf "team_member" None) eq_refl)).
    reflexivity.
  - apply (proj2 (hasPermissionLevel_outside_levels
                    {| role := Some "team_member"; permissionLevel := Some "Owner" |}
                    eq_refl) "Owner" Viewer); [reflexivity | discriminate | reflexivity].
Defined.

(** X4. Whoever may invite users may create and edit, and
    [canEditPermissions] decides exactly as [canInviteUsers]. *)
Theorem canInviteUsers_canCreateEdit (user : option User) :
  canEditPermissions user = canInviteUsers user /\
  (canInviteUsers user = true -> canCreateEdit user = true).
Proof.
  split; [reflexivity |]. unfold canInviteUsers, canCreateEdit. intros H.
  apply orb_prop in H. destruct H as [H | H].
  - rewrite H. reflexivity.
  - change "editor" with (levelName Editor).
    rewrite (hasPermissionLevel_down user Manager Editor ltac:(cbn; lia) H).
    apply orb_true_r.
Qed.

Lemma canInviteUsers_canCreateEdit_witness :
  canCreateEdit (Some (userOf "team_member" (Some Owner))) = true.
Proof.
  apply (proj2 (canInviteUsers_canCreateEdit (Some (userOf "team_member" (Some Owner))))).
  reflexivity.
Defined.

(** X5. The contractor predicates are nested: whoever may manage the
    contractor team may edit every application, and whoever may edit an
    application may view it. *)
Theorem contractor_predicates_nested (user : option User)
        (applicationPermissions : option (list string)) :
  (canManageContractorTeam user = true ->
   canContractorEdit user applicationPermissions = true) /\
  (canContractorEdit user applicationPermissions = true ->
   canContractorView user applicationPermissions = true).
Proof.
  unfold canManageContractorTeam, canContractorEdit, canContractorView.
  destruct (negb (roleStartsWithContractor user)); [split; discriminate |].
  destruct (roleIs user "contractor_individual" ||
            roleIs user "contractor_account_owner" ||
            roleIs user "contractor_manager"); [split; reflexivity |].
  destruct (roleIs user "contractor_team_member" &&
            match user with
            | Some u => Js.strictEq (permissionLevel u) "manager"
            | None => false
            end); [split; reflexivity |].
  split; [discriminate |].
  destruct (roleIs user "contractor_team_member"); [| discriminate].
  cbv zeta. intros ->. apply orb_true_r.
Qed.

Lemma contractor_predicates_nested_witness :
  canContractorEdit (Some (userOf "contractor_team_member" (Some Manager))) None = true /\
  canContractorView (Some (userOf "contractor_team_member" (Some Viewer)))
                    (Some ["edit"]) = true.
Proof.
  split.
  - apply (proj1 (contractor_predicates_nested
                    (Some (userOf "contractor_team_member" (Some Manager))) None)).
    reflexivity.
  - apply (proj2 (contractor_predicates_nested
                    (Some (userOf "contractor_team_member" (Some Viewer)))
                    (Some ["edit"]))).
    reflexivity.
Defined.

(** X6. The two families of predicates exclude each other: a user who
    passes [hasPermissionLevel] at any level is refused by the three
    contractor predicates, whatever the application's permission list. *)
Theorem company_and_contractor_exclusive (user : option User) (requiredLevel : string)
        (applicationPermissions : option (list string)) :
  hasPermissionLevel user requiredLevel = true ->
  canContractorEdit user applicationPermissions = false /\
  canContractorView user applicationPermissions = false /\
  canManageContractorTeam user = false.
Proof.
  intros H. destruct (hasPermissionLevel_role _ _ H) as [[r pl] [-> Hrole]].
  cbn [role] in Hrole.
  destruct Hrole as [-> | [-> | ->]]; repeat split.
Qed.

Lemma company_and_contractor_exclusive_witness :
  canContractorView (Some (userOf "team_member" (Some Owner))) (Some ["view"; "edit"])
  = false.
Proof.
  apply (company_and_contractor_exclusive
           (Some (userOf "team_member" (Some Owner))) "viewer" (Some ["view"; "edit"])).
  reflexivity.
Defined.

End PermissionExtras.

(** ** The role table *)

Module RoleTableFacts.
Import RolePermissions.

Lemma arrayIncludes_In arr x : Js.arrayIncludes arr x = true -> In x arr.
Proof.
  unfold Js.arrayIncludes. intros H. apply existsb_exists in H.
  destruct H as [y [Hin Hy]]. apply String.eqb_eq in Hy. subst y. exact Hin.
Qed.

Lemma Ok_inj (a b : bool) : Ok a = Ok b -> a = b.
Proof. congruence. Qed.

Ltac each_member H :=
  cbn in H; repeat (destruct H as [<- | H]; [try reflexivity |]); try contradiction.

(** The entry of a role that grants some permission. *)
Lemma hasPermission_granted userRole permission :
  hasPermission userRole permission = Ok true ->
  exists rolePermissions,
    In (userRole, rolePermissions) ROLE_PERMISSIONS /\ In permission rolePermissions.
Proof.
  unfold hasPermission, entryOf.
  destruct (find (fun kv => fst kv =? userRole) ROLE_PERMISSIONS) as [[k ps] |] eqn:Hfind.
  - intros H. apply Ok_inj, arrayIncludes_In in H.
    apply find_some in Hfind. destruct Hfind as [Hin Hk].
    cbn [fst] in Hk. apply String.eqb_eq in Hk. subst k. exists ps. split; assumption.
  - destruct (Js.arrayIncludes INHERITED userRole); discriminate.
Qed.

(** X7. system_admin holds every permission of [PERMISSIONS], and every
    permission that any role is granted is one system_admin holds;
    company_admin holds all of them but review_applications and
    system_admin. *)
Theorem system_admin_holds_all (permission : string) :
  (In permission PERMISSION_VALUES ->
   hasPermission "system_admin" permission = Ok true /\
   hasPermission "company_admin" permission
   = Ok (negb ((permission =? REVIEW_APPLICATIONS) || (permission =? SYSTEM_ADMIN)))) /\
  (forall userRole,
      hasPermission userRole permission = Ok true ->
      hasPermission "system_admin" permission = Ok true).
Proof.
  split.
  - intros H. each_member H; split; reflexivity.
  - intros userRole H. destruct (hasPermission_granted _ _ H) as [ps [Hrole Hp]].
    cbn in Hrole.
    repeat (destruct Hrole as [[= <- <-] | Hrole]; [each_member Hp |]).
    contradiction.
Qed.

Lemma system_admin_holds_all_witness :
  hasPermission "system_admin" REVIEW_APPLICATIONS = Ok true /\
  hasPermission "company_admin" REVIEW_APPLICATIONS = Ok false /\
  hasPermission "system_admin" UPLOAD_DOCUMENTS = Ok true.
Proof.
  destruct (system_admin_holds_all REVIEW_APPLICATIONS) as [Hall _].
  destruct (Hall ltac:(cbn; tauto)) as [Hsys Hadmin].
  split; [exact Hsys | split; [exact Hadmin |]].
  apply (proj2 (system_admin_holds_all UPLOAD_DOCUMENTS) "contractor_individual").
  reflexivity.
Defined.

(** X8. The role table is layered: what a team_member holds, a
    company_admin holds; what a contractor_team_member or a
    contractor_individual holds, a contractor_manager holds; and
    contractor_manager and contractor_account_owner hold the same
    permissions. *)
Theorem role_table_layers (permission : string) :
  (hasPermission "team_member" permission = Ok true ->
   hasPermission "company_admin" permission = Ok true) /\
  (hasPermission "contractor_team_member" permission = Ok true ->
   hasPermission "contractor_manager" permission = Ok true) /\
  (hasPermission "contractor_individual" permission = Ok true ->
   hasPermission "contractor_manager" permission = Ok true) /\
  hasPermission "contractor_manager" permission
  = hasPermission "contractor_account_owner" permission.
Proof.
  split; [| split; [| split]]; [| | | reflexivity];
    intros H; unfold hasPermission in H;
    match type of H with
    | context [entryOf ?r] => set (e := entryOf r) in H; vm_compute in e; subst e
    end;
    cbv beta iota in H; apply Ok_inj, arrayIncludes_In in H; each_member H.
Qed.

Lemma role_table_layers_witness :
  hasPermission "company_admin" VIEW_CONTRACTORS = Ok true /\
  hasPermission "contractor_manager" UPLOAD_DOCUMENTS = Ok true.
Proof.
  split.
  - apply (proj1 (role_table_layers VIEW_CONTRACTORS)). reflexivity.
  - apply (proj1 (proj2 (proj2 (role_table_layers UPLOAD_DOCUMENTS)))). reflexivity.
Defined.

(** X9. A role string that is neither one of the seven roles nor the name
    of an inherited property holds no permission: [hasPermission] and
    [hasAnyPermission] answer false, and [hasAllPermissions] answers true
    only for the empty list. *)
Theorem unknown_role_has_nothing (userRole : string) :
  ~ In userRole ROLES -> ~ In userRole INHERITED ->
  (forall permission, hasPermission userRole permission = Ok false) /\
  (forall permissions, hasAnyPermission userRole permissions = Ok false) /\
  (forall permissions,
      hasAllPermissions userRole permissions
      = Ok match permissions with [] => true | _ :: _ => false end).
Proof.
  intros Hrole Hinherited.
  assert (Hnone : forall permission, hasPermission userRole permission = Ok false).
  { intros permission. unfold hasPermission, entryOf.
    destruct (find (fun kv => fst kv =? userRole) ROLE_PERMISSIONS) as [[k ps] |] eqn:Hfind.
    - exfalso. apply find_some in Hfind. destruct Hfind as [Hin Hk].
      cbn [fst] in Hk. apply String.eqb_eq in Hk. subst k. apply Hrole.
      cbn in Hin. cbn.
      repeat (destruct Hin as [Hin | Hin]; [injection Hin as <- _; tauto |]).
      contradiction.
    - destruct (Js.arrayIncludes INHERITED userRole) eqn:Hin; [| reflexivity].
      exfalso. apply Hinherited, arrayIncludes_In, Hin. }
  split; [exact Hnone | split].
  - unfold hasAnyPermission. induction permissions as [| p ps IH]; cbn [some].
    + reflexivity.
    + rewrite Hnone. exact IH.
  - unfold hasAllPermissions. intros [| p ps]; cbn [every]; [reflexivity |].
    rewrite Hnone. reflexivity.
Qed.

Lemma unknown_role_has_nothing_witness :
  hasPermission EmptyString MANAGE_TEAM_MEMBERS = Ok false /\
  hasAllPermissions "guest" [] = Ok true.
Proof.
  split.
  - apply (unknown_role_has_nothing EmptyString); cbn; intuition discriminate.
  - apply (proj2 (proj2 (unknown_role_has_nothing "guest" ltac:(cbn; intuition discriminate)
                           ltac:(cbn; intuition discriminate))) []).
Defined.

(** X10. [hasAllPermissions] on a non-empty list implies
    [hasAnyPermission]; on the empty list the first answers true and the
    second false, for every role. A role string that names an inherited
    property makes [hasPermission] throw rather than answer. *)
Theorem any_and_all_permissions (userRole : string) :
  hasAnyPermission userRole [] = Ok false /\
  hasAllPermissions userRole [] = Ok true /\
  (forall permissions,
      permissions <> [] ->
      hasAllPermissions userRole permissions = Ok true ->
      hasAnyPermission userRole permissions = Ok true) /\
  (In userRole INHERITED ->
   forall permission,
     hasPermission userRole permission
     = Throw "rolePermissions.includes is not a function").
Proof.
  split; [reflexivity | split; [reflexivity | split]].
  - intros [| p ps] Hne; [contradiction |].
    unfold hasAllPermissions, hasAnyPermission. cbn [every some].
    destruct (hasPermission userRole p) as [[|] |]; [reflexivity | discriminate | discriminate].
  - intros Hin permission. each_member Hin.
Qed.

Lemma any_and_all_permissions_witness :
  hasAnyPermission "team_member" [VIEW_COMPANY; VIEW_DOCUMENTS] = Ok true /\
  hasPermission "constructor" VIEW_COMPANY
  = Throw "rolePermissions.includes is not a function".
Proof.
  destruct (any_and_all_permissions "team_member") as [_ [_ [Hany _]]].
  split.
  - apply Hany; [discriminate | reflexivity].
  - apply (any_and_all_permissions "constructor"). cbn. tauto.
Defined.

End RoleTableFacts.

(** ** Further properties of the handlers *)

Module AuthExtras.
Import Auth.

Lemma getUser_after_update st i user fields :
  Storage.getUser st i = Some user ->
  Storage.getUser (fst (Storage.updateUser st i fields)) i
  = Some (Storage.patch user fields).
Proof.
  intros Hget. rewrite StorageFacts.getUser_updateUser, Hget. cbn [option_map].
  unfold Storage.updated.
  rewrite (StorageFacts.getUser_found_id _ _ _ Hget), String.eqb_refl. reflexivity.
Qed.

Lemma getUser_update_other st i fields j :
  j <> i ->
  Storage.getUser (fst (Storage.updateUser st i fields)) j = Storage.getUser st j.
Proof.
  intros Hne. rewrite StorageFacts.getUser_updateUser.
  destruct (Storage.getUser st j) as [u |] eqn:Hget; [| reflexivity].
  cbn [option_map]. unfold Storage.updated.
  rewrite (StorageFacts.getUser_found_id _ _ _ Hget).
  apply String.eqb_neq in Hne. rewrite Hne. reflexivity.
Qed.

(** X11. POST /request-reset does not reveal whether an account exists:
    for every non-empty e-mail the answer is the same 200 message and the
    session is untouched. Without an account the store is unchanged; with
    one, the only change is that its row now carries the fresh token and
    an expiry one hour ahead, every other row being as before. *)
Theorem requestReset_uniform (env : Env) (st : Storage.Store) (sess : Session.t)
        (email : string) :
  email <> EmptyString ->
  let done := requestReset env st sess (Some email) in
  responseOf done = json 200 "If an account exists, reset instructions have been sent" /\
  sessionOf done = sess /\
  (Storage.getUserByEmail st email = None -> storeOf done = st) /\
  (forall user,
      Storage.getUserByEmail st email = Some user ->
      Storage.getUserByEmail (storeOf done) email
      = Some (Storage.patch user
                [Storage.SetResetToken (Some (nanoid32 env));
                 Storage.SetResetExpiry (Some (now env + 60 * 60 * 1000)%Z)]) /\
      Storage.companies (storeOf done) = Storage.companies st /\
      forall other, other <> Storage.id user ->
                    Storage.getUser (storeOf done) other = Storage.getUser st other).
Proof.
  intros Hemail done. subst done. unfold requestReset.
  rewrite (AuthFacts.truthy_Some _ Hemail). cbn [negb text].
  destruct (Storage.getUserByEmail st email) as [user |] eqn:Hget.
  - rewrite (surjective_pairing (Storage.updateUser _ _ _)).
    cbn [responseOf sessionOf storeOf fst snd].
    split; [reflexivity |]. split; [reflexivity |]. split; [discriminate |].
    intros user' Huser. injection Huser as <-. split; [| split].
    + apply AuthFacts.getUserByEmail_after_update, Hget.
    + reflexivity.
    + intros other Hother. apply getUser_update_other, Hother.
  - split; [reflexivity |]. split; [reflexivity |]. split; [reflexivity |].
    intros user Huser. discriminate Huser.
Qed.

Lemma requestReset_uniform_witness :
  responseOf (requestReset (Sample.env 0) Sample.store Sample.anonymous
                           (Some "alice@example.com"))
  = responseOf (requestReset (Sample.env 0) Sample.store Sample.anonymous
                             (Some "nobody@example.com")).
Proof.
  rewrite (proj1 (requestReset_uniform (Sample.env 0) Sample.store Sample.anonymous
                    "alice@example.com" ltac:(discriminate))).
  rewrite (proj1 (requestReset_uniform (Sample.env 0) Sample.store Sample.anonymous
                    "nobody@example.com" ltac:(discriminate))).
  reflexivity.
Defined.

(** X12. A registration whose password does not meet the policy, or whose
    e-mail already belongs to an account, is answered 400 and changes
    neither the store nor the session: no user record is created. *)
Theorem register_refused_untouched (env : Env) (st : Storage.Store)
        (sess : Session.t) (body : RegisterBody.t) :
  (passwordRegexTest (RegisterBody.password body) = false ->
   register env st sess body = (st, sess, json 400 PASSWORD_MESSAGE)) /\
  (passwordRegexTest (RegisterBody.password body) = true ->
   Storage.getUserByEmail st (RegisterBody.email body) <> None ->
   register env st sess body
   = (st, sess, json 400 "User with this email already exists")).
Proof.
  unfold register. split.
  - intros ->. reflexivity.
  - intros -> Htaken. cbn [negb].
    destruct (Storage.getUserByEmail st (RegisterBody.email body));
      [reflexivity | contradiction].
Qed.

Lemma register_refused_untouched_witness :
  register (Sample.env 0) Sample.store Sample.anonymous
           (Sample.request "bob@example.com" "alllowercase1" None None)
  = (Sample.store, Sample.anonymous, json 400 PASSWORD_MESSAGE) /\
  register (Sample.env 0) Sample.store Sample.anonymous
           (Sample.request "alice@example.com" "Passw0rd!" None None)
  = (Sample.store, Sample.anonymous, json 400 "User with this email already exists").
Proof.
  split.
  - apply (proj1 (register_refused_untouched (Sample.env 0) Sample.store Sample.anonymous
                    (Sample.request "bob@example.com" "alllowercase1" None None))).
    reflexivity.
  - apply (proj2 (register_refused_untouched (Sample.env 0) Sample.store Sample.anonymous
                    (Sample.request "alice@example.com" "Passw0rd!" None None)));
      [reflexivity | discriminate].
Defined.

Lemma verifyCode_accepted (env envAgain : Env) (st : Storage.Store)
        (sess : Session.t) (email code : string) (user : Storage.User) :
  email <> EmptyString -> code <> EmptyString ->
  Storage.getUserByEmail st email = Some user ->
  Storage.isEmailVerified user = false ->
  Storage.emailVerificationToken user = Some code ->
  (forall expiry, Storage.verificationTokenExpiry user = Some expiry ->
                  (now env <= expiry)%Z) ->
  let done := verifyCode env st sess (Some email) (Some code) in
  Response.status (responseOf done) = 200%nat /\
  sessionOf done = Session.setUserId sess (Storage.id user) /\
  (exists row,
      Storage.getUserByEmail (storeOf done) email = Some row /\
      Response.field (responseOf done) "user"
      = Some (JRow (Storage.getUser (storeOf done) (Storage.id user))) /\
      Storage.isEmailVerified row = true /\
      Storage.emailVerificationToken row = None /\
      Storage.verificationTokenExpiry row = None /\
      Storage.password row = Storage.password user) /\
  verifyCode envAgain (storeOf done) (sessionOf done) (Some email) (Some code)
  = (storeOf done, sessionOf done, json 400 "Email is already verified").
Proof.
  intros Hemail Hcode Hget Hunverified Htoken Hfresh done.
  assert (Hdone : done =
                  (fst (Storage.updateUser st (Storage.id user)
                          [Storage.SetIsEmailVerified true;
                           Storage.SetEmailVerifiedAt (Some (now env));
                           Storage.SetEmailVerificationToken None;
                           Storage.SetVerificationTokenExpiry None]),
                   Session.setUserId sess (Storage.id user),
                   snd done)
                  /\ Response.status (snd done) = 200%nat
                  /\ Response.field (snd done) "user"
                     = Some (JRow (Storage.getUser
                                     (fst (Storage.updateUser st (Storage.id user)
                                             [Storage.SetIsEmailVerified true;
                                              Storage.SetEmailVerifiedAt (Some (now env));
                                              Storage.SetEmailVerificationToken None;
                                              Storage.SetVerificationTokenExpiry None]))
                                     (Storage.id user)))).
  { subst done. unfold verifyCode.
    rewrite (AuthFacts.truthy_Some _ Hemail), (AuthFacts.truthy_Some _ Hcode).
    cbn [negb orb text]. rewrite Hget, Hunverified, Htoken. cbn [optStrEq].
    rewrite String.eqb_refl. cbn [negb].
    replace (match Storage.verificationTokenExpiry user with
             | Some expiry => (expiry <? now env)%Z
             | None => false
             end) with false.
    - rewrite (surjective_pairing (Storage.updateUser _ _ _)).
      cbn [fst snd]. repeat split.
    - destruct (Storage.verificationTokenExpiry user) as [expiry |]; [| reflexivity].
      symmetry. apply Z.ltb_ge. apply Hfresh. reflexivity. }
  destruct Hdone as [Hdone [Hstatus Huserfield]].
  pose proof (AuthFacts.getUserByEmail_after_update st email user
                [Storage.SetIsEmailVerified true;
                 Storage.SetEmailVerifiedAt (Some (now env));
                 Storage.SetEmailVerificationToken None;
                 Storage.SetVerificationTokenExpiry None] Hget) as Hrow.
  rewrite Hdone. cbn [responseOf sessionOf storeOf fst snd].
  split; [exact Hstatus |]. split; [reflexivity |]. split.
  - eexists. split; [exact Hrow |]. split; [exact Huserfield |].
    destruct user; repeat split.
  - unfold verifyCode.
    rewrite (AuthFacts.truthy_Some _ Hemail), (AuthFacts.truthy_Some _ Hcode).
    cbn [negb orb text]. rewrite Hrow.
    replace (Storage.isEmailVerified _) with true by (destruct user; reflexivity).
    reflexivity.
Qed.

(** X13. A verification code is accepted once. For an unverified account,
    the stored code submitted before its expiry is answered 200: the
    session is logged in as that user, the row becomes verified and loses
    the code and the expiry, and the reply carries the stored row. The
    same code submitted again is refused as already verified. *)
Theorem verifyCode_accepts_once (env envAgain : Env) (st : Storage.Store)
        (sess : Session.t) (email code : string) (user : Storage.User) :
  email <> EmptyString -> code <> EmptyString ->
  Storage.getUserByEmail st email = Some user ->
  Storage.isEmailVerified user = false ->
  Storage.emailVerificationToken user = Some code ->
  (forall expiry, Storage.verificationTokenExpiry user = Some expiry ->
                  (now env <= expiry)%Z) ->
  let done := verifyCode env st sess (Some email) (Some code) in
  Response.status (responseOf done) = 200%nat /\
  sessionOf done = Session.setUserId sess (Storage.id user) /\
  (exists row,
      Storage.getUserByEmail (storeOf done) email = Some row /\
      Response.field (responseOf done) "user"
      = Some (JRow (Storage.getUser (storeOf done) (Storage.id user))) /\
      Storage.isEmailVerified row = true /\
      Storage.emailVerificationToken row = None /\
      Storage.verificationTokenExpiry row = None /\
      Storage.password row = Storage.password user) /\
  verifyCode envAgain (storeOf done) (sessionOf done) (Some email) (Some code)
  = (storeOf done, sessionOf done, json 400 "Email is already verified").
Proof. apply verifyCode_accepted. Qed.

Lemma verifyCode_accepts_once_witness :
  let done :=
    verifyCode (Sample.env 1000) Scenario.registered Sample.anonymous
               (Some "bob@example.com") (Some "482913") in
  Response.status (responseOf done) = 200%nat /\
  sessionOf done = Session.setUserId Sample.anonymous "user-2" /\
  verifyCode (Sample.env 2000) (storeOf done) (sessionOf done)
             (Some "bob@example.com") (Some "482913")
  = (storeOf done, sessionOf done, json 400 "Email is already verified").
Proof.
  destruct (verifyCode_accepts_once (Sample.env 1000) (Sample.env 2000)
              Scenario.registered Sample.anonymous "bob@example.com" "482913"
              Scenario.bob ltac:(discriminate) ltac:(discriminate)
              eq_refl eq_refl eq_refl)
    as [Hstatus [Hsession [_ Hagain]]].
  - intros expiry Hexpiry. injection Hexpiry as <-. cbn. lia.
  - cbv zeta. split; [exact Hstatus | split; [exact Hsession | exact Hagain]].
Defined.

(** The handler once the row is written: the store holds the new row and
    the branches start from it, marked verified when the session says the
    e-mail was verified in the popup. *)
Lemma register_upserted env st sess body :
  passwordRegexTest (RegisterBody.password body) = true ->
  Storage.getUserByEmail st (RegisterBody.email body) = None ->
  let row := userDataOf env body in
  let st1 := Storage.withUsers st (Storage.replaceOrAppend row (Storage.users st)) in
  Storage.getUser st1 (nanoid env) = Some row /\
  Storage.getUserByEmail st1 (RegisterBody.email body) = Some row /\
  (Js.strictEq (Session.emailVerified sess) (RegisterBody.email body) = false ->
   register env st sess body = registerBranches env st1 sess body (Some row)) /\
  (Js.strictEq (Session.emailVerified sess) (RegisterBody.email body) = true ->
   register env st sess body
   = registerBranches env
       (fst (Storage.updateUser st1 (nanoid env)
               [Storage.SetIsEmailVerified true;
                Storage.SetEmailVerifiedAt (Some (now env))]))
       sess body
       (Some (Storage.patch row [Storage.SetIsEmailVerified true;
                                 Storage.SetEmailVerifiedAt (Some (now env))]))).
Proof.
  intros Hpolicy Hfresh row st1.
  assert (Hid : Storage.getUser st1 (nanoid env) = Some row)
    by apply (AuthFacts.getUser_withUsers_replaceOrAppend st row).
  split; [exact Hid |]. split.
  - apply (StorageFacts.getUserByEmail_replaceOrAppend row). exact Hfresh.
  - unfold register. rewrite Hpolicy, Hfresh. cbn [negb].
    rewrite StorageFacts.upsertUser_fresh by exact Hfresh.
    fold row. fold st1. unfold applySessionVerification. split; intros ->.
    + reflexivity.
    + rewrite (surjective_pairing (Storage.updateUser _ _ _)).
      rewrite StorageFacts.updateUser_returns.
      change (Storage.id row) with (nanoid env). rewrite Hid. reflexivity.
Qed.

Lemma plain_branch env st sess body row :
  Branches.plain body = true ->
  registerBranches env st sess body (Some row)
  = if negb (sendEmailVerificationEmail env (RegisterBody.email body)
               (RegisterBody.firstName body) (randomCode env))
    then (st, sess, json 500 "Failed to send verification email. Please try again.")
    else (st, sess,
          {| Response.status := 201;
             Response.body :=
               [("message", JStr "Registration successful! Please check your email for the verification code.");
                ("requiresEmailVerification", JBool true);
                ("email", JStr (RegisterBody.email body));
                ("companyId", optNum (Storage.companyId row))] |}).
Proof.
  unfold Branches.plain, Branches.contractorRole. intros H.
  apply andb_prop in H. destruct H as [H Howner].
  apply andb_prop in H. destruct H as [Hteam Hrole].
  apply negb_true_iff in Hteam. apply negb_true_iff in Hrole.
  apply negb_true_iff in Howner.
  unfold registerBranches. rewrite Hteam, Hrole, Howner.
  unfold registerOwnerOrDefault. cbn [andb].
  destruct (sendEmailVerificationEmail env _ _ _); reflexivity.
Qed.

(** X14. A plain registration (no team-member flag, no contractor role,
    no company fields) that passes the policy and the duplicate check
    creates no session and answers 201 with requiresEmailVerification,
    or 500 when the verification e-mail cannot be sent; in both cases the
    account is stored, and the code generated for it, submitted within
    ten minutes of the registration, logs the new user in. *)
Theorem register_then_verify (env envLater : Env) (st : Storage.Store)
        (sess sessLater : Session.t) (body : RegisterBody.t) :
  passwordRegexTest (RegisterBody.password body) = true ->
  Storage.getUserByEmail st (RegisterBody.email body) = None ->
  Branches.plain body = true ->
  Js.strictEq (Session.emailVerified sess) (RegisterBody.email body) = false ->
  RegisterBody.email body <> EmptyString -> randomCode env <> EmptyString ->
  (now envLater <= now env + 10 * 60 * 1000)%Z ->
  let done := register env st sess body in
  let sent := sendEmailVerificationEmail env (RegisterBody.email body)
                (RegisterBody.firstName body) (randomCode env) in
  sessionOf done = sess /\
  Response.status (responseOf done) = (if sent then 201 else 500)%nat /\
  (sent = true ->
   Response.field (responseOf done) "requiresEmailVerification" = Some (JBool true)) /\
  let verified :=
    verifyCode envLater (storeOf done) sessLater
               (Some (RegisterBody.email body)) (Some (randomCode env)) in
  Response.status (responseOf verified) = 200%nat /\
  sessionOf verified = Session.setUserId sessLater (nanoid env).
Proof.
  intros Hpolicy Hfresh Hplain Hsession Hemail Hcode Hlater done sent.
  destruct (register_upserted env st sess body Hpolicy Hfresh) as [_ [Hmail [Hreg _]]].
  subst done. rewrite (Hreg Hsession), (plain_branch _ _ _ _ _ Hplain). fold sent.
  set (st1 := Storage.withUsers st _) in *.
  assert (Hstore : storeOf (if negb sent
                            then (st1, sess, json 500 "Failed to send verification email. Please try again.")
                            else (st1, sess,
                                  {| Response.status := 201;
                                     Response.body :=
                                       [("message", JStr "Registration successful! Please check your email for the verification code.");
                                        ("requiresEmailVerification", JBool true);
                                        ("email", JStr (RegisterBody.email body));
                                        ("companyId", optNum (Storage.companyId (userDataOf env body)))] |}))
                   = st1) by (destruct sent; reflexivity).
  split; [destruct sent; reflexivity |]. split; [destruct sent; reflexivity |].
  split; [intros ->; reflexivity |].
  rewrite Hstore.
  destruct (verifyCode_accepted envLater envLater st1 sessLater
              (RegisterBody.email body) (randomCode env) (userDataOf env body)
              Hemail Hcode Hmail eq_refl eq_refl) as [Hstatus [Hsess _]].
  - intros expiry Hexpiry. injection Hexpiry as <-. exact Hlater.
  - split; [exact Hstatus |]. exact Hsess.
Qed.

Lemma register_then_verify_witness :
  let done := register (Sample.env 0) Sample.store Sample.anonymous Scenario.bobRequest in
  sessionOf done = Sample.anonymous /\
  Response.status (responseOf done) = 201%nat /\
  sessionOf (verifyCode (Sample.env 600000) (storeOf done) Sample.anonymous
                        (Some "bob@example.com") (Some "482913"))
  = Session.setUserId Sample.anonymous "user-2".
Proof.
  destruct (register_then_verify (Sample.env 0) (Sample.env 600000) Sample.store
              Sample.anonymous Sample.anonymous Scenario.bobRequest
              eq_refl eq_refl eq_refl eq_refl ltac:(discriminate) ltac:(discriminate)
              ltac:(cbn; lia))
    as [Hsess [Hstatus [_ [_ Hlogin]]]].
  cbv zeta. split; [exact Hsess | split; [exact Hstatus | exact Hlogin]].
Defined.

(** X15. POST /resend-verification replaces the code of an unverified
    account: whether or not the e-mail could be sent (200 or 500), the row
    carries the new code with an expiry ten minutes ahead, any other code
    is now refused as invalid, and the new code is accepted within its ten
    minutes. *)
Theorem resendVerification_replaces_code (env envLater : Env) (st : Storage.Store)
        (sess sessLater : Session.t) (email : string) (user : Storage.User) :
  email <> EmptyString ->
  Storage.getUserByEmail st email = Some user ->
  Storage.isEmailVerified user = false ->
  let done := Endpoints.resendVerification env st sess (Some email) in
  let sent := sendEmailVerificationEmail env email
                (Js.orDefault (Some (Storage.firstName user)) "User") (randomCode env) in
  sessionOf done = sess /\
  Response.status (responseOf done) = (if sent then 200 else 500)%nat /\
  Storage.getUserByEmail (storeOf done) email
  = Some (Storage.patch user
            [Storage.SetEmailVerificationToken (Some (randomCode env));
             Storage.SetVerificationTokenExpiry (Some (now env + 10 * 60 * 1000)%Z)]) /\
  (forall code,
      code <> EmptyString -> code <> randomCode env ->
      verifyCode envLater (storeOf done) sessLater (Some email) (Some code)
      = (storeOf done, sessLater, json 400 "Invalid verification code")) /\
  (randomCode env <> EmptyString ->
   (now envLater <= now env + 10 * 60 * 1000)%Z ->
   Response.status
     (responseOf (verifyCode envLater (storeOf done) sessLater
                             (Some email) (Some (randomCode env)))) = 200%nat).
Proof.
  intros Hemail Hget Hunverified done sent.
  pose proof (AuthFacts.getUserByEmail_after_update st email user
                [Storage.SetEmailVerificationToken (Some (randomCode env));
                 Storage.SetVerificationTokenExpiry (Some (now env + 10 * 60 * 1000)%Z)]
                Hget) as Hrow.
  set (st1 := fst (Storage.updateUser st (Storage.id user)
                     [Storage.SetEmailVerificationToken (Some (randomCode env));
                      Storage.SetVerificationTokenExpiry
                        (Some (now env + 10 * 60 * 1000)%Z)])) in *.
  assert (Hdone : storeOf done = st1 /\ sessionOf done = sess /\
                  Response.status (responseOf done) = (if sent then 200 else 500)%nat).
  { subst done. unfold Endpoints.resendVerification.
    rewrite (AuthFacts.truthy_Some _ Hemail). cbn [negb text].
    rewrite Hget, Hunverified.
    rewrite (surjective_pairing (Storage.updateUser _ _ _)). fold st1. fold sent.
    destruct sent; repeat split. }
  destruct Hdone as [-> [Hsess Hstatus]].
  split; [exact Hsess |]. split; [exact Hstatus |]. split; [exact Hrow |]. split.
  - intros code Hcode Hother. unfold verifyCode.
    rewrite (AuthFacts.truthy_Some _ Hemail), (AuthFacts.truthy_Some _ Hcode).
    cbn [negb orb text]. rewrite Hrow.
    replace (Storage.isEmailVerified _) with false
      by (destruct user; cbn in Hunverified |- *; congruence).
    replace (Storage.emailVerificationToken _) with (Some (randomCode env))
      by (destruct user; reflexivity).
    cbn [optStrEq].
    replace (randomCode env =? code) with false
      by (symmetry; apply String.eqb_neq; congruence).
    reflexivity.
  - intros Hcode Hlater.
    destruct (verifyCode_accepted envLater envLater st1 sessLater email (randomCode env)
                _ Hemail Hcode Hrow) as [Hok _].
    + destruct user; cbn in Hunverified |- *; congruence.
    + destruct user; reflexivity.
    + intros expiry Hexpiry.
      replace (Storage.verificationTokenExpiry _)
        with (Some (now env + 10 * 60 * 1000)%Z) in Hexpiry
        by (destruct user; reflexivity).
      injection Hexpiry as <-. exact Hlater.
    + exact Hok.
Qed.

Lemma resendVerification_replaces_code_witness :
  let done :=
    Endpoints.resendVerification
      {| now := 700000; nanoid := "user-3"; nanoid32 := "unused";
         randomCode := "915204"; hashPassword := hashPassword (Sample.env 0);
         bcryptCompare := bcryptCompare (Sample.env 0); scrypt := scrypt (Sample.env 0);
         sendEmailVerificationEmail := fun _ _ _ => false;
         sendPasswordResetEmail := fun _ _ => true;
         verifyTwoFactorToken := verifyTwoFactorToken (Sample.env 0);
         generateTwoFactorSecret := generateTwoFactorSecret (Sample.env 0);
         generateQRCodeDataURL := generateQRCodeDataURL (Sample.env 0) |}
      Scenario.registered Sample.anonymous (Some "bob@example.com") in
  Response.status (responseOf done) = 500%nat /\
  verifyCode (Sample.env 700001) (storeOf done) Sample.anonymous
             (Some "bob@example.com") (Some "482913")
  = (storeOf done, Sample.anonymous, json 400 "Invalid verification code") /\
  Response.status
    (responseOf (verifyCode (Sample.env 700001) (storeOf done) Sample.anonymous
                            (Some "bob@example.com") (Some "915204"))) = 200%nat.
Proof.
  cbv zeta.
  destruct (resendVerification_replaces_code
              {| now := 700000; nanoid := "user-3"; nanoid32 := "unused";
                 randomCode := "915204"; hashPassword := hashPassword (Sample.env 0);
                 bcryptCompare := bcryptCompare (Sample.env 0);
                 scrypt := scrypt (Sample.env 0);
                 sendEmailVerificationEmail := fun _ _ _ => false;
                 sendPasswordResetEmail := fun _ _ => true;
                 verifyTwoFactorToken := verifyTwoFactorToken (Sample.env 0);
                 generateTwoFactorSecret := generateTwoFactorSecret (Sample.env 0);
                 generateQRCodeDataURL := generateQRCodeDataURL (Sample.env 0) |}
              (Sample.env 700001) Scenario.registered Sample.anonymous Sample.anonymous
              "bob@example.com" Scenario.bob ltac:(discriminate) eq_refl eq_refl)
    as [_ [Hstatus [_ [Hold Hnew]]]].
  split; [exact Hstatus | split].
  - apply Hold; discriminate.
  - apply Hnew; [discriminate | cbn; lia].
Defined.

Lemma find_unique {A : Type} (p : A -> bool) (rows : list A) (x : A) :
  In x rows -> p x = true ->
  (forall y, In y rows -> p y = true -> y = x) ->
  find p rows = Some x.
Proof.
  induction rows as [| r rows IH]; cbn [In find]; intros Hin Hp Hunique; [contradiction |].
  destruct (p r) eqn:Hr.
  - f_equal. apply Hunique; [left; reflexivity | exact Hr].
  - destruct Hin as [-> | Hin]; [congruence |].
    apply IH; [exact Hin | exact Hp |].
    intros y Hy. apply Hunique. right. exact Hy.
Qed.

Lemma find_nowhere {A : Type} (p : A -> bool) (rows : list A) :
  (forall y, In y rows -> p y = false) -> find p rows = None.
Proof.
  induction rows as [| r rows IH]; cbn [find]; intros Hnone; [reflexivity |].
  rewrite (Hnone r (or_introl eq_refl)). apply IH.
  intros y Hy. apply Hnone. right. exact Hy.
Qed.

Lemma optStrEq_holds (v : option string) (token : string) :
  optStrEq v (Some token) = true <-> v = Some token.
Proof.
  destruct v as [t |]; cbn [optStrEq]; [| split; discriminate].
  rewrite String.eqb_eq. split; congruence.
Qed.

Lemma getUserByVerificationToken_unique time st token user expiry :
  In user (Storage.users st) ->
  (forall u, In u (Storage.users st) ->
             Storage.emailVerificationToken u = Some token -> u = user) ->
  Storage.emailVerificationToken user = Some token ->
  Storage.verificationTokenExpiry user = Some expiry -> (time < expiry)%Z ->
  Endpoints.getUserByVerificationToken time st token = Some user.
Proof.
  intros Hin Hunique Htoken Hexpiry Hahead.
  unfold Endpoints.getUserByVerificationToken. apply find_unique; [exact Hin | |].
  - rewrite Hexpiry. apply andb_true_intro. split; [apply optStrEq_holds, Htoken |].
    apply negb_true_iff, Z.ltb_ge. lia.
  - intros u Hu Hp. apply andb_prop in Hp. destruct Hp as [Hp _].
    apply Hunique; [exact Hu | apply optStrEq_holds, Hp].
Qed.

(** X16. The verification link (GET /verify-email). A token that no
    stored row holds is answered 400, store and session being unchanged.
    For a token that exactly one stored row holds, with an expiry still
    ahead: a row already verified is answered 200 with nothing changed; a
    row not yet verified is answered 200, becomes verified and loses the
    token while the expiry stored with it stays, every other row being as
    before. In each case the session is left as it was, so the link does
    not log anybody in. *)
Theorem verifyEmail_contract (env : Env) (st : Storage.Store) (sess : Session.t)
        (token : string) :
  token <> EmptyString ->
  let done := Endpoints.verifyEmail env st sess (Some token) in
  ((forall u, In u (Storage.users st) ->
              Storage.emailVerificationToken u <> Some token) ->
   done = (st, sess, json 400 "Invalid or expired verification token")) /\
  forall (user : Storage.User) (expiry : Z),
    In user (Storage.users st) ->
    (forall u, In u (Storage.users st) ->
               Storage.emailVerificationToken u = Some token -> u = user) ->
    Storage.emailVerificationToken user = Some token ->
    Storage.verificationTokenExpiry user = Some expiry -> (now env < expiry)%Z ->
    sessionOf done = sess /\
    (Storage.isEmailVerified user = true ->
     done = (st, sess, json 200 "Email already verified")) /\
    (Storage.isEmailVerified user = false ->
     Response.status (responseOf done) = 200%nat /\
     Response.field (responseOf done) "verified" = Some (JBool true) /\
     (exists row,
         Storage.getUser (storeOf done) (Storage.id user) = Some row /\
         Storage.isEmailVerified row = true /\
         Storage.emailVerificationToken row = None /\
         (Storage.getUser st (Storage.id user) = Some user ->
          Storage.verificationTokenExpiry row = Some expiry)) /\
     forall other, other <> Storage.id user ->
                   Storage.getUser (storeOf done) other = Storage.getUser st other).
Proof.
  intros Htoken done. subst done. unfold Endpoints.verifyEmail.
  rewrite (AuthFacts.truthy_Some _ Htoken). cbn [negb text]. split.
  - intros Hnone. unfold Endpoints.getUserByVerificationToken.
    rewrite find_nowhere; [reflexivity |].
    intros u Hu. apply andb_false_intro1.
    destruct (optStrEq (Storage.emailVerificationToken u) (Some token)) eqn:Hholds;
      [| reflexivity].
    apply optStrEq_holds in Hholds. exfalso. exact (Hnone u Hu Hholds).
  - intros user expiry Hin Hunique Hheld Hexpiry Hahead.
    rewrite (getUserByVerificationToken_unique (now env) st token user expiry
               Hin Hunique Hheld Hexpiry Hahead).
    destruct (Storage.isEmailVerified user) eqn:Hverified.
    + split; [reflexivity |]. split; [reflexivity | discriminate].
    + rewrite (surjective_pairing (Storage.updateUser _ _ _)).
      cbn [responseOf sessionOf storeOf fst snd].
      split; [reflexivity |]. split; [discriminate |]. intros _.
      split; [reflexivity |]. split; [reflexivity |]. split.
      * assert (Hfirst : exists first, Storage.getUser st (Storage.id user) = Some first).
        { unfold Storage.getUser.
          destruct (find (fun u => Storage.id u =? Storage.id user) (Storage.users st))
            as [first |] eqn:Hfind; [eauto |].
          exfalso. apply (find_none _ _ Hfind) in Hin. cbv beta in Hin.
          rewrite String.eqb_refl in Hin. discriminate. }
        destruct Hfirst as [first Hfirst].
        exists (Storage.patch first [Storage.SetIsEmailVerified true;
                                     Storage.SetEmailVerifiedAt (Some (now env));
                                     Storage.SetEmailVerificationToken None]).
        split; [apply getUser_after_update, Hfirst |].
        split; [destruct first; reflexivity |]. split; [destruct first; reflexivity |].
        intros Hsame. rewrite Hsame in Hfirst. injection Hfirst as <-.
        rewrite <- Hexpiry. destruct user; reflexivity.
      * intros other Hother. apply getUser_update_other, Hother.
Qed.

Lemma verifyEmail_contract_witness :
  let done :=
    Endpoints.verifyEmail (Sample.env 1000) Scenario.registered Sample.anonymous
                          (Some "482913") in
  sessionOf done = Sample.anonymous /\
  Response.status (responseOf done) = 200%nat /\
  option_map Storage.isEmailVerified (Storage.getUser (storeOf done) "user-2") = Some true /\
  Endpoints.verifyEmail (Sample.env 1000) Scenario.registered Sample.anonymous
                        (Some "000000")
  = (Scenario.registered, Sample.anonymous,
     json 400 "Invalid or expired verification token").
Proof.
  destruct (verifyEmail_contract (Sample.env 1000) Scenario.registered Sample.anonymous
              "482913" ltac:(discriminate)) as [_ Hheld].
  destruct (Hheld Scenario.bob 600000%Z) as [Hsess [_ Hfresh]].
  - right. left. reflexivity.
  - intros u [<- | [<- | []]]; [discriminate | reflexivity].
  - reflexivity.
  - reflexivity.
  - cbn. lia.
  - destruct (Hfresh eq_refl) as [Hstatus [_ [[row [Hrow [Hverified _]]] _]]].
    cbv zeta. split; [exact Hsess |]. split; [exact Hstatus |]. split.
    + change "user-2" with (Storage.id Scenario.bob). rewrite Hrow, <- Hverified.
      reflexivity.
    + apply (verifyEmail_contract (Sample.env 1000) Scenario.registered Sample.anonymous
               "000000" ltac:(discriminate)).
      intros u [<- | [<- | []]]; discriminate.
Defined.

(** X17. Verification before the account exists. For an e-mail that no
    account uses, POST /send-registration-verification stores the code in
    the session with an expiry ten minutes ahead, whether or not the
    e-mail could be sent, and leaves the store alone; POST
    /verify-registration-code with that e-mail and code, made within the
    ten minutes, answers 200, records the e-mail as verified in the
    session and still leaves the store alone. *)
Theorem registration_code_flow (env envLater : Env) (st : Storage.Store)
        (sess : Session.t) (email : string) :
  email <> EmptyString -> randomCode env <> EmptyString ->
  Storage.getUserByEmail st email = None ->
  (now envLater <= now env + 10 * 60 * 1000)%Z ->
  let sent := Endpoints.sendRegistrationVerification env st sess (Some email) in
  let verified :=
    Endpoints.verifyRegistrationCode envLater (storeOf sent) (sessionOf sent)
                                     (Some email) (Some (randomCode env)) in
  storeOf sent = st /\
  Session.registrationVerification (sessionOf sent)
  = Some {| Session.rvEmail := email; Session.rvCode := randomCode env;
            Session.rvExpires := (now env + 10 * 60 * 1000)%Z |} /\
  Response.status (responseOf sent)
  = (if sendEmailVerificationEmail env email "User" (randomCode env) then 200 else 500)%nat /\
  responseOf verified = json 200 "Email verified successfully" /\
  Session.emailVerified (sessionOf verified) = Some email /\
  Session.userId (sessionOf verified) = Session.userId sess /\
  storeOf verified = st.
Proof.
  intros Hemail Hcode Hfresh Hlater sent verified.
  assert (Hsent : storeOf sent = st /\
                  sessionOf sent
                  = Endpoints.setRegistrationVerification sess
                      {| Session.rvEmail := email; Session.rvCode := randomCode env;
                         Session.rvExpires := (now env + 10 * 60 * 1000)%Z |} /\
                  Response.status (responseOf sent)
                  = (if sendEmailVerificationEmail env email "User" (randomCode env)
                     then 200 else 500)%nat).
  { subst sent. unfold Endpoints.sendRegistrationVerification.
    rewrite (AuthFacts.truthy_Some _ Hemail). cbn [negb text]. rewrite Hfresh.
    destruct (sendEmailVerificationEmail env email "User" (randomCode env));
      repeat split. }
  destruct Hsent as [Hstore [Hsession Hstatus]].
  subst verified. rewrite Hstore, Hsession.
  split; [reflexivity |]. split; [reflexivity |]. split; [exact Hstatus |].
  unfold Endpoints.verifyRegistrationCode.
  rewrite (AuthFacts.truthy_Some _ Hemail), (AuthFacts.truthy_Some _ Hcode).
  cbn [negb orb text Endpoints.setRegistrationVerification
       Session.registrationVerification Session.rvEmail Session.rvExpires Session.rvCode].
  rewrite !String.eqb_refl. cbn [negb].
  replace (now env + 10 * 60 * 1000 <? now envLater)%Z with false
    by (symmetry; apply Z.ltb_ge; exact Hlater).
  rewrite Hfresh. repeat split.
Qed.

Lemma registration_code_flow_witness :
  Session.emailVerified
    (sessionOf
       (Endpoints.verifyRegistrationCode (Sample.env 1000)
          Sample.store
          (sessionOf (Endpoints.sendRegistrationVerification (Sample.env 0) Sample.store
                        Sample.anonymous (Some "carol@example.com")))
          (Some "carol@example.com") (Some "482913")))
  = Some "carol@example.com".
Proof.
  destruct (registration_code_flow (Sample.env 0) (Sample.env 1000) Sample.store
              Sample.anonymous "carol@example.com"
              ltac:(discriminate) ltac:(discriminate) eq_refl ltac:(cbn; lia))
    as [Hstore [_ [_ [_ [Hverified _]]]]].
  rewrite Hstore in Hverified. exact Hverified.
Defined.

(** X18. POST /verify-registration-code refuses, each with its own 400
    message and without changing store or session: a session that holds
    no code; an e-mail other than the one the code was sent to; a code
    whose expiry has passed, even the right one; and, before expiry, a
    code other than the one sent. *)
Theorem verifyRegistrationCode_rejections (env : Env) (st : Storage.Store)
        (sess : Session.t) (email code : string) :
  email <> EmptyString -> code <> EmptyString ->
  let done := Endpoints.verifyRegistrationCode env st sess (Some email) (Some code) in
  (Session.registrationVerification sess = None ->
   done = (st, sess, json 400 "No verification session found")) /\
  (forall rv,
      Session.registrationVerification sess = Some rv ->
      (Session.rvEmail rv <> email ->
       done = (st, sess, json 400 "Email does not match verification session")) /\
      (Session.rvEmail rv = email -> (Session.rvExpires rv < now env)%Z ->
       done = (st, sess, json 400 "Verification code has expired")) /\
      (Session.rvEmail rv = email -> (now env <= Session.rvExpires rv)%Z ->
       Session.rvCode rv <> code ->
       done = (st, sess, json 400 "Invalid verification code"))).
Proof.
  intros Hemail Hcode done. subst done. unfold Endpoints.verifyRegistrationCode.
  rewrite (AuthFacts.truthy_Some _ Hemail), (AuthFacts.truthy_Some _ Hcode).
  cbn [negb orb text]. split.
  - intros ->. reflexivity.
  - intros rv ->. split; [| split].
    + intros Hne. apply String.eqb_neq in Hne. rewrite Hne. reflexivity.
    + intros -> Hlate. rewrite String.eqb_refl. cbn [negb].
      apply Z.ltb_lt in Hlate. rewrite Hlate. reflexivity.
    + intros -> Hfresh Hne. rewrite String.eqb_refl. cbn [negb].
      apply Z.ltb_ge in Hfresh. rewrite Hfresh.
      apply String.eqb_neq in Hne. rewrite Hne. reflexivity.
Qed.

Lemma verifyRegistrationCode_rejections_witness :
  let pending :=
    sessionOf (Endpoints.sendRegistrationVerification (Sample.env 0) Sample.store
                 Sample.anonymous (Some "carol@example.com")) in
  Endpoints.verifyRegistrationCode (Sample.env 600001) Sample.store pending
                                   (Some "carol@example.com") (Some "482913")
  = (Sample.store, pending, json 400 "Verification code has expired") /\
  Endpoints.verifyRegistrationCode (Sample.env 1) Sample.store Sample.anonymous
                                   (Some "carol@example.com") (Some "482913")
  = (Sample.store, Sample.anonymous, json 400 "No verification session found").
Proof.
  cbv zeta. split.
  - apply (proj2 (verifyRegistrationCode_rejections (Sample.env 600001) Sample.store
                    (sessionOf (Endpoints.sendRegistrationVerification (Sample.env 0)
                                  Sample.store Sample.anonymous
                                  (Some "carol@example.com")))
                    "carol@example.com" "482913"
                    ltac:(discriminate) ltac:(discriminate))
                 {| Session.rvEmail := "carol@example.com"; Session.rvCode := "482913";
                    Session.rvExpires := 600000 |} eq_refl);
      [reflexivity | cbn; lia].
  - apply (proj1 (verifyRegistrationCode_rejections (Sample.env 1) Sample.store
                    Sample.anonymous "carol@example.com" "482913"
                    ltac:(discriminate) ltac:(discriminate))).
    reflexivity.
Defined.

Ltac split_ands :=
  repeat match goal with
         | H : (_ && _) = true |- _ => apply andb_prop in H; destruct H
         end.

Lemma owner_dispatch env st sess body user :
  Branches.companyOwner body = true ->
  registerBranches env st sess body user
  = registerOwnerOrDefault env st sess body true user.
Proof.
  unfold Branches.companyOwner, Branches.contractorRole. intros H. split_ands.
  repeat match goal with
         | H : negb _ = true |- _ => apply negb_true_iff in H
         end.
  unfold registerBranches.
  match goal with Ht : isTeamMemberOf body = false |- _ => rewrite Ht end.
  match goal with Hr : (_ || _) = false |- _ => rewrite Hr end.
  match goal with Ho : isCompanyOwnerOf body = true |- _ => rewrite Ho end.
  reflexivity.
Qed.

(** The owner branch for a verified row with all fields and agreements:
    what remains is the choice of the short name. *)
Lemma owner_validated env st sess body row :
  Branches.companyOwner body = true ->
  Branches.ownerFields body = true ->
  Branches.ownerAgreements body = true ->
  Storage.isEmailVerified row = true ->
  Storage.getUser st (Storage.id row) = Some row ->
  let shortName := text (RegisterBody.companyShortName body) in
  let chosen :=
    match Storage.getCompanyByShortName st shortName with
    | Some _ => ownerShortNameLoop st shortName 98 2 shortName
    | None => (0%nat, shortName)
    end in
  ((100 <=? fst chosen)%nat = true ->
   registerBranches env st sess body (Some row)
   = (st, sess, json 400 "Unable to generate unique company identifier. Please contact support.")) /\
  ((100 <=? fst chosen)%nat = false ->
   let done := registerBranches env st sess body (Some row) in
   Response.status (responseOf done) = 201%nat /\
   sessionOf done = Session.setUserId sess (Storage.id row) /\
   Storage.getUser (storeOf done) (Storage.id row)
   = Some (Storage.patch row
             [Storage.SetCompanyId (Some (Storage.nextCompanyId st));
              Storage.SetRole "company_admin";
              Storage.SetIsEmailVerified true;
              Storage.SetEmailVerifiedAt (Some (now env))]) /\
   exists company,
     Storage.companies (storeOf done) = (Storage.companies st ++ [company])%list /\
     Storage.cid company = Storage.nextCompanyId st /\
     Storage.shortName company = snd chosen /\
     Storage.name company = text (RegisterBody.companyName body) /\
     Storage.isContractor company = false).
Proof.
  intros Howner Hfields Hagreed Hverified Hget shortName chosen.
  rewrite (owner_dispatch _ _ _ _ _ Howner).
  unfold Branches.companyOwner, isCompanyOwnerOf, Branches.ownerFields,
    Branches.ownerAgreements in *.
  split_ands.
  unfold registerOwnerOrDefault. cbn [withUser]. rewrite Hverified. cbn [negb].
  repeat match goal with
         | H : Js.truthy _ = true |- _ => rewrite H; clear H
         | H : RegisterBody.agreeToPortalServices _ = true |- _ => rewrite H; clear H
         | H : RegisterBody.agreeToBusinessInfo _ = true |- _ => rewrite H; clear H
         | H : RegisterBody.agreeToContact _ = true |- _ => rewrite H; clear H
         end.
  cbn [negb orb]. fold shortName. fold chosen.
  clearbody chosen. destruct chosen as [counter finalShortName]. cbn [fst snd]. split.
  - intros ->. reflexivity.
  - intros ->. unfold Storage.createCompany. cbv beta iota zeta.
    rewrite (surjective_pairing (Storage.updateUser _ _ _)).
    rewrite StorageFacts.updateUser_returns.
    match goal with
    | |- context [Storage.getUser ?s (Storage.id row)] =>
        change (Storage.getUser s (Storage.id row))
          with (Storage.getUser st (Storage.id row))
    end.
    rewrite Hget. cbn [option_map andb].
    replace (Storage.isEmailVerified (Storage.patch row _)) with true
      by (destruct row; reflexivity).
    cbn [withUser responseOf sessionOf storeOf fst snd Response.status].
    split; [reflexivity |]. split; [rewrite StorageFacts.patch_id; reflexivity |].
    split.
    + match goal with
      | |- Storage.getUser (fst (Storage.updateUser ?s _ _)) _ = _ =>
          apply (getUser_after_update s)
      end.
      exact Hget.
    + eexists. split; [reflexivity |]. repeat split.
Qed.

(** X19. Company-owner registration is gated on a verified e-mail. When
    the session does not record the e-mail as verified, the request is
    answered 400 and no company is created, yet the user row written
    earlier stays in the store. When it does, and the fields, the three
    agreements and a free short name are supplied, the answer is 201: the
    company is created under that short name, the user becomes its
    company_admin with level owner, marked verified, and is logged in. *)
Theorem register_company_owner (env : Env) (st : Storage.Store) (sess : Session.t)
        (body : RegisterBody.t) :
  passwordRegexTest (RegisterBody.password body) = true ->
  Storage.getUserByEmail st (RegisterBody.email body) = None ->
  Branches.companyOwner body = true ->
  let done := register env st sess body in
  (Js.strictEq (Session.emailVerified sess) (RegisterBody.email body) = false ->
   responseOf done
   = json 400 "Email verification is required for company owner registration" /\
   sessionOf done = sess /\
   Storage.companies (storeOf done) = Storage.companies st /\
   Storage.getUserByEmail (storeOf done) (RegisterBody.email body)
   = Some (userDataOf env body)) /\
  (Js.strictEq (Session.emailVerified sess) (RegisterBody.email body) = true ->
   Branches.ownerFields body = true ->
   Branches.ownerAgreements body = true ->
   Storage.getCompanyByShortName st (text (RegisterBody.companyShortName body)) = None ->
   Response.status (responseOf done) = 201%nat /\
   sessionOf done = Session.setUserId sess (nanoid env) /\
   (exists row,
       Storage.getUser (storeOf done) (nanoid env) = Some row /\
       Storage.role row = "company_admin" /\
       Storage.permissionLevel row = "owner" /\
       Storage.isEmailVerified row = true /\
       Storage.companyId row = Some (Storage.nextCompanyId st)) /\
   exists company,
     Storage.companies (storeOf done) = (Storage.companies st ++ [company])%list /\
     Storage.cid company = Storage.nextCompanyId st /\
     Storage.shortName company = text (RegisterBody.companyShortName body) /\
     Storage.isContractor company = false).
Proof.
  intros Hpolicy Hfresh Howner done. subst done.
  destruct (register_upserted env st sess body Hpolicy Hfresh)
    as [Hid [Hmail [Hplain Hverified]]].
  split.
  - intros Hsession. rewrite (Hplain Hsession), (owner_dispatch _ _ _ _ _ Howner).
    unfold registerOwnerOrDefault. cbn [withUser]. repeat split. exact Hmail.
  - intros Hsession Hfields Hagreed Hfree. rewrite (Hverified Hsession).
    set (st1 := Storage.withUsers st _) in *.
    set (fields := [Storage.SetIsEmailVerified true;
                    Storage.SetEmailVerifiedAt (Some (now env))]) in *.
    set (st2 := fst (Storage.updateUser st1 (nanoid env) fields)).
    set (row := Storage.patch (userDataOf env body) fields).
    assert (Hrowid : Storage.id row = nanoid env) by reflexivity.
    assert (Hget : Storage.getUser st2 (Storage.id row) = Some row)
      by (rewrite Hrowid; apply getUser_after_update, Hid).
    destruct (owner_validated env st2 sess body row Howner Hfields Hagreed
                eq_refl Hget) as [_ Hcreated].
    assert (Hfree2 : Storage.getCompanyByShortName st2
                       (text (RegisterBody.companyShortName body)) = None)
      by (rewrite <- Hfree; reflexivity).
    rewrite Hfree2 in Hcreated. cbn [fst snd] in Hcreated.
    destruct (Hcreated eq_refl) as [Hstatus [Hsess [Hrow [company Hcompany]]]].
    split; [exact Hstatus |]. split; [exact Hsess |]. split.
    + eexists. split; [exact Hrow |].
      assert (Hlevel : Storage.permissionLevel (userDataOf env body) = "owner").
      { unfold userDataOf, assignedRoleOf. cbn [Storage.permissionLevel].
        unfold Branches.companyOwner in Howner. split_ands.
        match goal with Ho : isCompanyOwnerOf body = true |- _ => rewrite Ho end.
        reflexivity. }
      subst row. destruct (userDataOf env body); cbn in Hlevel |- *.
      repeat split. exact Hlevel.
    + exists company. destruct Hcompany as [Hc [Hcid [Hshort [_ Hcontractor]]]].
      repeat split; assumption.
Qed.

Lemma register_company_owner_witness :
  responseOf (register (Sample.env 0) Sample.store Sample.anonymous
                (Scenario.ownerRequest "carol@example.com" "CAROL"))
  = json 400 "Email verification is required for company owner registration" /\
  sessionOf (register (Sample.env 0) Sample.store
               (Scenario.verifiedSession "carol@example.com")
               (Scenario.ownerRequest "carol@example.com" "CAROL"))
  = Session.setUserId (Scenario.verifiedSession "carol@example.com") "user-2".
Proof.
  split.
  - apply (proj1 (register_company_owner (Sample.env 0) Sample.store Sample.anonymous
                    (Scenario.ownerRequest "carol@example.com" "CAROL")
                    eq_refl eq_refl eq_refl)).
    reflexivity.
  - apply (proj2 (register_company_owner (Sample.env 0) Sample.store
                    (Scenario.verifiedSession "carol@example.com")
                    (Scenario.ownerRequest "carol@example.com" "CAROL")
                    eq_refl eq_refl eq_refl));
      reflexivity.
Defined.

Lemma ownerShortNameLoop_finds st shortName k :
  (k <= 99)%nat ->
  ShortName.taken st (Branches.ownerCandidate shortName k) = false ->
  forall fuel counter final,
    (2 <= counter <= k)%nat -> (100 <= fuel + counter)%nat ->
    (forall j, (counter <= j < k)%nat ->
               ShortName.taken st (Branches.ownerCandidate shortName j) = true) ->
    ownerShortNameLoop st shortName fuel counter final
    = (k, Branches.ownerCandidate shortName k).
Proof.
  intros Hk Hfree. induction fuel as [| fuel IH]; intros counter final Hc Hfuel Htaken.
  - lia.
  - cbn [ownerShortNameLoop]. fold (Branches.ownerCandidate shortName counter).
    destruct (Nat.eq_dec counter k) as [-> | Hne].
    + rewrite (AuthFacts.taken_false _ _ Hfree). reflexivity.
    + destruct (AuthFacts.taken_true st (Branches.ownerCandidate shortName counter))
        as [c ->]; [apply Htaken; lia |].
      replace (counter + 1 <? 100)%nat with true by (symmetry; apply Nat.ltb_lt; lia).
      apply IH; [lia | lia |]. intros j Hj. apply Htaken. lia.
Qed.

Lemma ownerShortNameLoop_exhausts st shortName :
  (forall j, (2 <= j <= 99)%nat ->
             ShortName.taken st (Branches.ownerCandidate shortName j) = true) ->
  forall fuel counter final,
    (2 <= counter <= 99)%nat -> (100 <= fuel + counter)%nat ->
    fst (ownerShortNameLoop st shortName fuel counter final) = 100%nat.
Proof.
  intros Htaken. induction fuel as [| fuel IH]; intros counter final Hc Hfuel.
  - lia.
  - cbn [ownerShortNameLoop]. fold (Branches.ownerCandidate shortName counter).
    destruct (AuthFacts.taken_true st (Branches.ownerCandidate shortName counter))
      as [c ->]; [apply Htaken; lia |].
    destruct (counter + 1 <? 100)%nat eqn:E.
    + apply Nat.ltb_lt in E. apply IH; lia.
    + apply Nat.ltb_ge in E. cbn [fst]. lia.
Qed.

Lemma ownerShortNameLoop_fuel st shortName :
  forall fuel counter final extra,
    (2 <= counter)%nat -> (100 <= fuel + counter)%nat -> (1 <= fuel)%nat ->
    ownerShortNameLoop st shortName (fuel + extra) counter final
    = ownerShortNameLoop st shortName fuel counter final.
Proof.
  induction fuel as [| fuel IH]; intros counter final extra Hc Hfuel Hpos; [lia |].
  cbn [Nat.add ownerShortNameLoop].
  destruct (Storage.getCompanyByShortName st _); [| reflexivity].
  destruct (counter + 1 <? 100)%nat eqn:E; [| reflexivity].
  apply Nat.ltb_lt in E. apply IH; lia.
Qed.

Lemma ownerShortNameLoop_same st st2 shortName :
  Storage.companies st2 = Storage.companies st ->
  forall fuel counter final,
    ownerShortNameLoop st2 shortName fuel counter final
    = ownerShortNameLoop st shortName fuel counter final.
Proof.
  intros Hsame. induction fuel as [| fuel IH]; intros counter final; [reflexivity |].
  cbn [ownerShortNameLoop]. rewrite (AuthFacts.getCompanyByShortName_same st st2 _ Hsame).
  destruct (Storage.getCompanyByShortName st _); [| reflexivity].
  destruct (counter + 1 <? 100)%nat; [apply IH | reflexivity].
Qed.

(** X20. The short name of a company owner. When the short name supplied
    by a verified owner is in use, the names tried are its first five
    characters followed by the counter 2, 3, ..., 99: the first that no
    company uses becomes the short name of the company created (201), and
    when all 98 are in use the answer is the explicit 400 and no company
    is created. The loop runs its body at most 98 times. *)
Theorem register_owner_short_name (env : Env) (st : Storage.Store) (sess : Session.t)
        (body : RegisterBody.t) (shortName : string) :
  passwordRegexTest (RegisterBody.password body) = true ->
  Storage.getUserByEmail st (RegisterBody.email body) = None ->
  Branches.companyOwner body = true ->
  Js.strictEq (Session.emailVerified sess) (RegisterBody.email body) = true ->
  Branches.ownerFields body = true ->
  Branches.ownerAgreements body = true ->
  RegisterBody.companyShortName body = Some shortName ->
  ShortName.taken st shortName = true ->
  let done := register env st sess body in
  (forall k : nat,
      (2 <= k <= 99)%nat ->
      (forall j, (2 <= j < k)%nat ->
                 ShortName.taken st (Branches.ownerCandidate shortName j) = true) ->
      ShortName.taken st (Branches.ownerCandidate shortName k) = false ->
      Response.status (responseOf done) = 201%nat /\
      exists company,
        Storage.companies (storeOf done) = (Storage.companies st ++ [company])%list /\
        Storage.shortName company = Branches.ownerCandidate shortName k) /\
  ((forall j, (2 <= j <= 99)%nat ->
              ShortName.taken st (Branches.ownerCandidate shortName j) = true) ->
   responseOf done
   = json 400 "Unable to generate unique company identifier. Please contact support." /\
   Storage.companies (storeOf done) = Storage.companies st) /\
  (forall extra final,
      ownerShortNameLoop st shortName (98 + extra) 2 final
      = ownerShortNameLoop st shortName 98 2 final).
Proof.
  intros Hpolicy Hfresh Howner Hsession Hfields Hagreed Hname Htaken done. subst done.
  destruct (register_upserted env st sess body Hpolicy Hfresh) as [Hid [_ [_ Hverified]]].
  rewrite (Hverified Hsession).
  set (st1 := Storage.withUsers st _) in *.
  set (fields := [Storage.SetIsEmailVerified true;
                  Storage.SetEmailVerifiedAt (Some (now env))]) in *.
  set (st2 := fst (Storage.updateUser st1 (nanoid env) fields)).
  set (row := Storage.patch (userDataOf env body) fields).
  assert (Hget : Storage.getUser st2 (Storage.id row) = Some row)
    by (change (Storage.id row) with (nanoid env); apply getUser_after_update, Hid).
  assert (Hsame : Storage.companies st2 = Storage.companies st) by reflexivity.
  destruct (owner_validated env st2 sess body row Howner Hfields Hagreed eq_refl Hget)
    as [Hfull Hcreated].
  rewrite Hname in Hfull, Hcreated. cbn [text] in Hfull, Hcreated.
  rewrite (AuthFacts.getCompanyByShortName_same st st2 _ Hsame) in Hfull, Hcreated.
  destruct (AuthFacts.taken_true _ _ Htaken) as [c Hc].
  rewrite Hc in Hfull, Hcreated.
  rewrite (ownerShortNameLoop_same st st2 shortName Hsame) in Hfull, Hcreated.
  split; [| split].
  - intros k Hk Hbefore Hfree.
    rewrite (ownerShortNameLoop_finds st shortName k ltac:(lia) Hfree 98 2 shortName
               ltac:(lia) ltac:(lia) Hbefore) in Hcreated.
    cbn [fst snd] in Hcreated.
    destruct (Hcreated ltac:(apply Nat.leb_gt; lia))
      as [Hstatus [_ [_ [company [Hcompanies [_ [Hshort _]]]]]]].
    split; [exact Hstatus |]. exists company. split; [| exact Hshort].
    rewrite Hcompanies, Hsame. reflexivity.
  - intros Hall.
    pose proof (ownerShortNameLoop_exhausts st shortName Hall 98 2 shortName
                  ltac:(lia) ltac:(lia)) as Hlast.
    rewrite Hlast in Hfull. rewrite (Hfull eq_refl). split; [reflexivity | exact Hsame].
  - intros extra final. apply ownerShortNameLoop_fuel; lia.
Qed.

Lemma register_owner_short_name_witness :
  responseOf (register (Sample.env 0) (Scenario.crowdedOwner "CAROL" 99)
                (Scenario.verifiedSession "carol@example.com")
                (Scenario.ownerRequest "carol@example.com" "CAROL"))
  = json 400 "Unable to generate unique company identifier. Please contact support." /\
  exists company,
    Storage.companies
      (storeOf (register (Sample.env 0) (Scenario.crowdedOwner "CAROL" 7)
                  (Scenario.verifiedSession "carol@example.com")
                  (Scenario.ownerRequest "carol@example.com" "CAROL")))
    = (Storage.companies (Scenario.crowdedOwner "CAROL" 7) ++ [company])%list /\
    Storage.shortName company = "CAROL8".
Proof.
  split.
  - destruct (register_owner_short_name (Sample.env 0) (Scenario.crowdedOwner "CAROL" 99)
                (Scenario.verifiedSession "carol@example.com")
                (Scenario.ownerRequest "carol@example.com" "CAROL") "CAROL"
                eq_refl eq_refl eq_refl eq_refl eq_refl eq_refl eq_refl eq_refl)
      as [_ [Hfull _]].
    apply Hfull. intros j Hj.
    apply (AuthFacts.forallb_range
             (fun j => ShortName.taken (Scenario.crowdedOwner "CAROL" 99)
                         (Branches.ownerCandidate "CAROL" j)) 2 98);
      [vm_compute; reflexivity | lia].
  - destruct (register_owner_short_name (Sample.env 0) (Scenario.crowdedOwner "CAROL" 7)
                (Scenario.verifiedSession "carol@example.com")
                (Scenario.ownerRequest "carol@example.com" "CAROL") "CAROL"
                eq_refl eq_refl eq_refl eq_refl eq_refl eq_refl eq_refl eq_refl)
      as [Hfound _].
    apply (Hfound 8%nat); [lia | | reflexivity].
    intros j Hj.
    apply (AuthFacts.forallb_range
             (fun j => ShortName.taken (Scenario.crowdedOwner "CAROL" 7)
                         (Branches.ownerCandidate "CAROL" j)) 2 6);
      [vm_compute; reflexivity | lia].
Defined.

(** The end of the contractor branch when the loop stops at a free
    candidate. *)
Lemma contractor_company_created env st sess body row companyName k :
  Storage.getUser st (Storage.id row) = Some row ->
  RegisterBody.companyName body = Some companyName ->
  (1 <= k <= 100)%nat ->
  (forall j, (1 <= j < k)%nat ->
             ShortName.taken st (ShortName.candidate (baseShortNameOf companyName) j) = true) ->
  ShortName.taken st (ShortName.candidate (baseShortNameOf companyName) k) = false ->
  let done := registerContractorCompany env st sess body (Some row) in
  let owner := Storage.patch row [Storage.SetCompanyId (Some (Storage.nextCompanyId st));
                                  Storage.SetRole "contractor_account_owner"] in
  storeOf done
  = fst (Storage.updateUser
           (fst (Storage.createCompany st (fun newId =>
              {| Storage.cid := newId;
                 Storage.name := companyName;
                 Storage.shortName := ShortName.candidate (baseShortNameOf companyName) k;
                 Storage.businessNumber := orNull (RegisterBody.businessNumber body);
                 Storage.streetAddress := text (RegisterBody.streetAddress body);
                 Storage.city := text (RegisterBody.city body);
                 Storage.province := text (RegisterBody.province body);
                 Storage.country := text (RegisterBody.country body);
                 Storage.postalCode := RegisterBody.postalCode body;
                 Storage.isContractor := true |})))
           (Storage.id row)
           [Storage.SetCompanyId (Some (Storage.nextCompanyId st));
            Storage.SetRole "contractor_account_owner"]) /\
  sessionOf done = Session.setUserId sess (Storage.id row) /\
  responseOf done
  = {| Response.status := 201;
       Response.body :=
         [("message", JStr "Registration successful! Welcome to your contractor dashboard.");
          ("user", userJson owner true true);
          ("requiresEmailVerification", JBool false);
          ("redirectTo", JStr "/contractor-dashboard")] |}.
Proof.
  intros Hget Hname Hk Hbefore Hfree done owner. subst done owner.
  unfold registerContractorCompany. rewrite Hname. cbn [text].
  unfold generateContractorShortName.
  replace (shortNameLoop st (baseShortNameOf companyName) 101 1 (baseShortNameOf companyName))
    with (k, ShortName.candidate (baseShortNameOf companyName) k)
    by (symmetry;
        exact (AuthFacts.shortNameLoop_finds st (baseShortNameOf companyName) k
                 ltac:(lia) Hfree 101 1 ltac:(lia) ltac:(lia) Hbefore)).
  cbv beta iota.
  replace (100 <? k)%nat with false by (symmetry; apply Nat.ltb_ge; lia).
  unfold Storage.createCompany, withUser. cbv beta iota zeta.
  rewrite (surjective_pairing (Storage.updateUser _ _ _)).
  rewrite StorageFacts.updateUser_returns.
  match goal with
  | |- context [Storage.getUser ?s (Storage.id row)] =>
      change (Storage.getUser s (Storage.id row))
        with (Storage.getUser st (Storage.id row))
  end.
  rewrite Hget. cbn [option_map]. cbv beta iota.
  cbn [storeOf sessionOf responseOf fst snd].
  rewrite StorageFacts.patch_id. repeat split.
Qed.

(** X21. A contractor who registers a company is logged in at once,
    without any e-mail verification: when one of the hundred candidate
    short names is free, the session carries the new user's id, the reply
    redirects to the contractor dashboard, and the stored user is the
    contractor_account_owner of the company just created, verified only
    if the session had recorded the e-mail as verified. *)
Theorem register_contractor_logs_in (env : Env) (st : Storage.Store) (sess : Session.t)
        (body : RegisterBody.t) (companyName : string) (k : nat) :
  passwordRegexTest (RegisterBody.password body) = true ->
  Storage.getUserByEmail st (RegisterBody.email body) = None ->
  ShortName.createsContractorCompany body = true ->
  RegisterBody.companyName body = Some companyName ->
  (1 <= k <= 100)%nat ->
  (forall j, (1 <= j < k)%nat ->
             ShortName.taken st (ShortName.candidate (ShortName.base companyName) j) = true) ->
  ShortName.taken st (ShortName.candidate (ShortName.base companyName) k) = false ->
  let done := register env st sess body in
  sessionOf done = Session.setUserId sess (nanoid env) /\
  Response.field (responseOf done) "redirectTo" = Some (JStr "/contractor-dashboard") /\
  Response.field (responseOf done) "requiresEmailVerification" = Some (JBool false) /\
  exists row,
    Storage.getUser (storeOf done) (nanoid env) = Some row /\
    Storage.role row = "contractor_account_owner" /\
    Storage.companyId row = Some (Storage.nextCompanyId st) /\
    Storage.isActive row = Some true /\
    Storage.isEmailVerified row
    = Js.strictEq (Session.emailVerified sess) (RegisterBody.email body).
Proof.
  intros Hpolicy Hfresh Hcreates Hname Hk Hbefore Hfree done. subst done.
  rewrite <- (AuthFacts.baseShortNameOf_base companyName) in Hbefore, Hfree.
  unfold ShortName.createsContractorCompany in Hcreates. split_ands.
  destruct (register_upserted env st sess body Hpolicy Hfresh) as [Hid [_ [Hplain Hverified]]].
  set (st1 := Storage.withUsers st _) in *.
  assert (Hmain : forall st2 row,
             Storage.companies st2 = Storage.companies st ->
             Storage.nextCompanyId st2 = Storage.nextCompanyId st ->
             Storage.getUser st2 (nanoid env) = Some row ->
             Storage.id row = nanoid env ->
             Storage.isActive row = Some true ->
             let done := registerBranches env st2 sess body (Some row) in
             sessionOf done = Session.setUserId sess (nanoid env) /\
             Response.field (responseOf done) "redirectTo"
             = Some (JStr "/contractor-dashboard") /\
             Response.field (responseOf done) "requiresEmailVerification"
             = Some (JBool false) /\
             exists row',
               Storage.getUser (storeOf done) (nanoid env) = Some row' /\
               Storage.role row' = "contractor_account_owner" /\
               Storage.companyId row' = Some (Storage.nextCompanyId st) /\
               Storage.isActive row' = Some true /\
               Storage.isEmailVerified row' = Storage.isEmailVerified row).
  { intros st2 row Hcompanies Hnext Hget Hrowid Hactive done. subst done.
    rewrite (AuthFacts.registerBranches_contractor env st2 sess body (Some row))
      by assumption.
    repeat match goal with
           | H : _ = true |- context [negb ?b] =>
               match type of H with b = true => rewrite H end
           end.
    cbn [negb].
    rewrite <- Hrowid in Hget.
    destruct (contractor_company_created env st2 sess body row companyName k Hget Hname Hk)
      as [Hstore [Hsession Hresponse]].
    - intros j Hj. unfold ShortName.taken.
      rewrite (AuthFacts.getCompanyByShortName_same st st2 _ Hcompanies).
      apply Hbefore, Hj.
    - unfold ShortName.taken.
      rewrite (AuthFacts.getCompanyByShortName_same st st2 _ Hcompanies). exact Hfree.
    - rewrite Hsession, Hresponse, Hstore, Hrowid, Hnext.
      split; [reflexivity |]. split; [reflexivity |]. split; [reflexivity |].
      eexists. split.
      + apply getUser_after_update. rewrite <- Hrowid. exact Hget.
      + destruct row; cbn in Hactive |- *. repeat split. exact Hactive. }
  destruct (Js.strictEq (Session.emailVerified sess) (RegisterBody.email body)) eqn:Hsession.
  - rewrite (Hverified eq_refl).
    exact (Hmain (fst (Storage.updateUser st1 (nanoid env)
                         [Storage.SetIsEmailVerified true;
                          Storage.SetEmailVerifiedAt (Some (now env))]))
                 (Storage.patch (userDataOf env body)
                    [Storage.SetIsEmailVerified true;
                     Storage.SetEmailVerifiedAt (Some (now env))])
                 eq_refl eq_refl (getUser_after_update _ _ _ _ Hid) eq_refl eq_refl).
  - rewrite (Hplain eq_refl).
    exact (Hmain st1 (userDataOf env body) eq_refl eq_refl Hid eq_refl eq_refl).
Qed.

Lemma register_contractor_logs_in_witness :
  let done :=
    register (Sample.env 0) (ShortName.crowded "BOBRE" 3) Sample.anonymous
             (Sample.contractorRequest "bob@example.com" "Passw0rd!"
                (Some "Bob Retrofits") (Some "9 Elm St") true) in
  sessionOf done = Session.setUserId Sample.anonymous "user-2" /\
  option_map Storage.isEmailVerified (Storage.getUser (storeOf done) "user-2") = Some false.
Proof.
  destruct (register_contractor_logs_in (Sample.env 0) (ShortName.crowded "BOBRE" 3)
              Sample.anonymous
              (Sample.contractorRequest "bob@example.com" "Passw0rd!"
                 (Some "Bob Retrofits") (Some "9 Elm St") true)
              "Bob Retrofits" 4 eq_refl eq_refl eq_refl eq_refl ltac:(lia))
    as [Hsession [_ [_ [row [Hrow [_ [_ [_ Hverified]]]]]]]].
  - intros j Hj.
    apply (AuthFacts.forallb_range
             (fun j => ShortName.taken (ShortName.crowded "BOBRE" 3)
                         (ShortName.candidate "BOBRE" j)) 1 3);
      [vm_compute; reflexivity | lia].
  - reflexivity.
  - cbv zeta. split; [exact Hsession |].
    change "user-2" with (nanoid (Sample.env 0)). rewrite Hrow. cbn [option_map].
    rewrite Hverified. reflexivity.
Defined.

(** X22. What a team-member registration stores besides the company,
    the role and the verified flag. The row keeps the permission level
    chosen when it was first written: owner when the request also carries a company short name and
    a business number (the request then looks like a company owner's),
    editor otherwise; and the verification code generated for the row is
    not cleared although the row is marked verified. *)
Theorem register_team_member_level (env : Env) (st : Storage.Store) (sess : Session.t)
        (body : RegisterBody.t) (companyName : string) (company : Storage.Company) :
  passwordRegexTest (RegisterBody.password body) = true ->
  Storage.getUserByEmail st (RegisterBody.email body) = None ->
  RegisterBody.userType body = Some "team_member" ->
  RegisterBody.companyName body = Some companyName ->
  companyName <> EmptyString ->
  Storage.getCompanyByName st companyName = Some company ->
  exists row,
    Storage.getUser (storeOf (register env st sess body)) (nanoid env) = Some row /\
    Storage.role row = "team_member" /\
    Storage.permissionLevel row
    = (if Js.truthy (RegisterBody.companyShortName body) &&
          Js.truthy (RegisterBody.businessNumber body)
       then "owner" else "editor") /\
    Storage.isEmailVerified row = true /\
    Storage.emailVerificationToken row = Some (randomCode env).
Proof.
  intros Hpolicy Hfresh Htype Hname Hnonempty Hcompany.
  destruct (register_upserted env st sess body Hpolicy Hfresh) as [Hid [_ [Hplain Hverified]]].
  set (st1 := Storage.withUsers st _) in *.
  assert (Hlevel : Storage.permissionLevel (userDataOf env body)
                   = (if Js.truthy (RegisterBody.companyShortName body) &&
                         Js.truthy (RegisterBody.businessNumber body)
                      then "owner" else "editor")).
  { unfold userDataOf, assignedRoleOf, isCompanyOwnerOf, isTeamMemberOf.
    cbn [Storage.permissionLevel]. rewrite Hname, Htype, (AuthFacts.truthy_Some _ Hnonempty).
    cbn [andb Js.strictEq]. rewrite String.eqb_refl.
    destruct (Js.truthy (RegisterBody.companyShortName body) &&
              Js.truthy (RegisterBody.businessNumber body)); reflexivity. }
  assert (Hmain : forall st2 row,
             Storage.companies st2 = Storage.companies st ->
             Storage.getUser st2 (nanoid env) = Some row ->
             Storage.id row = nanoid env ->
             exists row',
               Storage.getUser (storeOf (registerBranches env st2 sess body (Some row)))
                               (nanoid env) = Some row' /\
               Storage.role row' = "team_member" /\
               Storage.permissionLevel row' = Storage.permissionLevel row /\
               Storage.isEmailVerified row' = true /\
               Storage.emailVerificationToken row' = Storage.emailVerificationToken row).
  { intros st2 row Hcompanies Hget Hrowid.
    unfold registerBranches, isTeamMemberOf. rewrite Htype.
    cbn [Js.strictEq]. rewrite String.eqb_refl. unfold registerTeamMember.
    rewrite Hname, (AuthFacts.truthy_Some _ Hnonempty). cbn [negb text].
    rewrite (AuthFacts.getCompanyByName_same st st2 _ Hcompanies), Hcompany.
    cbn [withUser]. rewrite (surjective_pairing (Storage.updateUser _ _ _)).
    rewrite StorageFacts.updateUser_returns, Hrowid, Hget. cbn [option_map withUser].
    cbn [storeOf fst]. eexists. split; [apply getUser_after_update, Hget |].
    destruct row; repeat split. }
  destruct (Js.strictEq (Session.emailVerified sess) (RegisterBody.email body)) eqn:Hsession.
  - rewrite (Hverified eq_refl).
    destruct (Hmain (fst (Storage.updateUser st1 (nanoid env)
                            [Storage.SetIsEmailVerified true;
                             Storage.SetEmailVerifiedAt (Some (now env))]))
                    (Storage.patch (userDataOf env body)
                       [Storage.SetIsEmailVerified true;
                        Storage.SetEmailVerifiedAt (Some (now env))])
                    eq_refl (getUser_after_update _ _ _ _ Hid) eq_refl)
      as [row [Hrow [Hr [Hl [Hv Ht]]]]].
    exists row. rewrite Hl, Ht. repeat split; try assumption.
  - rewrite (Hplain eq_refl).
    destruct (Hmain st1 (userDataOf env body) eq_refl Hid eq_refl)
      as [row [Hrow [Hr [Hl [Hv Ht]]]]].
    exists row. rewrite Hl, Ht. repeat split; try assumption.
Qed.

Lemma register_team_member_level_witness :
  option_map Storage.permissionLevel
    (Storage.getUser
       (storeOf (register (Sample.env 0) Sample.store Sample.anonymous
                   (Sample.request "bob@example.com" "Passw0rd!"
                                   (Some "team_member") (Some "Acme Mills"))))
       "user-2")
  = Some "editor".
Proof.
  destruct (register_team_member_level (Sample.env 0) Sample.store Sample.anonymous
              (Sample.request "bob@example.com" "Passw0rd!"
                              (Some "team_member") (Some "Acme Mills"))
              "Acme Mills" (Sample.company 1 "Acme Mills" "ACME")
              eq_refl eq_refl eq_refl eq_refl ltac:(discriminate) eq_refl)
    as [row [Hrow [_ [Hlevel _]]]].
  change "user-2" with (nanoid (Sample.env 0)). rewrite Hrow. cbn [option_map].
  rewrite Hlevel. reflexivity.
Defined.

(** X23. POST /2fa/disable for an authenticated, active user. Without
    two-factor authentication enabled (flag off or no secret) the answer
    is 400 "not enabled"; with it, a missing token and a token that is not
    valid for the stored secret are each answered 400, and none of these
    changes the store. A valid token is answered 200 and the row loses the
    secret and the flag, its password being untouched. *)
Theorem twoFactorDisable_contract (env : Env) (st : Storage.Store) (sess : Session.t)
        (i : string) (user : Storage.User) (token : option string) :
  Session.userId sess = Some i -> i <> EmptyString ->
  Storage.getUserById st i = Some user ->
  Storage.isActive user <> Some false ->
  let done := twoFactorDisable env st sess token in
  (Storage.twoFactorEnabled user = false \/
   Js.truthy (Storage.twoFactorSecret user) = false ->
   done = (st, sess, json 400 "Two-factor authentication is not enabled")) /\
  (forall secret,
      Storage.twoFactorEnabled user = true ->
      Storage.twoFactorSecret user = Some secret -> secret <> EmptyString ->
      (Js.truthy token = false ->
       done = (st, sess, json 400 "Verification code is required")) /\
      (forall t,
          token = Some t -> t <> EmptyString ->
          (verifyTwoFactorToken env t secret = false ->
           done = (st, sess, json 400 "Invalid verification code")) /\
          (verifyTwoFactorToken env t secret = true ->
           responseOf done = json 200 "Two-factor authentication disabled successfully" /\
           sessionOf done = sess /\
           exists row,
             Storage.getUserById (storeOf done) i = Some row /\
             Storage.twoFactorSecret row = None /\
             Storage.twoFactorEnabled row = false /\
             Storage.password row = Storage.password user))).
Proof.
  intros Hsess Hi Hget Hactive done. subst done. unfold twoFactorDisable, authenticated.
  rewrite (AuthFacts.requireAuth_next st sess i user Hsess Hi Hget Hactive). split.
  - intros [-> | ->]; [reflexivity |].
    destruct (Storage.twoFactorEnabled user); reflexivity.
  - intros secret -> Hsecret Hnonempty. rewrite Hsecret.
    rewrite (AuthFacts.truthy_Some _ Hnonempty). cbn [negb orb text]. split.
    + intros ->. reflexivity.
    + intros t -> Ht. rewrite (AuthFacts.truthy_Some _ Ht). cbn [negb text]. split.
      * intros ->. reflexivity.
      * intros ->. cbn [negb]. rewrite (surjective_pairing (Storage.updateUser _ _ _)).
        cbn [responseOf sessionOf storeOf fst snd].
        split; [reflexivity |]. split; [reflexivity |].
        unfold Storage.getUserById in *. eexists. split.
        -- rewrite (StorageFacts.getUser_found_id _ _ _ Hget).
           apply getUser_after_update, Hget.
        -- destruct user; repeat split.
Qed.

Lemma twoFactorDisable_contract_witness :
  twoFactorDisable (Sample.env 0) Sample.store Sample.aliceSession (Some "123456")
  = (Sample.store, Sample.aliceSession,
     json 400 "Two-factor authentication is not enabled") /\
  twoFactorDisable (Sample.env 0) Sample.enrolledStore Sample.aliceSession (Some "123456")
  = (Sample.enrolledStore, Sample.aliceSession, json 400 "Invalid verification code") /\
  responseOf (twoFactorDisable (Sample.env 0) Sample.enrolledStore Sample.aliceSession
                               (Some "OLDSECRET"))
  = json 200 "Two-factor authentication disabled successfully".
Proof.
  split; [| split].
  - apply (proj1 (twoFactorDisable_contract (Sample.env 0) Sample.store Sample.aliceSession
                    "user-1" Sample.alice (Some "123456")
                    eq_refl ltac:(discriminate) eq_refl ltac:(discriminate))).
    left. reflexivity.
  - edestruct (proj2 (twoFactorDisable_contract (Sample.env 0) Sample.enrolledStore
                        Sample.aliceSession "user-1" _ (Some "123456")
                        eq_refl ltac:(discriminate) eq_refl ltac:(discriminate))
                     "OLDSECRET" eq_refl eq_refl ltac:(discriminate)) as [_ Htoken].
    apply (Htoken "123456" eq_refl ltac:(discriminate)). reflexivity.
  - edestruct (proj2 (twoFactorDisable_contract (Sample.env 0) Sample.enrolledStore
                        Sample.aliceSession "user-1" _ (Some "OLDSECRET")
                        eq_refl ltac:(discriminate) eq_refl ltac:(discriminate))
                     "OLDSECRET" eq_refl eq_refl ltac:(discriminate)) as [_ Htoken].
    apply (Htoken "OLDSECRET" eq_refl ltac:(discriminate)). reflexivity.
Defined.

(** X24. Enrolment and its undoing compose. After POST /2fa/verify has
    accepted a secret, POST /2fa/setup refuses the user, and POST
    /2fa/disable with a token valid for that secret is answered 200 and
    returns the row to no secret and the flag off, after which
    POST /2fa/setup answers 200 again. *)
Theorem twoFactor_round_trip (env envLater : Env) (st : Storage.Store) (sess : Session.t)
        (i : string) (user : Storage.User) (secret token tokenLater : string) :
  Session.userId sess = Some i -> i <> EmptyString ->
  Storage.getUserById st i = Some user ->
  Storage.isActive user <> Some false ->
  secret <> EmptyString -> token <> EmptyString -> tokenLater <> EmptyString ->
  verifyTwoFactorToken env token secret = true ->
  verifyTwoFactorToken envLater tokenLater secret = true ->
  (forall url, exists image, generateQRCodeDataURL envLater url = Ok image) ->
  let enabled := twoFactorVerify env st sess (Some secret) (Some token) in
  let disabled := twoFactorDisable envLater (storeOf enabled) sess (Some tokenLater) in
  responseOf (twoFactorSetup envLater (storeOf enabled) sess)
  = json 400 "Two-factor authentication is already enabled" /\
  responseOf disabled = json 200 "Two-factor authentication disabled successfully" /\
  (exists row,
      Storage.getUserById (storeOf disabled) i = Some row /\
      Storage.twoFactorSecret row = None /\ Storage.twoFactorEnabled row = false) /\
  Response.status (responseOf (twoFactorSetup envLater (storeOf disabled) sess)) = 200%nat.
Proof.
  intros Hsess Hi Hget Hactive Hsecret Htoken Hlater Hvalid Hvalid2 Hqr enabled disabled.
  set (on := [Storage.SetTwoFactorSecret (Some secret); Storage.SetTwoFactorEnabled true]).
  set (off := [Storage.SetTwoFactorSecret None; Storage.SetTwoFactorEnabled false]).
  assert (Hid : Storage.id user = i) by (apply (StorageFacts.getUser_found_id st), Hget).
  assert (Henabled : storeOf enabled = fst (Storage.updateUser st i on)).
  { subst enabled. unfold twoFactorVerify, authenticated.
    rewrite (AuthFacts.requireAuth_next st sess i user Hsess Hi Hget Hactive).
    rewrite (AuthFacts.truthy_Some _ Hsecret), (AuthFacts.truthy_Some _ Htoken).
    cbn [negb orb text]. rewrite Hvalid. cbn [negb].
    rewrite (surjective_pairing (Storage.updateUser _ _ _)), Hid. reflexivity. }
  set (st1 := fst (Storage.updateUser st i on)) in *.
  assert (Hget1 : Storage.getUserById st1 i = Some (Storage.patch user on))
    by (apply getUser_after_update, Hget).
  assert (Hactive1 : Storage.isActive (Storage.patch user on) <> Some false)
    by (destruct user; exact Hactive).
  assert (Hnext1 : requireAuth st1 sess = Next (Storage.patch user on))
    by (apply (AuthFacts.requireAuth_next st1 sess i); assumption).
  assert (Hdisabled : disabled = (fst (Storage.updateUser st1 i off), sess,
                                  json 200 "Two-factor authentication disabled successfully")).
  { subst disabled. rewrite Henabled. unfold twoFactorDisable, authenticated.
    rewrite Hnext1.
    replace (Storage.twoFactorEnabled (Storage.patch user on)) with true
      by (destruct user; reflexivity).
    replace (Storage.twoFactorSecret (Storage.patch user on)) with (Some secret)
      by (destruct user; reflexivity).
    rewrite (AuthFacts.truthy_Some _ Hsecret), (AuthFacts.truthy_Some _ Hlater).
    cbn [negb orb text]. rewrite Hvalid2. cbn [negb].
    rewrite (surjective_pairing (Storage.updateUser _ _ _)), StorageFacts.patch_id, Hid.
    reflexivity. }
  set (st2 := fst (Storage.updateUser st1 i off)) in *.
  assert (Hget2 : Storage.getUserById st2 i = Some (Storage.patch (Storage.patch user on) off))
    by (apply getUser_after_update, Hget1).
  split; [| split; [| split]].
  - rewrite Henabled. unfold twoFactorSetup, authenticated. rewrite Hnext1.
    replace (Storage.twoFactorEnabled (Storage.patch user on)) with true
      by (destruct user; reflexivity).
    reflexivity.
  - rewrite Hdisabled. reflexivity.
  - rewrite Hdisabled. cbn [storeOf fst]. eexists. split; [exact Hget2 |].
    destruct user; split; reflexivity.
  - rewrite Hdisabled. cbn [storeOf fst]. unfold twoFactorSetup, authenticated.
    rewrite (AuthFacts.requireAuth_next st2 sess i _ Hsess Hi Hget2)
      by (destruct user; exact Hactive).
    replace (Storage.twoFactorEnabled (Storage.patch (Storage.patch user on) off))
      with false by (destruct user; reflexivity).
    destruct (Hqr (qrCodeUrl (generateTwoFactorSecret envLater
                                (Storage.email (Storage.patch (Storage.patch user on) off)))))
      as [image ->].
    reflexivity.
Qed.

Lemma twoFactor_round_trip_witness :
  let enabled :=
    twoFactorVerify (Sample.env 0) Sample.store Sample.aliceSession
                    (Some "JBSWY3DPEHPK3PXP") (Some "JBSWY3DPEHPK3PXP") in
  let disabled :=
    twoFactorDisable (Sample.env 30) (storeOf enabled) Sample.aliceSession
                     (Some "JBSWY3DPEHPK3PXP") in
  responseOf disabled = json 200 "Two-factor authentication disabled successfully" /\
  Response.status (responseOf (twoFactorSetup (Sample.env 30) (storeOf disabled)
                                              Sample.aliceSession)) = 200%nat.
Proof.
  destruct (twoFactor_round_trip (Sample.env 0) (Sample.env 30) Sample.store
              Sample.aliceSession "user-1" Sample.alice
              "JBSWY3DPEHPK3PXP" "JBSWY3DPEHPK3PXP" "JBSWY3DPEHPK3PXP"
              eq_refl ltac:(discriminate) eq_refl ltac:(discriminate)
              ltac:(discriminate) ltac:(discriminate) ltac:(discriminate)
              eq_refl eq_refl ltac:(intros url; eexists; reflexivity))
    as [_ [Hdisabled [_ Hsetup]]].
  cbv zeta. split; [exact Hdisabled | exact Hsetup].
Defined.

(** X25. POST /2fa/setup never writes: whatever the request, the store
    and the session are as before, so the secret it hands out is not
    persisted. And a request the middleware answers (no session, unknown
    or deactivated user) gets that answer from each of the three
    two-factor endpoints, with store and session unchanged. *)
Theorem twoFactor_guarded (env : Env) (st : Storage.Store) (sess : Session.t) :
  storeOf (twoFactorSetup env st sess) = st /\
  sessionOf (twoFactorSetup env st sess) = sess /\
  (forall r secret token,
      requireAuth st sess = Respond r ->
      twoFactorSetup env st sess = (st, sess, r) /\
      twoFactorVerify env st sess secret token = (st, sess, r) /\
      twoFactorDisable env st sess token = (st, sess, r)).
Proof.
  unfold twoFactorSetup, twoFactorVerify, twoFactorDisable, authenticated.
  destruct (requireAuth st sess) as [r | user].
  - split; [reflexivity |]. split; [reflexivity |].
    intros r' secret token Hr. injection Hr as <-. repeat split.
  - destruct (Storage.twoFactorEnabled user).
    + split; [reflexivity |]. split; [reflexivity |]. intros r secret token Hr.
      discriminate Hr.
    + destruct (generateQRCodeDataURL env _);
        (split; [reflexivity |]; split; [reflexivity |]; intros r secret token Hr;
         discriminate Hr).
Qed.

Lemma twoFactor_guarded_witness :
  twoFactorVerify (Sample.env 0) Sample.store Sample.anonymous
                  (Some "JBSWY3DPEHPK3PXP") (Some "JBSWY3DPEHPK3PXP")
  = (Sample.store, Sample.anonymous, json 401 "Authentication required").
Proof.
  apply (proj2 (proj2 (twoFactor_guarded (Sample.env 0) Sample.store Sample.anonymous))
               (json 401 "Authentication required")
               (Some "JBSWY3DPEHPK3PXP") (Some "JBSWY3DPEHPK3PXP")).
  reflexivity.
Defined.

(** X26. POST /reset-password needs no login and makes the new password
    the one that verifies. Let bcrypt hashes carry the $2b$ prefix and
    verify against the password they were made from. Then, whatever the
    session, a reset with a password that meets the policy leaves a row in
    which only the password changed and whose stored hash
    [comparePasswords] accepts for the new password, and rejects for any
    password bcrypt rejects against it. *)
Theorem resetPassword_then_compare (env : Env) (st : Storage.Store) (sess : Session.t)
        (email newPassword : string) (user : Storage.User) :
  (forall p, Js.startsWith (hashPassword env p) "$2b$" = true) ->
  (forall p, bcryptCompare env p (hashPassword env p) = Ok true) ->
  passwordRegexTest newPassword = true ->
  Storage.getUserByEmail st email = Some user ->
  let done := resetPassword env st sess email newPassword in
  sessionOf done = sess /\
  exists row,
    Storage.getUserByEmail (storeOf done) email = Some row /\
    row = Storage.patch user [Storage.SetPassword (hashPassword env newPassword)] /\
    comparePasswords env newPassword (Storage.password row) = Ok true /\
    forall other,
      bcryptCompare env other (hashPassword env newPassword) = Ok false ->
      comparePasswords env other (Storage.password row) = Ok false.
Proof.
  intros Hprefix Hround Hpolicy Hget done. subst done. unfold resetPassword.
  rewrite Hpolicy, Hget. cbn [negb].
  rewrite (surjective_pairing (Storage.updateUser _ _ _)).
  cbn [sessionOf storeOf fst snd]. split; [reflexivity |].
  eexists. split; [apply AuthFacts.getUserByEmail_after_update, Hget |].
  split; [reflexivity |].
  replace (Storage.password (Storage.patch user _)) with (hashPassword env newPassword)
    by (destruct user; reflexivity).
  unfold comparePasswords, comparePasswordsTry. rewrite Hprefix. split.
  - rewrite Hround. reflexivity.
  - intros other ->. reflexivity.
Qed.

Lemma resetPassword_then_compare_witness :
  exists row,
    Storage.getUserByEmail
      (storeOf (resetPassword (Sample.env 0) Sample.store Sample.anonymous
                              "alice@example.com" "N3w!Passw0rd"))
      "alice@example.com" = Some row /\
    comparePasswords (Sample.env 0) "N3w!Passw0rd" (Storage.password row) = Ok true.
Proof.
  destruct (resetPassword_then_compare (Sample.env 0) Sample.store Sample.anonymous
              "alice@example.com" "N3w!Passw0rd" Sample.alice
              ltac:(intros p; reflexivity)
              ltac:(intros p; cbn; rewrite String.eqb_refl; reflexivity)
              eq_refl eq_refl) as [_ [row [Hrow [_ [Hok _]]]]].
  exists row. split; [exact Hrow | exact Hok].
Defined.

Lemma bytesEq_true a : forall b, bytesEq a b = true <-> a = b.
Proof.
  induction a as [| x a IH]; intros [| y b]; cbn [bytesEq]; split; intros H;
    try reflexivity; try discriminate.
  - apply andb_prop in H. destruct H as [Hx Hrest].
    apply Byte.byte_dec_bl in Hx. apply IH in Hrest. congruence.
  - injection H as -> ->. rewrite (Byte.byte_dec_lb (x:=y) (y:=y) eq_refl). cbn [andb].
    apply IH. reflexivity.
Qed.

(** X27. The legacy format. For a stored value without the bcrypt prefix
    whose salt (the text between the first dot and the next) is not empty,
    when the key derived from the supplied password and that salt has the
    length of the decoded digest, [comparePasswords] resolves to true
    exactly when the decoded digest is that key, and to false otherwise. *)
Theorem comparePasswords_legacy (env : Env) (supplied stored salt : string)
        (key : list Byte.byte) :
  Js.startsWith stored "$2b$" = false ->
  Legacy.saltPart stored = Some salt -> salt <> EmptyString ->
  scrypt env supplied salt 64 = Ok key ->
  length (bufferFromHex (Legacy.digestPart stored)) = length key ->
  exists result,
    comparePasswords env supplied stored = Ok result /\
    (result = true <-> bufferFromHex (Legacy.digestPart stored) = key).
Proof.
  intros Hprefix Hsalt Hnonempty Hkey Hlen.
  exists (bytesEq (bufferFromHex (Legacy.digestPart stored)) key). split.
  - unfold comparePasswords, comparePasswordsTry.
    rewrite Hprefix, AuthFacts.split_digest, AuthFacts.split_salt, Hsalt.
    rewrite (AuthFacts.truthy_Some _ Hnonempty). cbn [negb]. rewrite Hkey. cbn [bind].
    unfold timingSafeEqual. rewrite Hlen, Nat.eqb_refl. reflexivity.
  - apply bytesEq_true.
Qed.

Lemma comparePasswords_legacy_witness :
  comparePasswords (Sample.env 0) "Passw0rd!"
    ("00000000000000000000000000000000000000000000000000000000000000000000000000000000000000000000000000000000000000000000000000000000.salt")
  = Ok true.
Proof.
  destruct (comparePasswords_legacy (Sample.env 0) "Passw0rd!"
              ("00000000000000000000000000000000000000000000000000000000000000000000000000000000000000000000000000000000000000000000000000000000.salt")
              "salt" (repeat Byte.x00 64)
              eq_refl eq_refl ltac:(discriminate) eq_refl eq_refl)
    as [result [Hresult Hiff]].
  rewrite Hresult. f_equal. apply Hiff. reflexivity.
Defined.

(** X28. GET /user does not go through the middleware and does not look
    at the active flag: for a session that names a stored user it answers
    200 with that user's public fields, without the password hash or the
    two-factor secret and without touching store or session, even when the
    user is deactivated and [requireAuth] answers the same session 403. *)
Theorem getCurrentUser_ignores_deactivation (profileImageUrl : Storage.User -> Json)
        (st : Storage.Store) (sess : Session.t) (i : string) (user : Storage.User) :
  Session.userId sess = Some i -> i <> EmptyString ->
  Storage.getUser st i = Some user ->
  let done := Endpoints.getCurrentUser profileImageUrl st sess in
  Response.status (responseOf done) = 200%nat /\
  storeOf done = st /\ sessionOf done = sess /\
  Response.field (responseOf done) "email" = Some (JStr (Storage.email user)) /\
  Response.field (responseOf done) "role" = Some (JStr (Storage.role user)) /\
  Response.field (responseOf done) "password" = None /\
  Response.field (responseOf done) "twoFactorSecret" = None /\
  (Storage.isActive user = Some false ->
   requireAuth st sess = Respond (json 403 DEACTIVATED)).
Proof.
  intros Hsess Hi Hget done. subst done. unfold Endpoints.getCurrentUser.
  rewrite Hsess, (AuthFacts.truthy_Some _ Hi). cbn [negb text]. rewrite Hget.
  repeat split.
  intros Hoff. unfold requireAuth, Storage.getUserById.
  rewrite Hsess, (AuthFacts.truthy_Some _ Hi). cbn [negb text].
  rewrite Hget, Hoff. reflexivity.
Qed.

Lemma getCurrentUser_ignores_deactivation_witness :
  Response.status
    (responseOf (Endpoints.getCurrentUser (fun _ => JNull)
                   (deactivateUser Sample.store "user-1") Sample.aliceSession))
  = 200%nat /\
  requireAuth (deactivateUser Sample.store "user-1") Sample.aliceSession
  = Respond (json 403 DEACTIVATED).
Proof.
  edestruct (getCurrentUser_ignores_deactivation (fun _ => JNull)
               (deactivateUser Sample.store "user-1") Sample.aliceSession "user-1" _
               eq_refl ltac:(discriminate) eq_refl)
    as [Hstatus [_ [_ [_ [_ [_ [_ Hauth]]]]]]].
  split; [exact Hstatus | apply Hauth; reflexivity].
Defined.

Lemma sameOthers_refl i st : Frame.sameOthers i st st.
Proof. intros j _. reflexivity. Qed.

Lemma sameOthers_trans i st st1 st2 :
  Frame.sameOthers i st st1 -> Frame.sameOthers i st1 st2 -> Frame.sameOthers i st st2.
Proof. intros H1 H2 j Hj. rewrite (H2 j Hj). apply H1, Hj. Qed.

Lemma sameOthers_update i st fields :
  Frame.sameOthers i st (fst (Storage.updateUser st i fields)).
Proof. intros j Hj. apply getUser_update_other, Hj. Qed.

Lemma sameOthers_replace row st :
  Frame.sameOthers (Storage.id row) st
    (Storage.withUsers st (Storage.replaceOrAppend row (Storage.users st))).
Proof.
  intros j Hj. unfold Storage.getUser. cbn [Storage.users Storage.withUsers].
  induction (Storage.users st) as [| u rows IH]; cbn [Storage.replaceOrAppend find].
  - replace (Storage.id row =? j) with false
      by (symmetry; apply String.eqb_neq; congruence).
    reflexivity.
  - destruct (Storage.id u =? Storage.id row) eqn:E; cbn [find].
    + apply String.eqb_eq in E. rewrite E.
      replace (Storage.id row =? j) with false
        by (symmetry; apply String.eqb_neq; congruence).
      reflexivity.
    + destruct (Storage.id u =? j); [reflexivity | exact IH].
Qed.

(** The invariant carried through a branch: the other rows are as at the
    start, and [user], when defined, is the row with the fresh id. *)
Lemma updated_user_id st i fields u :
  snd (Storage.updateUser st i fields) = Some u -> Storage.id u = i.
Proof.
  rewrite StorageFacts.updateUser_returns.
  destruct (Storage.getUser st i) as [v |] eqn:Hget; cbn [option_map]; [| discriminate].
  intros H. injection H as <-. rewrite StorageFacts.patch_id.
  apply (StorageFacts.getUser_found_id st), Hget.
Qed.

Lemma framed_leaf i st0 sess0 st sess' resp :
  Frame.sameOthers i st0 st -> Frame.companiesGrow st0 st ->
  Frame.sessionKept i sess0 sess' ->
  Frame.framed i st0 sess0 (st, sess', resp).
Proof. intros H1 H2 H3. repeat split; assumption. Qed.

Lemma withUser_framed i st0 sess0 user st sess k :
  (forall u, user = Some u -> Frame.framed i st0 sess0 (k u)) ->
  Frame.framed i st0 sess0 (registrationError st sess) ->
  Frame.framed i st0 sess0 (withUser user st sess k).
Proof. intros Hk Herr. destruct user as [u |]; cbn [withUser]; auto. Qed.

Ltac leaf :=
  apply framed_leaf;
  [ assumption || (eapply sameOthers_trans; [eassumption | apply sameOthers_update])
  | assumption
  | (left; reflexivity) || (right; congruence) ].

Lemma registerTeamMember_framed env i st0 sess st body user :
  Frame.sameOthers i st0 st -> Frame.companiesGrow st0 st ->
  (forall u, user = Some u -> Storage.id u = i) ->
  Frame.framed i st0 sess (registerTeamMember env st sess body user).
Proof.
  intros Hsame Hgrow Hid. unfold registerTeamMember.
  destruct (negb (Js.truthy (RegisterBody.companyName body))); [leaf |].
  destruct (Storage.getCompanyByName st _); [| leaf].
  apply withUser_framed; [| unfold registrationError; leaf].
  intros u ->. rewrite (Hid u eq_refl).
  rewrite (surjective_pairing (Storage.updateUser _ _ _)).
  apply withUser_framed; [intros u' _ | unfold registrationError]; leaf.
Qed.

Lemma registerJoinRequest_framed env st0 sess st body userRole company :
  Frame.sameOthers (nanoid env) st0 st -> Frame.companiesGrow st0 st ->
  Frame.framed (nanoid env) st0 sess
    (registerJoinRequest env st sess body userRole company).
Proof.
  intros Hsame Hgrow. unfold registerJoinRequest, Storage.createUser,
                        Storage.createContractorJoinRequest.
  cbv beta iota zeta. apply framed_leaf; [| exact Hgrow | left; reflexivity].
  eapply sameOthers_trans; [exact Hsame |].
  intros j Hj.
  match goal with
  | |- Storage.getUser _ j = Storage.getUser st j =>
      exact (sameOthers_replace
               {| Storage.id := nanoid env;
                  Storage.email := RegisterBody.email body;
                  Storage.password := hashPassword env (RegisterBody.password body);
                  Storage.firstName := RegisterBody.firstName body;
                  Storage.lastName := RegisterBody.lastName body;
                  Storage.businessMobile := RegisterBody.businessMobile body;
                  Storage.role := userRole;
                  Storage.permissionLevel := "editor";
                  Storage.companyId := None;
                  Storage.isActive := Some false;
                  Storage.isEmailVerified := false;
                  Storage.emailVerifiedAt := None;
                  Storage.emailVerificationToken := Some (randomCode env);
                  Storage.verificationTokenExpiry := Some (now env + 10 * 60 * 1000)%Z;
                  Storage.resetToken := None;
                  Storage.resetExpiry := None;
                  Storage.twoFactorSecret := None;
                  Storage.twoFactorEnabled := false |} st j Hj)
  end.
Qed.

Lemma created_then_updated_framed i st0 sess st mk u fields resp :
  Frame.sameOthers i st0 st -> Storage.companies st = Storage.companies st0 ->
  Storage.id u = i ->
  Frame.framed i st0 sess
    (let '(st1, user) :=
       Storage.updateUser (fst (Storage.createCompany st mk)) (Storage.id u) fields in
     withUser user st1 sess
       (fun user => (st1, Session.setUserId sess (Storage.id user), resp user))).
Proof.
  intros Hsame Hcompanies Hid.
  rewrite (surjective_pairing (Storage.updateUser _ _ _)).
  assert (Hs : Frame.sameOthers i st0
                 (fst (Storage.updateUser (fst (Storage.createCompany st mk))
                         (Storage.id u) fields))).
  { intros j Hj. rewrite Hid. rewrite (getUser_update_other _ i fields j Hj).
    apply Hsame, Hj. }
  assert (Hg : Frame.companiesGrow st0
                 (fst (Storage.updateUser (fst (Storage.createCompany st mk))
                         (Storage.id u) fields))).
  { right. eexists. cbn [fst Storage.updateUser Storage.companies Storage.withUsers
                         Storage.createCompany].
    rewrite Hcompanies. reflexivity. }
  apply withUser_framed.
  - intros user Huser. apply framed_leaf; [exact Hs | exact Hg |].
    right. rewrite (updated_user_id _ _ _ _ Huser), Hid. reflexivity.
  - apply framed_leaf; [exact Hs | exact Hg | left; reflexivity].
Qed.

Lemma registerContractorCompany_framed env i st0 sess st body user :
  Frame.sameOthers i st0 st -> Storage.companies st = Storage.companies st0 ->
  (forall u, user = Some u -> Storage.id u = i) ->
  Frame.framed i st0 sess (registerContractorCompany env st sess body user).
Proof.
  intros Hsame Hcompanies Hid. unfold registerContractorCompany.
  destruct (generateContractorShortName st _) as [counter name].
  destruct (100 <? counter)%nat.
  - apply framed_leaf; [exact Hsame | left; exact Hcompanies | left; reflexivity].
  - rewrite (surjective_pairing (Storage.createCompany _ _)).
    apply withUser_framed.
    + intros u Hu. apply created_then_updated_framed; [exact Hsame | exact Hcompanies |].
      apply Hid, Hu.
    + apply framed_leaf; [exact Hsame | | left; reflexivity].
      right. eexists. cbn [fst Storage.createCompany Storage.companies].
      rewrite Hcompanies. reflexivity.
Qed.

Lemma registerContractor_framed env st0 sess st body userRole user :
  Frame.sameOthers (nanoid env) st0 st -> Storage.companies st = Storage.companies st0 ->
  (forall u, user = Some u -> Storage.id u = nanoid env) ->
  Frame.framed (nanoid env) st0 sess (registerContractor env st sess body userRole user).
Proof.
  intros Hsame Hcompanies Hid. unfold registerContractor.
  assert (Hgrow : Frame.companiesGrow st0 st) by (left; exact Hcompanies).
  destruct (_ && _ && _); [apply registerJoinRequest_framed; assumption |].
  destruct (_ || _ || _ || _ || _); [leaf |].
  cbv zeta. destruct (_ || _ || _ || _); [leaf |].
  apply registerContractorCompany_framed; assumption.
Qed.

Lemma registerOwnerOrDefault_framed env i st0 sess st body isCompanyOwner user :
  Frame.sameOthers i st0 st -> Storage.companies st = Storage.companies st0 ->
  (forall u, user = Some u -> Storage.id u = i) ->
  Frame.framed i st0 sess (registerOwnerOrDefault env st sess body isCompanyOwner user).
Proof.
  intros Hsame Hcompanies Hid. unfold registerOwnerOrDefault.
  assert (Hfinish : forall st' user',
             Frame.sameOthers i st0 st' -> Frame.companiesGrow st0 st' ->
             (forall u, user' = Some u -> Storage.id u = i) ->
             Frame.framed i st0 sess
               (if isCompanyOwner &&
                   match user' with
                   | Some u => Storage.isEmailVerified u
                   | None => true
                   end
                then
                  withUser user' st' sess
                    (fun user0 =>
                       (st', Session.setUserId sess (Storage.id user0),
                        {| Response.status := 201;
                           Response.body :=
                             [("message", JStr "Registration successful! Welcome to your dashboard.");
                              ("user", userJson user0 true true);
                              ("requiresEmailVerification", JBool false)] |}))
                else
                  if negb (sendEmailVerificationEmail env (RegisterBody.email body)
                             (RegisterBody.firstName body) (randomCode env))
                  then (st', sess,
                        json 500 "Failed to send verification email. Please try again.")
                  else
                    withUser user' st' sess
                      (fun user0 =>
                         (st', sess,
                          {| Response.status := 201;
                             Response.body :=
                               [("message", JStr "Registration successful! Please check your email for the verification code.");
                                ("requiresEmailVerification", JBool true);
                                ("email", JStr (RegisterBody.email body));
                                ("companyId", optNum (Storage.companyId user0))] |})))).
  { intros st' user' Hs Hg Hu.
    destruct (isCompanyOwner && _).
    - apply withUser_framed.
      + intros u Huser. apply framed_leaf; [exact Hs | exact Hg |].
        right. rewrite (Hu u Huser). reflexivity.
      + apply framed_leaf; [exact Hs | exact Hg | left; reflexivity].
    - destruct (negb _).
      + apply framed_leaf; [exact Hs | exact Hg | left; reflexivity].
      + apply withUser_framed; [intros u _ |];
          (apply framed_leaf; [exact Hs | exact Hg | left; reflexivity]). }
  assert (Hgrow : Frame.companiesGrow st0 st) by (left; exact Hcompanies).
  cbv zeta. destruct isCompanyOwner.
  - apply withUser_framed; [| unfold registrationError; leaf].
    intros u Hu. destruct (negb (Storage.isEmailVerified u)); [leaf |].
    destruct (_ || _ || _ || _ || _ || _ || _ || _ || _); [leaf |].
    destruct (_ || _ || _); [leaf |].
    match goal with
    | |- context [let '(counter, finalShortName) := ?chosen in _] =>
        destruct chosen as [counter finalShortName]
    end.
    destruct (100 <=? counter)%nat; [leaf |].
    rewrite (surjective_pairing (Storage.createCompany _ _)).
    rewrite (surjective_pairing (Storage.updateUser _ _ _)).
    apply (Hfinish _ _).
    + intros j Hj. rewrite (Hid u Hu). rewrite (getUser_update_other _ i _ j Hj).
      apply Hsame, Hj.
    + right. eexists. cbn [fst Storage.updateUser Storage.companies Storage.withUsers
                           Storage.createCompany].
      rewrite Hcompanies. reflexivity.
    + intros u' Hu'. rewrite (updated_user_id _ _ _ _ Hu'). apply Hid, Hu.
  - apply (Hfinish st user); assumption.
Qed.

(** X29. What a registration may change. Whatever the request, the store
    and the session it starts from, POST /register leaves every stored
    user other than the one with the freshly generated id as it was, adds
    at most one company and removes none, and leaves the session as it
    was or logs in the new user. *)
Theorem register_framed (env : Env) (st : Storage.Store) (sess : Session.t)
        (body : RegisterBody.t) :
  Frame.framed (nanoid env) st sess (register env st sess body).
Proof.
  assert (Hstart : forall resp, Frame.framed (nanoid env) st sess (st, sess, resp)).
  { intros resp. apply framed_leaf;
      [apply sameOthers_refl | left; reflexivity | left; reflexivity]. }
  unfold register.
  destruct (negb (passwordRegexTest (RegisterBody.password body))); [apply Hstart |].
  destruct (Storage.getUserByEmail st (RegisterBody.email body)); [apply Hstart |].
  unfold Storage.upsertUser. destruct (existsb _ (Storage.users st)).
  - destruct (Js.includes _ _); apply Hstart.
  - set (st1 := Storage.withUsers st _).
    assert (Hsame1 : Frame.sameOthers (nanoid env) st st1)
      by apply (sameOthers_replace (userDataOf env body) st).
    assert (Hbranches : forall st2 user,
               Frame.sameOthers (nanoid env) st st2 ->
               Storage.companies st2 = Storage.companies st ->
               (forall u, user = Some u -> Storage.id u = nanoid env) ->
               Frame.framed (nanoid env) st sess (registerBranches env st2 sess body user)).
    { intros st2 user Hs Hc Hu. unfold registerBranches.
      destruct (isTeamMemberOf body).
      - apply registerTeamMember_framed; [exact Hs | left; exact Hc | exact Hu].
      - destruct (_ || _).
        + apply registerContractor_framed; assumption.
        + apply registerOwnerOrDefault_framed; assumption. }
    unfold applySessionVerification.
    destruct (Js.strictEq (Session.emailVerified sess) (RegisterBody.email body)).
    + rewrite (surjective_pairing (Storage.updateUser _ _ _)).
      apply Hbranches.
      * eapply sameOthers_trans; [exact Hsame1 | apply sameOthers_update].
      * reflexivity.
      * intros u Hu. apply (updated_user_id _ _ _ _ Hu).
    + apply Hbranches; [exact Hsame1 | reflexivity |].
      intros u Hu. injection Hu as <-. reflexivity.
Qed.

End AuthExtras.
